(** * Meal and nutrient coverage engine of midwAIfe

    A shallow embedding of [app/meals/models.py] and [app/meals/service.py]
    (class [MealService]) together with the SQL statements the service
    sends to the store, and the properties of the aggregation engine.

    Conventions of the embedding.
    - Pydantic models are records, one module per model, with the field
      names of the source.
    - Python dictionaries whose iteration order is not observed are
      [gmap]s; [day_map], whose insertion order is the order of the
      returned list, is an association list.
    - [getattr]/[setattr] with a computed attribute name can raise
      [AttributeError]; such code lives in the [option] monad and is shown
      to return.
    - The relational store is a record of tables (lists of rows, in
      insertion order).  Each SQL statement of the service is a function on
      that record.  Primary keys are handed out by the store; they are
      naturals drawn from a counter.  The schema is not part of the sources:
      the only constraint used is the one the [ON CONFLICT] clause names,
      and the [updated_at] time stamp is left out. *)

From Stdlib Require Import List String Ascii ZArith Lia Bool Sorted Permutation.
From Stdlib Require OrdersEx DecimalString.
From stdpp Require Import gmap strings.
Import ListNotations.
Open Scope string_scope.
Open Scope list_scope.
Open Scope nat_scope.

(** ** Python helpers *)

(** Truthiness of the Python values that the service tests. *)
Definition truthy_list {A} (l : list A) : bool :=
  match l with [] => false | _ => true end.

Definition truthy_str (s : string) : bool :=
  match s with EmptyString => false | _ => true end.

Definition truthy_opt_str (s : option string) : bool :=
  match s with Some s => truthy_str s | None => false end.

Definition truthy_opt_bool (b : option bool) : bool :=
  match b with Some b => b | None => false end.

(** [x in l] on a list of strings. *)
Definition py_in (x : string) (l : list string) : bool := bool_decide (x ∈ l).

(** [any(iterable)]. *)
Definition any {A} (truth : A -> bool) (l : list A) : bool := existsb truth l.

(** A [for] loop whose body may raise. *)
Fixpoint for_each {S A} (body : S -> A -> option S) (l : list A) (s : S) : option S :=
  match l with
  | [] => Some s
  | x :: l' => s' ← body s x; for_each body l' s'
  end.

(** [enumerate(l)], counting from [i]. *)
Fixpoint enumerate_from {A} (i : Z) (l : list A) : list (Z * A) :=
  match l with
  | [] => []
  | x :: l' => (i, x) :: enumerate_from (i + 1) l'
  end.

Definition enumerate {A} (l : list A) : list (Z * A) := enumerate_from 0 l.

(** A dictionary that remembers insertion order: [d[k] = v] replaces in
    place or appends. *)
Fixpoint dict_get {V} (k : string) (d : list (string * V)) : option V :=
  match d with
  | [] => None
  | (k', v) :: d' => if String.eqb k k' then Some v else dict_get k d'
  end.

Fixpoint dict_set {V} (k : string) (v : V) (d : list (string * V))
  : list (string * V) :=
  match d with
  | [] => [(k, v)]
  | (k', v') :: d' =>
      if String.eqb k k' then (k', v) :: d' else (k', v') :: dict_set k v d'
  end.

Definition dict_mem {V} (k : string) (d : list (string * V)) : bool :=
  match dict_get k d with Some _ => true | None => false end.

Definition dict_values {V} (d : list (string * V)) : list V := map snd d.

(** ** SQL helpers *)

(** [ORDER BY]: insertion sort by a comparison; rows that compare equal
    keep their relative order. *)
Section OrderBy.
Context {A : Type} (leb : A -> A -> bool).

Fixpoint insert (x : A) (l : list A) : list A :=
  match l with
  | [] => [x]
  | y :: l' => if leb x y then x :: y :: l' else y :: insert x l'
  end.

Fixpoint order_by (l : list A) : list A :=
  match l with
  | [] => []
  | x :: l' => insert x (order_by l')
  end.
End OrderBy.

(** [l LEFT JOIN r ON on]: every row of [l] with each matching row of
    [r], or with NULLs when none matches. *)
Definition left_join {A B} (on : A -> B -> bool) (l : list A) (r : list B)
  : list (A * option B) :=
  flat_map (fun a =>
              match List.filter (on a) r with
              | [] => [(a, None)]
              | bs => map (fun b => (a, Some b)) bs
              end) l.

(** [MAX(col)] over the selected rows: NULL on no row. *)
Definition sql_max (l : list Z) : option Z :=
  match l with
  | [] => None
  | x :: l' => Some (fold_left Z.max l' x)
  end.

Definition coalesce (v : option Z) (d : Z) : Z :=
  match v with Some x => x | None => d end.

(** Ascending order of a nullable integer column: NULLs come last. *)
Definition nulls_last_leb (a b : option Z) : bool :=
  match a, b with
  | Some x, Some y => (x <=? y)%Z
  | Some _, None => true
  | None, Some _ => false
  | None, None => true
  end.

(** ** Identifiers and dates *)

Definition ident := nat.

(** [datetime.date], the Python value of a DATE column. *)
Record date := mkDate { year : Z; month : Z; day : Z }.

Definition date_valid (d : date) : Prop :=
  (1 <= year d <= 9999 /\ 1 <= month d <= 12 /\ 1 <= day d <= 31)%Z.

Definition date_le (a b : date) : Prop :=
  (year a < year b \/
   (year a = year b /\
    (month a < month b \/ (month a = month b /\ day a <= day b))))%Z.

Definition date_lt (a b : date) : Prop :=
  (year a < year b \/
   (year a = year b /\
    (month a < month b \/ (month a = month b /\ day a < day b))))%Z.

Definition date_leb (a b : date) : bool :=
  ((year a <? year b) ||
   ((year a =? year b) &&
    ((month a <? month b) || ((month a =? month b) && (day a <=? day b)))))%Z.

Definition date_eqb (a b : date) : bool :=
  ((year a =? year b) && (month a =? month b) && (day a =? day b))%Z.

Definition digit (n : Z) : ascii := ascii_of_nat (Z.to_nat (48 + n)).

Definition pad2 (n : Z) : string :=
  String (digit (n / 10 mod 10)) (String (digit (n mod 10)) EmptyString).

Definition pad4 (n : Z) : string :=
  String (digit (n / 1000 mod 10)) (String (digit (n / 100 mod 10)) (pad2 n)).

(** [str(d)] for a [datetime.date]: the ISO form [YYYY-MM-DD]. *)
Definition date_str (d : date) : string :=
  String.append (pad4 (year d))
    (String.append "-"
       (String.append (pad2 (month d)) (String.append "-" (pad2 (day d))))).

(** *** The calendar of [datetime]

    [date + timedelta(days=n)] moves [n] days forward in the proleptic
    Gregorian calendar and raises [OverflowError] past year 9999. *)

Definition is_leap (y : Z) : bool :=
  ((y mod 4 =? 0) && (negb (y mod 100 =? 0) || (y mod 400 =? 0)))%Z.

Definition days_in_month (y m : Z) : Z :=
  (if m =? 2 then (if is_leap y then 29 else 28)
   else if (m =? 4) || (m =? 6) || (m =? 9) || (m =? 11) then 30
   else 31)%Z.

(** The dates that exist: what [strptime] returns and a DATE column
    holds. *)
Definition calendar_date (d : date) : Prop :=
  (1 <= year d <= 9999 /\ 1 <= month d <= 12 /\
   1 <= day d <= days_in_month (year d) (month d))%Z.

Definition next_day (d : date) : date :=
  if (day d <? days_in_month (year d) (month d))%Z
  then mkDate (year d) (month d) (day d + 1)
  else if (month d <? 12)%Z then mkDate (year d) (month d + 1) 1
  else mkDate (year d + 1) 1 1.

(** [d + timedelta(days=n)] for [n >= 0]. *)
Definition add_days (n : nat) (d : date) : option date :=
  let d' := Nat.iter n next_day d in
  if (year d' <=? 9999)%Z then Some d' else None.

(** A number in decimal, without padding. *)
Definition decimal (n : Z) : string :=
  DecimalString.NilZero.string_of_uint (N.to_uint (Z.to_N n)).

(** [d.strftime('%Y-%m-%d')].  The conversion is the one of the C
    library: [%m] and [%d] are two digits, and [%Y] is the year in decimal
    with no padding, so that a year below 1000 has fewer than four
    digits. *)
Definition strftime (d : date) : string :=
  String.append (decimal (year d))
    (String.append "-"
       (String.append (pad2 (month d)) (String.append "-" (pad2 (day d))))).

(** ** Models ([meals/models.py]) *)

Module MicronutrientPresence.
Record t := mk {
  calcium : bool;
  iron : bool;
  folicAcid : bool;
  protein : bool;
  vitaminD : option bool;
  omega3 : option bool;
  fiber : option bool
}.
(** [MicronutrientPresence()]: every field at its default. *)
Definition init : t := mk false false false false None None None.
End MicronutrientPresence.

Module FoodItem.
Record t := mk {
  id : ident;
  name : string;
  portion : option string;
  macroCategory : option string;
  rainbowColor : option string;
  phytonutrientFocus : option string;
  containsMicronutrients : MicronutrientPresence.t;
  hasWarnings : bool;
  warningMessage : option string;
  warningType : option string;
  tags : option (list string);
  description : option string
}.
End FoodItem.

Module FoodItemCreate.
Record t := mk {
  name : string;
  portion : option string;
  macroCategory : option string;
  rainbowColor : option string;
  phytonutrientFocus : option string;
  containsMicronutrients : MicronutrientPresence.t;
  hasWarnings : bool;
  warningMessage : option string;
  warningType : option string;
  tags : option (list string);
  description : option string
}.
End FoodItemCreate.

Module Meal.
Record t := mk {
  id : ident;
  type : string;
  items : list FoodItem.t;
  containsMicronutrients : MicronutrientPresence.t;
  notes : option string
}.
End Meal.

Module DayMeals.
Record t := mk {
  breakfast : option Meal.t;
  snack1 : option Meal.t;
  lunch : option Meal.t;
  snack2 : option Meal.t;
  dinner : option Meal.t
}.
(** [DayMeals()]. *)
Definition init : t := mk None None None None None.
End DayMeals.

Module NutrientStatus.
Record t := mk {
  covered : bool;
  mealsCovered : list string;
  status : string
}.
End NutrientStatus.

Module DailySummary.
Record t := mk {
  calcium : NutrientStatus.t;
  iron : NutrientStatus.t;
  folicAcid : NutrientStatus.t;
  protein : NutrientStatus.t;
  hasWarnings : bool;
  missingNutrients : list string
}.
End DailySummary.

Module DayData.
Record t := mk {
  id : string;
  date : string;
  dayOfWeek : string;
  meals : DayMeals.t;
  dailySummary : DailySummary.t
}.
End DayData.

(** [getattr(meals, attr)] on a [DayMeals]; [None] is [AttributeError]. *)
Definition getattr (meals : DayMeals.t) (attr : string) : option (option Meal.t) :=
  if String.eqb attr "breakfast" then Some (DayMeals.breakfast meals)
  else if String.eqb attr "snack1" then Some (DayMeals.snack1 meals)
  else if String.eqb attr "lunch" then Some (DayMeals.lunch meals)
  else if String.eqb attr "snack2" then Some (DayMeals.snack2 meals)
  else if String.eqb attr "dinner" then Some (DayMeals.dinner meals)
  else None.

(** [setattr(meals, attr, v)] on a [DayMeals]. *)
Definition setattr (meals : DayMeals.t) (attr : string) (v : option Meal.t)
  : option DayMeals.t :=
  let '(DayMeals.mk b s1 l s2 d) := meals in
  if String.eqb attr "breakfast" then Some (DayMeals.mk v s1 l s2 d)
  else if String.eqb attr "snack1" then Some (DayMeals.mk b v l s2 d)
  else if String.eqb attr "lunch" then Some (DayMeals.mk b s1 v s2 d)
  else if String.eqb attr "snack2" then Some (DayMeals.mk b s1 l v d)
  else if String.eqb attr "dinner" then Some (DayMeals.mk b s1 l s2 v)
  else None.

(** ** Rows of the store *)

(** A row of [foods], as [SELECT *], [RETURNING *] and [f.*] deliver it:
    every column is a key of the dictionary, a NULL is [None]. *)
Module FoodRow.
Record t := mk {
  id : ident;
  name : string;
  portion : option string;
  macro_category : option string;
  rainbow_color : option string;
  phytonutrient_focus : option string;
  is_safe_pregnancy : option bool;
  warning_message : option string;
  warning_type : option string;
  tags : option (list string);
  description : option string
}.
End FoodRow.

(** ** Helper methods of [MealService] *)

(** [_map_food_item(row, nutrients=None)]. *)
Definition _map_food_item (row : FoodRow.t) (nutrients : option (list string))
  : FoodItem.t :=
  let nutrients := match nutrients with None => [] | Some l => l end in
  FoodItem.mk
    (FoodRow.id row)
    (FoodRow.name row)
    (FoodRow.portion row)
    (FoodRow.macro_category row)
    (FoodRow.rainbow_color row)
    (FoodRow.phytonutrient_focus row)
    (MicronutrientPresence.mk
       (py_in "calcium" nutrients)
       (py_in "iron" nutrients)
       (py_in "folate" nutrients)
       (py_in "protein" nutrients)
       (if truthy_list nutrients then Some (py_in "vitamin_d" nutrients) else None)
       (if truthy_list nutrients then Some (py_in "dha" nutrients) else None)
       (if truthy_list nutrients then Some (py_in "fiber" nutrients) else None))
    (negb (truthy_opt_bool (FoodRow.is_safe_pregnancy row))
     || truthy_opt_str (FoodRow.warning_message row))
    (FoodRow.warning_message row)
    (FoodRow.warning_type row)
    (FoodRow.tags row)
    (FoodRow.description row).

(** [_aggregate_micronutrients(items)].  The three generators with an
    [if] clause keep the truthy values only; [any] yields a [bool]. *)
Definition _aggregate_micronutrients (items : list FoodItem.t)
  : MicronutrientPresence.t :=
  let cm := map FoodItem.containsMicronutrients items in
  MicronutrientPresence.mk
    (any id (map MicronutrientPresence.calcium cm))
    (any id (map MicronutrientPresence.iron cm))
    (any id (map MicronutrientPresence.folicAcid cm))
    (any id (map MicronutrientPresence.protein cm))
    (Some (any truthy_opt_bool
             (List.filter truthy_opt_bool (map MicronutrientPresence.vitaminD cm))))
    (Some (any truthy_opt_bool
             (List.filter truthy_opt_bool (map MicronutrientPresence.omega3 cm))))
    (Some (any truthy_opt_bool
             (List.filter truthy_opt_bool (map MicronutrientPresence.fiber cm)))).

(** The slot attributes, in the order both loops of the service use. *)
Definition MEAL_ATTRS : list string :=
  ["breakfast"; "snack1"; "lunch"; "snack2"; "dinner"].

(** One entry of the [coverage] dictionary of [_calculate_daily_summary]. *)
Module Coverage.
Record entry := mkEntry { meals : list string; covered : bool }.
Record t := mk { calcium : entry; iron : entry; folicAcid : entry; protein : entry }.
Definition init : t :=
  mk (mkEntry [] false) (mkEntry [] false) (mkEntry [] false) (mkEntry [] false).
(** [entry['meals'].append(attr); entry['covered'] = True]. *)
Definition mark (attr : string) (e : entry) : entry :=
  mkEntry (meals e ++ [attr]) true.
End Coverage.

Definition get_status (covered : bool) (meal_count : nat) : string :=
  if negb covered then "missing"
  else if 2 <=? meal_count then "good"
  else "moderate".

(** Body of the loop over the slots in [_calculate_daily_summary]; the
    state is [coverage] and [has_warnings]. *)
Definition summary_step (meals : DayMeals.t) (st : Coverage.t * bool)
  (meal_attr : string) : option (Coverage.t * bool) :=
  meal ← getattr meals meal_attr;
  match meal with
  | None => Some st
  | Some meal =>
      let '(Coverage.mk ca fe fo pr, has_warnings) := st in
      let cm := Meal.containsMicronutrients meal in
      let ca := if MicronutrientPresence.calcium cm
                then Coverage.mark meal_attr ca else ca in
      let fe := if MicronutrientPresence.iron cm
                then Coverage.mark meal_attr fe else fe in
      let fo := if MicronutrientPresence.folicAcid cm
                then Coverage.mark meal_attr fo else fo in
      let pr := if MicronutrientPresence.protein cm
                then Coverage.mark meal_attr pr else pr in
      let has_warnings :=
        if any FoodItem.hasWarnings (Meal.items meal) then true else has_warnings in
      Some (Coverage.mk ca fe fo pr, has_warnings)
  end.

Definition nutrient_status (e : Coverage.entry) : NutrientStatus.t :=
  NutrientStatus.mk (Coverage.covered e) (Coverage.meals e)
    (get_status (Coverage.covered e) (length (Coverage.meals e))).

(** [_calculate_daily_summary(meals)]. *)
Definition _calculate_daily_summary (meals : DayMeals.t) : option DailySummary.t :=
  '(coverage, has_warnings) ← for_each (summary_step meals) MEAL_ATTRS
                                (Coverage.init, false);
  let missing_nutrients := [] in
  let missing_nutrients :=
    if negb (Coverage.covered (Coverage.calcium coverage))
    then missing_nutrients ++ ["Calcium"] else missing_nutrients in
  let missing_nutrients :=
    if negb (Coverage.covered (Coverage.iron coverage))
    then missing_nutrients ++ ["Iron"] else missing_nutrients in
  let missing_nutrients :=
    if negb (Coverage.covered (Coverage.folicAcid coverage))
    then missing_nutrients ++ ["Folic Acid"] else missing_nutrients in
  let missing_nutrients :=
    if negb (Coverage.covered (Coverage.protein coverage))
    then missing_nutrients ++ ["Protein"] else missing_nutrients in
  Some (DailySummary.mk
          (nutrient_status (Coverage.calcium coverage))
          (nutrient_status (Coverage.iron coverage))
          (nutrient_status (Coverage.folicAcid coverage))
          (nutrient_status (Coverage.protein coverage))
          has_warnings
          missing_nutrients).

(** The literal dictionary of [_map_meal_type_to_key]. *)
Definition mapping : gmap string string :=
  <["Dinner" := "dinner"]>
    (<["Snack 2" := "snack2"]>
       (<["Lunch" := "lunch"]>
          (<["Snack 1" := "snack1"]>
             (<["Breakfast" := "breakfast"]> ∅)))).

(** [_map_meal_type_to_key(meal_type)] = [mapping.get(meal_type, 'breakfast')]. *)
Definition _map_meal_type_to_key (meal_type : string) : string :=
  default "breakfast" (mapping !! meal_type).

(** ** The store *)

Module MealRow.
Record t := mk {
  id : ident;
  user_id : string;
  log_date : date;
  day_of_week : string;
  meal_type : string;
  notes : option string
}.
Definition set_day_of_week (dow : string) (r : t) : t :=
  mk (id r) (user_id r) (log_date r) dow (meal_type r) (notes r).
End MealRow.

Module MealItemRow.
Record t := mk {
  id : ident;
  meal_id : ident;
  food_id : ident;
  sort_order : Z
}.
End MealItemRow.

Module NutrientRow.
Record t := mk { id : ident; name : string }.
End NutrientRow.

Module FoodNutrientRow.
Record t := mk { food_id : ident; nutrient_id : ident; is_present : bool }.
End FoodNutrientRow.

Module Store.
Record t := mk {
  foods : list FoodRow.t;
  meals : list MealRow.t;
  meal_items : list MealItemRow.t;
  nutrients : list NutrientRow.t;
  food_nutrients : list FoodNutrientRow.t;
  next_id : ident
}.
Definition set_foods (db : t) v :=
  mk v (meals db) (meal_items db) (nutrients db) (food_nutrients db) (next_id db).
Definition set_meals (db : t) v :=
  mk (foods db) v (meal_items db) (nutrients db) (food_nutrients db) (next_id db).
Definition set_meal_items (db : t) v :=
  mk (foods db) (meals db) v (nutrients db) (food_nutrients db) (next_id db).
Definition set_food_nutrients (db : t) v :=
  mk (foods db) (meals db) (meal_items db) (nutrients db) v (next_id db).
(** The key of the row being inserted; the counter moves on. *)
Definition fresh (db : t) : t * ident :=
  (mk (foods db) (meals db) (meal_items db) (nutrients db) (food_nutrients db)
      (S (next_id db)),
   next_id db).
End Store.

(** A row of the range query of [get_meals_by_date_range]: the columns of
    the meal, of the joined item and of the joined food ([f.*], all NULL
    when no food is joined). *)
Module RangeRow.
Record t := mk {
  meal_id : ident;
  meal_date : date;
  day_of_week : string;
  meal_type : string;
  meal_notes : option string;
  meal_item_id : option ident;
  sort_order : option Z;
  food : option FoodRow.t
}.
End RangeRow.

(** ** The SQL statements of the service *)

(** The conflict target [(user_id, log_date, meal_type)]. *)
Definition same_slot (user_id : string) (log_date : date) (meal_type : string)
  (m : MealRow.t) : bool :=
  String.eqb (MealRow.user_id m) user_id
  && date_eqb (MealRow.log_date m) log_date
  && String.eqb (MealRow.meal_type m) meal_type.

(** [INSERT INTO meals ... ON CONFLICT (user_id, log_date, meal_type)
    DO UPDATE SET day_of_week = EXCLUDED.day_of_week RETURNING id]. *)
Definition sql_upsert_meal (db : Store.t) (user_id : string) (log_date : date)
  (day_of_week meal_type : string) : Store.t * ident :=
  match find (same_slot user_id log_date meal_type) (Store.meals db) with
  | Some m =>
      (Store.set_meals db
         (map (fun r => if same_slot user_id log_date meal_type r
                        then MealRow.set_day_of_week day_of_week r else r)
              (Store.meals db)),
       MealRow.id m)
  | None =>
      let '(db, new_id) := Store.fresh db in
      (Store.set_meals db
         (Store.meals db
          ++ [MealRow.mk new_id user_id log_date day_of_week meal_type None]),
       new_id)
  end.

(** [DELETE FROM meal_items WHERE meal_id = %s]. *)
Definition sql_delete_meal_items (db : Store.t) (meal_id : ident) : Store.t :=
  Store.set_meal_items db
    (List.filter (fun i => negb (MealItemRow.meal_id i =? meal_id))
       (Store.meal_items db)).

(** [INSERT INTO meal_items (meal_id, food_id, sort_order) VALUES (%s, %s, %s)]. *)
Definition sql_insert_meal_item (db : Store.t) (meal_id food_id : ident)
  (sort_order : Z) : Store.t :=
  let '(db, new_id) := Store.fresh db in
  Store.set_meal_items db
    (Store.meal_items db ++ [MealItemRow.mk new_id meal_id food_id sort_order]).

(** [SELECT COALESCE(MAX(sort_order), -1) + 1 as next_order
    FROM meal_items WHERE meal_id = %s]. *)
Definition sql_next_order (db : Store.t) (meal_id : ident) : Z :=
  let max_order :=
    sql_max (map MealItemRow.sort_order
               (List.filter (fun i => MealItemRow.meal_id i =? meal_id)
                  (Store.meal_items db))) in
  (coalesce max_order (-1) + 1)%Z.

(** [DELETE FROM meal_items WHERE meal_id = %s AND food_id = %s]. *)
Definition sql_delete_meal_item (db : Store.t) (meal_id food_id : ident) : Store.t :=
  Store.set_meal_items db
    (List.filter
       (fun i => negb ((MealItemRow.meal_id i =? meal_id)
                       && (MealItemRow.food_id i =? food_id)))
       (Store.meal_items db)).

(** [INSERT INTO foods (...) VALUES (...) RETURNING *] of [create_food]. *)
Definition sql_insert_food (db : Store.t) (food : FoodItemCreate.t)
  : Store.t * FoodRow.t :=
  let '(db, new_id) := Store.fresh db in
  let row :=
    FoodRow.mk new_id
      (FoodItemCreate.name food)
      (FoodItemCreate.portion food)
      (FoodItemCreate.macroCategory food)
      (FoodItemCreate.rainbowColor food)
      (FoodItemCreate.phytonutrientFocus food)
      (Some (negb (FoodItemCreate.hasWarnings food)))
      (FoodItemCreate.warningMessage food)
      (FoodItemCreate.warningType food)
      (FoodItemCreate.tags food)
      (FoodItemCreate.description food) in
  (Store.set_foods db (Store.foods db ++ [row]), row).

(** [INSERT INTO food_nutrients (food_id, nutrient_id, is_present)
    SELECT %s, id, true FROM nutrients WHERE name IN (...)]. *)
Definition sql_insert_food_nutrients (db : Store.t) (food_id : ident)
  (names : list string) : Store.t :=
  Store.set_food_nutrients db
    (Store.food_nutrients db
     ++ map (fun n => FoodNutrientRow.mk food_id (NutrientRow.id n) true)
          (List.filter (fun n => py_in (NutrientRow.name n) names)
             (Store.nutrients db))).

(** [SELECT fn.food_id, n.name FROM food_nutrients fn
    JOIN nutrients n ON fn.nutrient_id = n.id
    WHERE fn.food_id IN (...) AND fn.is_present = true]. *)
Definition sql_select_food_nutrients (db : Store.t) (food_ids : list ident)
  : list (ident * string) :=
  flat_map
    (fun fn =>
       flat_map
         (fun n =>
            if (FoodNutrientRow.nutrient_id fn =? NutrientRow.id n)
               && existsb (Nat.eqb (FoodNutrientRow.food_id fn)) food_ids
               && FoodNutrientRow.is_present fn
            then [(FoodNutrientRow.food_id fn, NutrientRow.name n)] else [])
         (Store.nutrients db))
    (Store.food_nutrients db).

(** [ORDER BY m.log_date, m.meal_type, mi.sort_order]. *)
Definition range_order_leb (a b : RangeRow.t) : bool :=
  if date_eqb (RangeRow.meal_date a) (RangeRow.meal_date b) then
    if String.eqb (RangeRow.meal_type a) (RangeRow.meal_type b)
    then nulls_last_leb (RangeRow.sort_order a) (RangeRow.sort_order b)
    else String.leb (RangeRow.meal_type a) (RangeRow.meal_type b)
  else date_leb (RangeRow.meal_date a) (RangeRow.meal_date b).

(** The range query of [get_meals_by_date_range]: meals LEFT JOIN items
    LEFT JOIN foods, WHERE on user and inclusive dates, ORDER BY. *)
Definition sql_select_meals_range (db : Store.t) (user_id : string)
  (start_date end_date : date) : list RangeRow.t :=
  let m_mi :=
    left_join (fun m mi => MealRow.id m =? MealItemRow.meal_id mi)
      (Store.meals db) (Store.meal_items db) in
  let m_mi_f :=
    left_join (fun '(_, mi) f =>
                 match mi with
                 | Some mi => MealItemRow.food_id mi =? FoodRow.id f
                 | None => false
                 end)
      m_mi (Store.foods db) in
  let selected :=
    List.filter (fun '((m, _), _) =>
                   String.eqb (MealRow.user_id m) user_id
                   && date_leb start_date (MealRow.log_date m)
                   && date_leb (MealRow.log_date m) end_date)
      m_mi_f in
  order_by range_order_leb
    (map (fun '((m, mi), f) =>
            RangeRow.mk (MealRow.id m) (MealRow.log_date m)
              (MealRow.day_of_week m) (MealRow.meal_type m) (MealRow.notes m)
              (option_map MealItemRow.id mi)
              (option_map MealItemRow.sort_order mi)
              f)
       selected).

(** ** The service methods *)

(** [_get_food_nutrients_map(food_ids)]. *)
Definition _get_food_nutrients_map (db : Store.t) (food_ids : list ident)
  : gmap ident (list string) :=
  if negb (truthy_list food_ids) then ∅
  else
    fold_left
      (fun (nutrients_map : gmap ident (list string)) '(food_id, name) =>
         let nutrients_map :=
           match nutrients_map !! food_id with
           | None => <[food_id := []]> nutrients_map
           | Some _ => nutrients_map
           end in
         <[food_id := default [] (nutrients_map !! food_id) ++ [name]]> nutrients_map)
      (sql_select_food_nutrients db food_ids) ∅.

(** [if flag: nutrients.append(name)]. *)
Definition append_if (flag : bool) (name : string) (nutrients : list string)
  : list string :=
  if flag then nutrients ++ [name] else nutrients.

(** [_insert_nutrient_mappings(food_id, micronutrients)]. *)
Definition _insert_nutrient_mappings (db : Store.t) (food_id : ident)
  (micronutrients : MicronutrientPresence.t) : Store.t :=
  let nutrients := [] in
  let nutrients :=
    append_if (MicronutrientPresence.calcium micronutrients) "calcium" nutrients in
  let nutrients :=
    append_if (MicronutrientPresence.iron micronutrients) "iron" nutrients in
  let nutrients :=
    append_if (MicronutrientPresence.folicAcid micronutrients) "folate" nutrients in
  let nutrients :=
    append_if (MicronutrientPresence.protein micronutrients) "protein" nutrients in
  let nutrients :=
    append_if (truthy_opt_bool (MicronutrientPresence.vitaminD micronutrients))
      "vitamin_d" nutrients in
  let nutrients :=
    append_if (truthy_opt_bool (MicronutrientPresence.omega3 micronutrients))
      "dha" nutrients in
  let nutrients :=
    append_if (truthy_opt_bool (MicronutrientPresence.fiber micronutrients))
      "fiber" nutrients in
  if truthy_list nutrients
  then sql_insert_food_nutrients db food_id nutrients
  else db.

(** [create_food(food)]: the store afterwards and the returned item. *)
Definition create_food (db : Store.t) (food : FoodItemCreate.t)
  : Store.t * FoodItem.t :=
  let '(db, result) := sql_insert_food db food in
  let food_id := FoodRow.id result in
  let db := _insert_nutrient_mappings db food_id
              (FoodItemCreate.containsMicronutrients food) in
  (db, _map_food_item result None).

(** The [DayData] that the first row of a date puts into [day_map]. *)
Definition new_day_data (date_key day_of_week : string) : DayData.t :=
  let missing := NutrientStatus.mk false [] "missing" in
  DayData.mk date_key date_key day_of_week DayMeals.init
    (DailySummary.mk missing missing missing missing false []).

Definition set_day_meals (day_data : DayData.t) (meals : DayMeals.t) : DayData.t :=
  DayData.mk (DayData.id day_data) (DayData.date day_data)
    (DayData.dayOfWeek day_data) meals (DayData.dailySummary day_data).

Definition append_item (meal : Meal.t) (food_item : FoodItem.t) : Meal.t :=
  Meal.mk (Meal.id meal) (Meal.type meal) (Meal.items meal ++ [food_item])
    (Meal.containsMicronutrients meal) (Meal.notes meal).

Definition set_meal_micronutrients (meal : Meal.t) (cm : MicronutrientPresence.t)
  : Meal.t :=
  Meal.mk (Meal.id meal) (Meal.type meal) (Meal.items meal) cm (Meal.notes meal).

(** Body of the grouping loop of [get_meals_by_date_range].  [day_data]
    is the object stored under [date_key]; its mutation is written back
    under the same key. *)
Definition group_row (nutrients_map : gmap ident (list string))
  (day_map : list (string * DayData.t)) (row : RangeRow.t)
  : option (list (string * DayData.t)) :=
  let date_key := date_str (RangeRow.meal_date row) in
  let day_map :=
    if negb (dict_mem date_key day_map)
    then dict_set date_key (new_day_data date_key (RangeRow.day_of_week row)) day_map
    else day_map in
  day_data ← dict_get date_key day_map;
  let meal_type_key := _map_meal_type_to_key (RangeRow.meal_type row) in
  current_meal ← getattr (DayData.meals day_data) meal_type_key;
  meals ← match current_meal with
           | None =>
               setattr (DayData.meals day_data) meal_type_key
                 (Some (Meal.mk (RangeRow.meal_id row) (RangeRow.meal_type row) []
                          MicronutrientPresence.init (RangeRow.meal_notes row)))
           | Some _ => Some (DayData.meals day_data)
           end;
  meals ← match RangeRow.food row with
           | Some food_row =>
               let food_item :=
                 _map_food_item food_row
                   (Some (default [] (nutrients_map !! FoodRow.id food_row))) in
               current_meal ← getattr meals meal_type_key;
               current_meal ← current_meal;
               setattr meals meal_type_key (Some (append_item current_meal food_item))
           | None => Some meals
           end;
  Some (dict_set date_key (set_day_meals day_data meals) day_map).

(** Body of the inner loop of the second pass. *)
Definition aggregate_slot (meals : DayMeals.t) (meal_attr : string)
  : option DayMeals.t :=
  meal ← getattr meals meal_attr;
  match meal with
  | Some meal =>
      setattr meals meal_attr
        (Some (set_meal_micronutrients meal
                 (_aggregate_micronutrients (Meal.items meal))))
  | None => Some meals
  end.

(** Body of the outer loop of the second pass. *)
Definition summarise_day (day_data : DayData.t) : option DayData.t :=
  meals ← for_each aggregate_slot MEAL_ATTRS (DayData.meals day_data);
  summary ← _calculate_daily_summary meals;
  Some (DayData.mk (DayData.id day_data) (DayData.date day_data)
          (DayData.dayOfWeek day_data) meals summary).

(** [get_meals_by_date_range(user_id, start_date, end_date)].  The two
    date parameters are the values the store casts the strings to. *)
Definition get_meals_by_date_range (db : Store.t) (user_id : string)
  (start_date end_date : date) : option (list DayData.t) :=
  let results := sql_select_meals_range db user_id start_date end_date in
  let food_ids : list ident :=
    elements (list_to_set (omap (fun row => FoodRow.id <$> RangeRow.food row) results)
              : gset ident) in
  let nutrients_map := _get_food_nutrients_map db food_ids in
  day_map ← for_each (group_row nutrients_map) results [];
  mapM summarise_day (dict_values day_map).

(** [upsert_meal(user_id, date, day_of_week, meal_type, food_item_ids)].
    The [queries] list of the source is built and never run. *)
Definition upsert_meal (db : Store.t) (user_id : string) (date : date)
  (day_of_week meal_type : string) (food_item_ids : list ident) : Store.t :=
  let '(db, meal_id) := sql_upsert_meal db user_id date day_of_week meal_type in
  let db := sql_delete_meal_items db meal_id in
  if truthy_list food_item_ids then
    fold_left
      (fun db '(idx, food_item_id) => sql_insert_meal_item db meal_id food_item_id idx)
      (enumerate food_item_ids) db
  else db.

(** [add_meal_item(user_id, date, day_of_week, meal_type, food_item_id)]. *)
Definition add_meal_item (db : Store.t) (user_id : string) (date : date)
  (day_of_week meal_type : string) (food_item_id : ident) : Store.t :=
  let '(db, meal_id) := sql_upsert_meal db user_id date day_of_week meal_type in
  let next_order := sql_next_order db meal_id in
  sql_insert_meal_item db meal_id food_item_id next_order.

(** [remove_meal_item(meal_id, food_item_id)]. *)
Definition remove_meal_item (db : Store.t) (meal_id food_item_id : ident) : Store.t :=
  sql_delete_meal_item db meal_id food_item_id.

(** ** More of the service *)

(** [SELECT * FROM foods WHERE id = %s], first row. *)
Definition sql_select_food_by_id (db : Store.t) (food_id : ident) : option FoodRow.t :=
  find (fun f => FoodRow.id f =? food_id) (Store.foods db).

(** [get_food_by_id(food_id)]. *)
Definition get_food_by_id (db : Store.t) (food_id : ident) : option FoodItem.t :=
  match sql_select_food_by_id db food_id with
  | None => None
  | Some result =>
      let nutrients_map := _get_food_nutrients_map db [FoodRow.id result] in
      Some (_map_food_item result
              (Some (default [] (nutrients_map !! FoodRow.id result))))
  end.

(** [SELECT * FROM foods ORDER BY name]. *)
Definition sql_select_foods (db : Store.t) : list FoodRow.t :=
  order_by (fun a b => String.leb (FoodRow.name a) (FoodRow.name b)) (Store.foods db).

(** [get_all_foods()]. *)
Definition get_all_foods (db : Store.t) : list FoodItem.t :=
  let results := sql_select_foods db in
  let food_ids := map FoodRow.id results in
  let nutrients_map := _get_food_nutrients_map db food_ids in
  map (fun row =>
         _map_food_item row (Some (default [] (nutrients_map !! FoodRow.id row))))
    results.

(** [SELECT * FROM foods WHERE name ILIKE %s ORDER BY name LIMIT 20].
    [ilike name pattern] is the store's case-insensitive pattern match. *)
Definition sql_search_foods (ilike : string -> string -> bool) (db : Store.t)
  (pattern : string) : list FoodRow.t :=
  firstn 20
    (order_by (fun a b => String.leb (FoodRow.name a) (FoodRow.name b))
       (List.filter (fun f => ilike (FoodRow.name f) pattern) (Store.foods db))).

(** [search_foods(query)]; the pattern is [f'%{query}%']. *)
Definition search_foods (ilike : string -> string -> bool) (db : Store.t)
  (query : string) : list FoodItem.t :=
  let results :=
    sql_search_foods ilike db (String.append "%" (String.append query "%")) in
  let food_ids := map FoodRow.id results in
  let nutrients_map := _get_food_nutrients_map db food_ids in
  map (fun row =>
         _map_food_item row (Some (default [] (nutrients_map !! FoodRow.id row))))
    results.

(** [delete_meal(meal_id)]: [DELETE FROM meals WHERE id = %s].  What the
    store does to the items of the meal is not in the sources; the item
    table is left as it is. *)
Definition delete_meal (db : Store.t) (meal_id : ident) : Store.t :=
  Store.set_meals db
    (List.filter (fun m => negb (MealRow.id m =? meal_id)) (Store.meals db)).

(** [get_week_meals(user_id, start_date)].  [strptime] is
    [datetime.strptime(_, '%Y-%m-%d')], [None] for the strings it raises
    [ValueError] on.  [to_date] is the date that the store reads from a
    string compared with a DATE column, [None] for the strings it rejects.
    The start date reaches the store as the string of the caller, the end
    date as the string that [strftime] prints. *)
Definition get_week_meals (strptime to_date : string -> option date)
  (db : Store.t) (user_id start_date : string) : option (list DayData.t) :=
  start ← strptime start_date;
  last ← add_days 6 start;
  let end_date := strftime last in
  range_start ← to_date start_date;
  range_end ← to_date end_date;
  get_meals_by_date_range db user_id range_start range_end.

(** ** Reading a slot back *)

(** The header of the slot [(user_id, log_date, meal_type)], if any. *)
Definition find_slot (db : Store.t) (user_id : string) (log_date : date)
  (meal_type : string) : option MealRow.t :=
  find (same_slot user_id log_date meal_type) (Store.meals db).

(** The item rows of a meal, in table order. *)
Definition item_rows (db : Store.t) (meal_id : ident) : list MealItemRow.t :=
  List.filter (fun i => MealItemRow.meal_id i =? meal_id) (Store.meal_items db).

(** Ascending [sort_order]. *)
Definition by_sort_order (a b : MealItemRow.t) : bool :=
  (MealItemRow.sort_order a <=? MealItemRow.sort_order b)%Z.

(** The item rows of a meal in the order a reader sees them
    ([ORDER BY mi.sort_order]). *)
Definition ordered_items (db : Store.t) (meal_id : ident) : list MealItemRow.t :=
  order_by by_sort_order (item_rows db meal_id).

(** The food ids of a slot, in reading order; [None] when the slot has no
    header. *)
Definition slot_foods (db : Store.t) (user_id : string) (log_date : date)
  (meal_type : string) : option (list ident) :=
  match find_slot db user_id log_date meal_type with
  | Some m => Some (map MealItemRow.food_id (ordered_items db (MealRow.id m)))
  | None => None
  end.

(** Keys handed out so far are below the counter, and no item refers to a
    meal key that was never handed out. *)
Definition keys_allocated (db : Store.t) : Prop :=
  (forall m, In m (Store.meals db) -> MealRow.id m < Store.next_id db) /\
  (forall i, In i (Store.meal_items db) ->
             MealItemRow.id i < Store.next_id db /\
             MealItemRow.meal_id i < Store.next_id db).

(** Every stored meal date is a [datetime.date]. *)
Definition dates_valid (db : Store.t) : Prop :=
  forall m, In m (Store.meals db) -> date_valid (MealRow.log_date m).

(** Every stored meal date exists in the calendar. *)
Definition calendar_dates (db : Store.t) : Prop :=
  forall m, In m (Store.meals db) -> calendar_date (MealRow.log_date m).

(** ** Vocabulary of the properties *)

(** The four core nutrients of the daily summary. *)
Inductive core_nutrient := Calcium | Iron | FolicAcid | Protein.

Definition core_nutrients : list core_nutrient := [Calcium; Iron; FolicAcid; Protein].

Definition display_name (n : core_nutrient) : string :=
  match n with
  | Calcium => "Calcium"
  | Iron => "Iron"
  | FolicAcid => "Folic Acid"
  | Protein => "Protein"
  end.

Definition presence_flag (n : core_nutrient) (cm : MicronutrientPresence.t) : bool :=
  match n with
  | Calcium => MicronutrientPresence.calcium cm
  | Iron => MicronutrientPresence.iron cm
  | FolicAcid => MicronutrientPresence.folicAcid cm
  | Protein => MicronutrientPresence.protein cm
  end.

Definition summary_entry (n : core_nutrient) (s : DailySummary.t) : NutrientStatus.t :=
  match n with
  | Calcium => DailySummary.calcium s
  | Iron => DailySummary.iron s
  | FolicAcid => DailySummary.folicAcid s
  | Protein => DailySummary.protein s
  end.

Definition coverage_entry (n : core_nutrient) (c : Coverage.t) : Coverage.entry :=
  match n with
  | Calcium => Coverage.calcium c
  | Iron => Coverage.iron c
  | FolicAcid => Coverage.folicAcid c
  | Protein => Coverage.protein c
  end.

(** The five slots of a day with their names, in the fixed order. *)
Definition day_slots (meals : DayMeals.t) : list (string * option Meal.t) :=
  [("breakfast", DayMeals.breakfast meals);
   ("snack1", DayMeals.snack1 meals);
   ("lunch", DayMeals.lunch meals);
   ("snack2", DayMeals.snack2 meals);
   ("dinner", DayMeals.dinner meals)].

(** A slot covers a nutrient when it holds a meal whose aggregate flag
    for the nutrient is true. *)
Definition slot_covers (n : core_nutrient) (slot : string * option Meal.t) : bool :=
  match snd slot with
  | Some meal => presence_flag n (Meal.containsMicronutrients meal)
  | None => false
  end.

Definition covering_slots (n : core_nutrient) (meals : DayMeals.t) : list string :=
  map fst (List.filter (slot_covers n) (day_slots meals)).

(** What one turn of the summary loop does to [coverage], slot by slot. *)
Definition cover_slot (c : Coverage.t) (slot : string * option Meal.t) : Coverage.t :=
  match snd slot with
  | None => c
  | Some meal =>
      let cm := Meal.containsMicronutrients meal in
      Coverage.mk
        (if MicronutrientPresence.calcium cm
         then Coverage.mark (fst slot) (Coverage.calcium c) else Coverage.calcium c)
        (if MicronutrientPresence.iron cm
         then Coverage.mark (fst slot) (Coverage.iron c) else Coverage.iron c)
        (if MicronutrientPresence.folicAcid cm
         then Coverage.mark (fst slot) (Coverage.folicAcid c) else Coverage.folicAcid c)
        (if MicronutrientPresence.protein cm
         then Coverage.mark (fst slot) (Coverage.protein c) else Coverage.protein c)
  end.

(** The summary that [_calculate_daily_summary] builds once its loop has
    left [coverage] and [has_warnings]. *)
Definition summary_of_coverage (coverage : Coverage.t) (has_warnings : bool)
  : DailySummary.t :=
  DailySummary.mk
    (nutrient_status (Coverage.calcium coverage))
    (nutrient_status (Coverage.iron coverage))
    (nutrient_status (Coverage.folicAcid coverage))
    (nutrient_status (Coverage.protein coverage))
    has_warnings
    (append_if (negb (Coverage.covered (Coverage.protein coverage))) "Protein"
       (append_if (negb (Coverage.covered (Coverage.folicAcid coverage))) "Folic Acid"
          (append_if (negb (Coverage.covered (Coverage.iron coverage))) "Iron"
             (append_if (negb (Coverage.covered (Coverage.calcium coverage)))
                "Calcium" [])))).

(** The keys of [day_map] after a row with key [k]. *)
Definition add_key (keys : list string) (k : string) : list string :=
  if existsb (String.eqb k) keys then keys else keys ++ [k].

(** Every stored value carries its key as [date]. *)
Definition keyed (d : list (string * DayData.t)) : Prop :=
  map DayData.date (dict_values d) = map fst d.

(** A meal row that the range query selects. *)
Definition in_range (user_id : string) (start_date end_date : date) (m : MealRow.t)
  : Prop :=
  MealRow.user_id m = user_id /\
  date_le start_date (MealRow.log_date m) /\
  date_le (MealRow.log_date m) end_date.

(** Logical OR of a list of flags. *)
Definition or_all (l : list bool) : bool := fold_right orb false l.

(** The definite values of a list of tri-state flags. *)
Fixpoint definite (l : list (option bool)) : list bool :=
  match l with
  | [] => []
  | Some b :: l' => b :: definite l'
  | None :: l' => definite l'
  end.

Definition item_flags {A} (field : MicronutrientPresence.t -> A)
  (items : list FoodItem.t) : list A :=
  map (fun item => field (FoodItem.containsMicronutrients item)) items.

(** Whether a [FoodItemCreate] asks for the nutrient of the given stored
    name. *)
Definition requested (cm : MicronutrientPresence.t) (name : string) : bool :=
  if String.eqb name "calcium" then MicronutrientPresence.calcium cm
  else if String.eqb name "iron" then MicronutrientPresence.iron cm
  else if String.eqb name "folate" then MicronutrientPresence.folicAcid cm
  else if String.eqb name "protein" then MicronutrientPresence.protein cm
  else if String.eqb name "vitamin_d"
       then truthy_opt_bool (MicronutrientPresence.vitaminD cm)
  else if String.eqb name "dha"
       then truthy_opt_bool (MicronutrientPresence.omega3 cm)
  else if String.eqb name "fiber"
       then truthy_opt_bool (MicronutrientPresence.fiber cm)
  else false.

(** The five stored slot-type labels. *)
Definition known_labels : list string :=
  ["Breakfast"; "Snack 1"; "Lunch"; "Snack 2"; "Dinner"].

(** The conflict key of a header. *)
Definition slot_key (m : MealRow.t) : string * date * string :=
  (MealRow.user_id m, MealRow.log_date m, MealRow.meal_type m).

(** At most one header per (user, date, slot type). *)
Definition slots_unique (db : Store.t) : Prop :=
  List.NoDup (map slot_key (Store.meals db)).

(** Every item row belongs to a stored header. *)
Definition items_attached (db : Store.t) : Prop :=
  forall i, In i (Store.meal_items db) ->
            exists m, In m (Store.meals db) /\ MealRow.id m = MealItemRow.meal_id i.

(** Some item of some meal of the day carries a warning. *)
Definition day_has_warnings (meals : DayMeals.t) : bool :=
  existsb (fun slot : string * option Meal.t =>
             match snd slot with
             | Some meal => existsb FoodItem.hasWarnings (Meal.items meal)
             | None => false
             end)
    (day_slots meals).

(** A meal with its flags recomputed from its items, and a day of such
    meals. *)
Definition aggregated (meal : Meal.t) : Meal.t :=
  set_meal_micronutrients meal (_aggregate_micronutrients (Meal.items meal)).

Definition aggregate_meals (meals : DayMeals.t) : DayMeals.t :=
  DayMeals.mk
    (option_map aggregated (DayMeals.breakfast meals))
    (option_map aggregated (DayMeals.snack1 meals))
    (option_map aggregated (DayMeals.lunch meals))
    (option_map aggregated (DayMeals.snack2 meals))
    (option_map aggregated (DayMeals.dinner meals)).

(** The nutrient table has a row of the given name. *)
Definition known_nutrient (db : Store.t) (name : string) : bool :=
  existsb (fun n => String.eqb (NutrientRow.name n) name) (Store.nutrients db).

(** Food keys handed out so far are below the counter, also in the
    nutrient links. *)
Definition food_keys_allocated (db : Store.t) : Prop :=
  (forall f, In f (Store.foods db) -> FoodRow.id f < Store.next_id db) /\
  (forall fn, In fn (Store.food_nutrients db) ->
              FoodNutrientRow.food_id fn < Store.next_id db).

(** The rows of a query result that fall into the slot [attr] of the day
    [date_key]. *)
Definition slot_rows (date_key attr : string) (rows : list RangeRow.t)
  : list RangeRow.t :=
  List.filter
    (fun r => String.eqb (date_str (RangeRow.meal_date r)) date_key
              && String.eqb (_map_meal_type_to_key (RangeRow.meal_type r)) attr)
    rows.

(** The food item of a row, if the row has a food. *)
Definition row_food_item (nutrients_map : gmap ident (list string)) (r : RangeRow.t)
  : option FoodItem.t :=
  option_map
    (fun f => _map_food_item f (Some (default [] (nutrients_map !! FoodRow.id f))))
    (RangeRow.food r).

(** The meal that the grouping loop builds from the rows of one slot:
    header fields of the first row, foods of all rows. *)
Definition grouped_meal (nutrients_map : gmap ident (list string))
  (rows : list RangeRow.t) : option Meal.t :=
  match rows with
  | [] => None
  | r :: _ =>
      Some (Meal.mk (RangeRow.meal_id r) (RangeRow.meal_type r)
              (omap (row_food_item nutrients_map) rows)
              MicronutrientPresence.init (RangeRow.meal_notes r))
  end.

(** The food ids that [get_meals_by_date_range] looks nutrients up for. *)
Definition range_food_ids (results : list RangeRow.t) : list ident :=
  elements (list_to_set (omap (fun row => FoodRow.id <$> RangeRow.food row) results)
            : gset ident).

(** The stored nutrient name behind each core flag. *)
Definition stored_name (n : core_nutrient) : string :=
  match n with
  | Calcium => "calcium"
  | Iron => "iron"
  | FolicAcid => "folate"
  | Protein => "protein"
  end.

(** The store links the food to a nutrient of the given name, as present. *)
Definition nutrient_linked (db : Store.t) (food_id : ident) (name : string) : Prop :=
  exists fn n,
    In fn (Store.food_nutrients db) /\ In n (Store.nutrients db) /\
    FoodNutrientRow.food_id fn = food_id /\
    FoodNutrientRow.nutrient_id fn = NutrientRow.id n /\
    FoodNutrientRow.is_present fn = true /\
    NutrientRow.name n = name.

(** The rows of a query result that fall on the day [date_key]. *)
Definition day_rows (date_key : string) (rows : list RangeRow.t) : list RangeRow.t :=
  List.filter (fun r => String.eqb (date_str (RangeRow.meal_date r)) date_key) rows.

(** What one row does to the meal of its slot: a missing meal is created
    from the row, and the food of the row, if any, is appended. *)
Definition extend_meal (nutrients_map : gmap ident (list string))
  (current : option Meal.t) (r : RangeRow.t) : Meal.t :=
  let meal :=
    match current with
    | Some meal => meal
    | None =>
        Meal.mk (RangeRow.meal_id r) (RangeRow.meal_type r) []
          MicronutrientPresence.init (RangeRow.meal_notes r)
    end in
  match row_food_item nutrients_map r with
  | Some food_item => append_item meal food_item
  | None => meal
  end.

(** [day_map] after the grouping loop has seen the rows [seen]: one entry
    per date of a seen row, keyed by the date string, each slot holding the
    meal grouped from its rows. *)
Definition grouped (nutrients_map : gmap ident (list string))
  (seen : list RangeRow.t) (day_map : list (string * DayData.t)) : Prop :=
  List.NoDup (map fst day_map) /\
  forall date_key,
    match dict_get date_key day_map with
    | None => day_rows date_key seen = []
    | Some day_data =>
        DayData.id day_data = date_key /\
        DayData.date day_data = date_key /\
        option_map RangeRow.day_of_week (hd_error (day_rows date_key seen))
        = Some (DayData.dayOfWeek day_data) /\
        forall attr,
          In attr MEAL_ATTRS ->
          getattr (DayData.meals day_data) attr
          = Some (grouped_meal nutrients_map (slot_rows date_key attr seen))
    end.

(** The query row of a header without items, and of a header with one of
    its items and the food the item refers to. *)
Definition header_row (h : MealRow.t) : RangeRow.t :=
  RangeRow.mk (MealRow.id h) (MealRow.log_date h) (MealRow.day_of_week h)
    (MealRow.meal_type h) (MealRow.notes h) None None None.

Definition item_row (db : Store.t) (h : MealRow.t) (i : MealItemRow.t) : RangeRow.t :=
  RangeRow.mk (MealRow.id h) (MealRow.log_date h) (MealRow.day_of_week h)
    (MealRow.meal_type h) (MealRow.notes h)
    (Some (MealItemRow.id i)) (Some (MealItemRow.sort_order i))
    (find (fun f => MealItemRow.food_id i =? FoodRow.id f) (Store.foods db)).

(** The rows that the range query holds for a stored slot. *)
Definition stored_slot_rows (db : Store.t) (h : MealRow.t) : list RangeRow.t :=
  match ordered_items db (MealRow.id h) with
  | [] => [header_row h]
  | items => map (item_row db h) items
  end.

(** The slot-type labels whose slot receives no other label. *)
Definition own_slot_labels : list string := ["Snack 1"; "Lunch"; "Snack 2"; "Dinner"].

(** The food is in the catalogue. *)
Definition food_stored (db : Store.t) (food_id : ident) : bool :=
  existsb (fun f => food_id =? FoodRow.id f) (Store.foods db).

(** [f] holds on the [n] integers from [z] on. *)
Fixpoint all_from (f : Z -> bool) (n : nat) (z : Z) : bool :=
  match n with
  | O => true
  | S n' => f z && all_from f n' (z + 1)
  end.

(** ** A small store *)

(** Two foods with their nutrient links, and no meal yet. *)
Definition example_foods : Store.t :=
  Store.mk
    [FoodRow.mk 1 "Oatmeal" None None None None (Some true) None None None None;
     FoodRow.mk 2 "Spinach Salad" None None None None (Some true) None None None None]
    [] []
    [NutrientRow.mk 10 "calcium"; NutrientRow.mk 11 "iron"; NutrientRow.mk 12 "folate"]
    [FoodNutrientRow.mk 1 11 true; FoodNutrientRow.mk 2 11 true;
     FoodNutrientRow.mk 2 10 true]
    100.

(** User U logs oatmeal for breakfast and spinach salad for lunch on
    2024-01-05, and a snack the day before. *)
Definition example_day : Store.t :=
  let on_5th := mkDate 2024 1 5 in
  let on_4th := mkDate 2024 1 4 in
  let db := upsert_meal example_foods "U" on_5th "Friday" "Breakfast" [1] in
  let db := upsert_meal db "U" on_5th "Friday" "Lunch" [2] in
  add_meal_item db "U" on_4th "Thursday" "Snack 1" 1.

(** ** Properties of the mapper and of the aggregator *)

Lemma py_in_In x l : py_in x l = true <-> In x l.
Proof.
  unfold py_in. rewrite bool_decide_eq_true. apply list_elem_of_In.
Qed.

(** C4. The boolean flags of a mapped food are membership of calcium,
    iron, protein and (for folicAcid) folate in the nutrient-name list; the
    tri-state flags are None on the empty list and membership of vitamin_d,
    dha and fiber otherwise. *)
Theorem map_food_item_flags (row : FoodRow.t) (N : list string) :
  let cm := FoodItem.containsMicronutrients (_map_food_item row (Some N)) in
  (MicronutrientPresence.calcium cm = true <-> In "calcium" N) /\
  (MicronutrientPresence.iron cm = true <-> In "iron" N) /\
  (MicronutrientPresence.protein cm = true <-> In "protein" N) /\
  (MicronutrientPresence.folicAcid cm = true <-> In "folate" N) /\
  (N = [] ->
   MicronutrientPresence.vitaminD cm = None /\
   MicronutrientPresence.omega3 cm = None /\
   MicronutrientPresence.fiber cm = None) /\
  (N <> [] ->
   exists d o f,
     MicronutrientPresence.vitaminD cm = Some d /\ (d = true <-> In "vitamin_d" N) /\
     MicronutrientPresence.omega3 cm = Some o /\ (o = true <-> In "dha" N) /\
     MicronutrientPresence.fiber cm = Some f /\ (f = true <-> In "fiber" N)).
Proof.
  simpl.
  split; [apply py_in_In|]. split; [apply py_in_In|].
  split; [apply py_in_In|]. split; [apply py_in_In|].
  split.
  - intros ->. simpl. auto.
  - intros HN. destruct N as [|a N]; [congruence|]. simpl.
    exists (py_in "vitamin_d" (a :: N)), (py_in "dha" (a :: N)), (py_in "fiber" (a :: N)).
    split; [reflexivity|]. split; [apply py_in_In|].
    split; [reflexivity|]. split; [apply py_in_In|].
    split; [reflexivity|]. apply py_in_In.
Qed.

Lemma map_food_item_flags_witness :
  let cm := FoodItem.containsMicronutrients
              (_map_food_item
                 (FoodRow.mk 7 "Lentils" None None None None (Some true) None None None None)
                 (Some ["folate"; "iron"])) in
  MicronutrientPresence.folicAcid cm = true /\
  MicronutrientPresence.vitaminD cm = Some false.
Proof.
  pose proof (map_food_item_flags
                (FoodRow.mk 7 "Lentils" None None None None (Some true) None None None None)
                ["folate"; "iron"]) as H.
  cbv zeta in H. destruct H as (_ & _ & _ & Hfo & _ & Htri).
  split.
  - apply Hfo. simpl. auto.
  - destruct (Htri ltac:(discriminate)) as (d & o & f & Hd & _).
    vm_compute. reflexivity.
Defined.

(** C9. A mapped food has a warning exactly when the stored row is not
    marked safe for pregnancy or carries a non-empty warning message; it has
    none only when the row is marked safe and has no message. *)
Theorem map_food_item_hasWarnings (row : FoodRow.t) (nutrients : option (list string)) :
  let not_safe := negb (truthy_opt_bool (FoodRow.is_safe_pregnancy row)) in
  let has_message := truthy_opt_str (FoodRow.warning_message row) in
  FoodItem.hasWarnings (_map_food_item row nutrients) = not_safe || has_message /\
  (FoodItem.hasWarnings (_map_food_item row nutrients) = true <->
   FoodRow.is_safe_pregnancy row <> Some true \/
   exists msg, FoodRow.warning_message row = Some msg /\ msg <> "") /\
  (FoodItem.hasWarnings (_map_food_item row nutrients) = false <->
   FoodRow.is_safe_pregnancy row = Some true /\
   (FoodRow.warning_message row = None \/ FoodRow.warning_message row = Some "")).
Proof.
  destruct row as [i n p mc rc pf safe msg wt tg ds]. simpl.
  split; [reflexivity|].
  destruct safe as [[|]|]; destruct msg as [[|c s]|]; simpl; split; split;
    try reflexivity; try discriminate; intuition (try congruence).
  all: try (right; eexists; split; [reflexivity|discriminate]).
  all: try (destruct H as (m & Hm & Hne); congruence).
  all: try (destruct H0 as (m & Hm & Hne); congruence).
Qed.

Lemma In_append_if flag name l x :
  In x (append_if flag name l) <-> In x l \/ (flag = true /\ x = name).
Proof.
  unfold append_if. destruct flag.
  - rewrite in_app_iff. simpl. intuition.
  - intuition congruence.
Qed.

(** C10. Whatever flags the input carries, the item returned by
    create-food has the four boolean flags false and the three tri-state
    flags None, while a row is written to the store for every known
    nutrient whose flag the input sets. *)
Theorem create_food_response_flags (db : Store.t) (food : FoodItemCreate.t) :
  let '(db', item) := create_food db food in
  FoodItem.containsMicronutrients item = MicronutrientPresence.init /\
  FoodItem.id item = Store.next_id db /\
  (forall n,
     In n (Store.nutrients db) ->
     requested (FoodItemCreate.containsMicronutrients food) (NutrientRow.name n) = true ->
     In (FoodNutrientRow.mk (Store.next_id db) (NutrientRow.id n) true)
        (Store.food_nutrients db')).
Proof.
  unfold create_food, sql_insert_food. simpl.
  split; [reflexivity|]. split; [reflexivity|].
  intros n Hn Hreq.
  unfold _insert_nutrient_mappings. cbv zeta.
  match goal with
  | |- context [truthy_list ?l] =>
      assert (Hin : In (NutrientRow.name n) l);
      [| destruct l as [|x l'] eqn:El; [destruct Hin|] ]
  end.
  - rewrite !In_append_if. unfold requested in Hreq.
    repeat match type of Hreq with
      | (if String.eqb ?a ?b then _ else _) = true =>
          destruct (String.eqb_spec a b) as [->|]
      end; try discriminate; tauto.
  - simpl. apply in_or_app. right.
    apply in_map_iff. exists n. split; [reflexivity|].
    apply filter_In. split; [assumption|].
    apply py_in_In. assumption.
Qed.

Lemma create_food_response_flags_witness :
  let food :=
    FoodItemCreate.mk "Kale" None None None None
      (MicronutrientPresence.mk true true false false (Some true) None None)
      false None None None None in
  let db := Store.mk [] [] [] [NutrientRow.mk 1 "calcium"; NutrientRow.mk 2 "iron"] [] 3 in
  FoodItem.containsMicronutrients (snd (create_food db food)) = MicronutrientPresence.init /\
  In (FoodNutrientRow.mk 3 2 true) (Store.food_nutrients (fst (create_food db food))).
Proof.
  intros food db.
  pose proof (create_food_response_flags db food) as H.
  destruct (create_food db food) as [db' item] eqn:E.
  destruct H as (Hcm & _ & Hrows). simpl. split; [exact Hcm|].
  apply (Hrows (NutrientRow.mk 2 "iron")); vm_compute; auto.
Defined.

(** C8. The five stored labels map to their slot keys and every other
    label, also one that differs only in case or spacing, falls back to
    breakfast; the mapping never fails. *)
Theorem map_meal_type_to_key_labels (label : string) :
  _map_meal_type_to_key "Breakfast" = "breakfast" /\
  _map_meal_type_to_key "Snack 1" = "snack1" /\
  _map_meal_type_to_key "Lunch" = "lunch" /\
  _map_meal_type_to_key "Snack 2" = "snack2" /\
  _map_meal_type_to_key "Dinner" = "dinner" /\
  (~ In label known_labels -> _map_meal_type_to_key label = "breakfast") /\
  _map_meal_type_to_key "breakfast" = "breakfast" /\
  _map_meal_type_to_key "snack 1" = "breakfast" /\
  _map_meal_type_to_key "Snack1" = "breakfast" /\
  _map_meal_type_to_key "LUNCH" = "breakfast" /\
  _map_meal_type_to_key " Dinner" = "breakfast".
Proof.
  repeat (split; [vm_compute; reflexivity|]).
  split; [|repeat split; vm_compute; reflexivity].
  intros Hnot. unfold _map_meal_type_to_key, mapping.
  rewrite !lookup_insert_ne, lookup_empty; [reflexivity|..];
    intros <-; apply Hnot; simpl; tauto.
Qed.

Lemma map_meal_type_to_key_labels_witness :
  _map_meal_type_to_key "Brunch" = "breakfast".
Proof.
  destruct (map_meal_type_to_key_labels "Brunch") as (_ & _ & _ & _ & _ & Hother & _).
  apply Hother. simpl. intros H; decompose [or] H; discriminate || assumption.
Defined.

Lemma any_id_or_all l : any id l = or_all l.
Proof. induction l as [|b l IH]; simpl; [reflexivity|]. rewrite <- IH. reflexivity. Qed.

Lemma any_truthy_definite l :
  any truthy_opt_bool (List.filter truthy_opt_bool l) = or_all (definite l).
Proof.
  induction l as [|[[|]|] l IH]; simpl; auto.
Qed.

Lemma definite_all_unknown l : (forall v, In v l -> v = None) -> definite l = [].
Proof.
  induction l as [|v l IH]; intros H; [reflexivity|].
  rewrite (H v (or_introl eq_refl)). simpl. apply IH. intros; apply H; right; assumption.
Qed.

(** C2. The four boolean flags of a meal are the OR of its items' flags;
    each tri-state flag is the OR of the items' definite values, a definite
    boolean, and false when every item is unknown. *)
Theorem aggregate_micronutrients_or (items : list FoodItem.t) :
  let agg := _aggregate_micronutrients items in
  MicronutrientPresence.calcium agg
  = or_all (item_flags MicronutrientPresence.calcium items) /\
  MicronutrientPresence.iron agg
  = or_all (item_flags MicronutrientPresence.iron items) /\
  MicronutrientPresence.folicAcid agg
  = or_all (item_flags MicronutrientPresence.folicAcid items) /\
  MicronutrientPresence.protein agg
  = or_all (item_flags MicronutrientPresence.protein items) /\
  MicronutrientPresence.vitaminD agg
  = Some (or_all (definite (item_flags MicronutrientPresence.vitaminD items))) /\
  MicronutrientPresence.omega3 agg
  = Some (or_all (definite (item_flags MicronutrientPresence.omega3 items))) /\
  MicronutrientPresence.fiber agg
  = Some (or_all (definite (item_flags MicronutrientPresence.fiber items))) /\
  ((forall v, In v (item_flags MicronutrientPresence.vitaminD items) -> v = None) ->
   MicronutrientPresence.vitaminD agg = Some false) /\
  ((forall v, In v (item_flags MicronutrientPresence.omega3 items) -> v = None) ->
   MicronutrientPresence.omega3 agg = Some false) /\
  ((forall v, In v (item_flags MicronutrientPresence.fiber items) -> v = None) ->
   MicronutrientPresence.fiber agg = Some false).
Proof.
  unfold item_flags. cbn [_aggregate_micronutrients MicronutrientPresence.calcium
    MicronutrientPresence.iron MicronutrientPresence.folicAcid
    MicronutrientPresence.protein MicronutrientPresence.vitaminD
    MicronutrientPresence.omega3 MicronutrientPresence.fiber].
  rewrite !map_map, !any_id_or_all, !any_truthy_definite.
  repeat (split; [reflexivity|]).
  repeat split; intros H; rewrite (definite_all_unknown _ H); reflexivity.
Qed.

Lemma aggregate_micronutrients_or_witness :
  let unknown :=
    FoodItem.mk 1 "Water" None None None None MicronutrientPresence.init
      false None None None None in
  MicronutrientPresence.vitaminD (_aggregate_micronutrients [unknown; unknown])
  = Some false.
Proof.
  intros unknown.
  destruct (aggregate_micronutrients_or [unknown; unknown])
    as (_ & _ & _ & _ & _ & _ & _ & Hd & _).
  apply Hd. simpl. intros v [<-|[<-|[]]]; reflexivity.
Defined.

(** ** The daily summary *)

Lemma coverage_entry_cover_slot n c slot :
  coverage_entry n (cover_slot c slot)
  = if slot_covers n slot
    then Coverage.mark (fst slot) (coverage_entry n c)
    else coverage_entry n c.
Proof.
  unfold cover_slot, slot_covers. destruct (snd slot) as [meal|]; [|reflexivity].
  destruct n; reflexivity.
Qed.

Lemma coverage_entry_fold n slots : forall c,
  coverage_entry n (fold_left cover_slot slots c)
  = Coverage.mkEntry
      (Coverage.meals (coverage_entry n c)
       ++ map fst (List.filter (slot_covers n) slots))
      (Coverage.covered (coverage_entry n c) || existsb (slot_covers n) slots).
Proof.
  induction slots as [|slot slots IH]; intros c; simpl.
  - rewrite app_nil_r, orb_false_r. destruct (coverage_entry n c); reflexivity.
  - rewrite IH, coverage_entry_cover_slot.
    destruct (slot_covers n slot); simpl; [|reflexivity].
    rewrite <- app_assoc, orb_true_r. reflexivity.
Qed.

(** The loop over the five attribute names never raises, and it is the
    fold of [cover_slot] over the slots of the day. *)
Lemma summary_loop meals :
  exists has_warnings,
    for_each (summary_step meals) MEAL_ATTRS (Coverage.init, false)
    = Some (fold_left cover_slot (day_slots meals) Coverage.init, has_warnings).
Proof.
  destruct meals as [[b|] [s1|] [l|] [s2|] [d|]]; eexists; reflexivity.
Qed.

Lemma existsb_filter_length {A} (f : A -> bool) l :
  existsb f l = true <-> 1 <= length (List.filter f l).
Proof.
  induction l as [|x l IH]; simpl.
  - split; [discriminate|lia].
  - destruct (f x); simpl; [split; [lia|reflexivity]|exact IH].
Qed.

Lemma get_status_cases covered count :
  (covered = true <-> 1 <= count) ->
  (get_status covered count = "missing" <-> covered = false) /\
  (get_status covered count = "good" <-> 2 <= count) /\
  (get_status covered count = "moderate" <-> count = 1).
Proof.
  intros H. unfold get_status.
  destruct covered; cbn [negb].
  - assert (1 <= count) by (apply H; reflexivity).
    destruct (Nat.leb_spec 2 count); repeat split; intros;
      try discriminate; try reflexivity; lia.
  - assert (~ 1 <= count) by (intros Hc; apply H in Hc; discriminate).
    repeat split; intros; try discriminate; try reflexivity; lia.
Qed.

Lemma calculate_daily_summary_after_loop meals :
  _calculate_daily_summary meals
  = (st ← for_each (summary_step meals) MEAL_ATTRS (Coverage.init, false);
     Some (summary_of_coverage (fst st) (snd st))).
Proof.
  unfold _calculate_daily_summary.
  destruct (for_each (summary_step meals) MEAL_ATTRS (Coverage.init, false))
    as [[c hw]|]; reflexivity.
Qed.

(** C1. The daily summary of a day's meals: for each core nutrient,
    covered holds iff some slot (breakfast, snack1, lunch, snack2, dinner)
    has the aggregate flag; mealsCovered lists those slots in slot order;
    status is missing iff not covered, good iff two or more slots cover it,
    moderate iff exactly one does; missingNutrients lists the display names
    of the nutrients not covered, in the order Calcium, Iron, Folic Acid,
    Protein. *)
Theorem calculate_daily_summary_spec (meals : DayMeals.t) :
  exists summary,
    _calculate_daily_summary meals = Some summary /\
    (forall n,
       let entry := summary_entry n summary in
       (NutrientStatus.covered entry = true <->
        exists slot, In slot (day_slots meals) /\ slot_covers n slot = true) /\
       NutrientStatus.mealsCovered entry = covering_slots n meals /\
       (NutrientStatus.status entry = "missing" <->
        NutrientStatus.covered entry = false) /\
       (NutrientStatus.status entry = "good" <->
        2 <= length (covering_slots n meals)) /\
       (NutrientStatus.status entry = "moderate" <->
        length (covering_slots n meals) = 1)) /\
    DailySummary.missingNutrients summary
    = map display_name
        (List.filter
           (fun n => negb (NutrientStatus.covered (summary_entry n summary)))
           core_nutrients).
Proof.
  destruct (summary_loop meals) as [hw Hloop].
  rewrite calculate_daily_summary_after_loop, Hloop.
  remember (fold_left cover_slot (day_slots meals) Coverage.init) as c eqn:Ec.
  exists (summary_of_coverage c hw). split; [reflexivity|].
  assert (Hentry : forall n,
             coverage_entry n c
             = Coverage.mkEntry (covering_slots n meals)
                 (existsb (slot_covers n) (day_slots meals))).
  { intros n. rewrite Ec, coverage_entry_fold. destruct n; reflexivity. }
  clear Ec Hloop. split.
  - intros n. cbv zeta.
    replace (summary_entry n (summary_of_coverage c hw))
      with (nutrient_status (coverage_entry n c)) by (destruct n; reflexivity).
    rewrite Hentry. unfold nutrient_status.
    cbn [NutrientStatus.covered NutrientStatus.mealsCovered NutrientStatus.status
         Coverage.covered Coverage.meals].
    assert (Hcov : existsb (slot_covers n) (day_slots meals) = true
                   <-> 1 <= length (covering_slots n meals)).
    { unfold covering_slots. rewrite length_map. apply existsb_filter_length. }
    split; [apply existsb_exists|].
    split; [reflexivity|].
    apply get_status_cases. exact Hcov.
  - clear Hentry.
    destruct c as [[m1 [|]] [m2 [|]] [m3 [|]] [m4 [|]]]; reflexivity.
Qed.

(** ** Facts about [order_by] *)

Section OrderByFacts.
Context {A : Type} (leb : A -> A -> bool).

Lemma insert_perm x l : Permutation (insert leb x l) (x :: l).
Proof.
  induction l as [|y l IH]; simpl; [reflexivity|].
  destruct (leb x y); [reflexivity|].
  rewrite IH. apply perm_swap.
Qed.

Lemma order_by_perm l : Permutation (order_by leb l) l.
Proof.
  induction l as [|x l IH]; simpl; [reflexivity|].
  rewrite insert_perm. constructor. exact IH.
Qed.

Lemma In_order_by x l : In x (order_by leb l) <-> In x l.
Proof.
  split; apply Permutation_in; [|symmetry]; apply order_by_perm.
Qed.

Lemma insert_first x l :
  (forall y, In y l -> leb x y = true) -> insert leb x l = x :: l.
Proof.
  destruct l as [|y l]; intros H; simpl; [reflexivity|].
  rewrite (H y (or_introl eq_refl)). reflexivity.
Qed.

Lemma order_by_sorted_id l :
  StronglySorted (fun a b => leb a b = true) l -> order_by leb l = l.
Proof.
  induction 1 as [|x l Hs IH Hx]; simpl; [reflexivity|].
  rewrite IH. apply insert_first. apply List.Forall_forall. exact Hx.
Qed.

Lemma insert_snoc a l x :
  leb a x = true -> insert leb a (l ++ [x]) = insert leb a l ++ [x].
Proof.
  intros Hax. induction l as [|y l IH]; simpl.
  - rewrite Hax. reflexivity.
  - destruct (leb a y); [reflexivity|]. rewrite IH. reflexivity.
Qed.

Lemma order_by_snoc l x :
  (forall a, In a l -> leb a x = true) ->
  order_by leb (l ++ [x]) = order_by leb l ++ [x].
Proof.
  induction l as [|a l IH]; intros H; simpl; [reflexivity|].
  rewrite IH by (intros; apply H; right; assumption).
  apply insert_snoc. apply H. left. reflexivity.
Qed.

(** The result is sorted for every transitive relation that [leb]
    decides up to ties. *)
Section Sorted.
Context (R : A -> A -> Prop).
Hypothesis R_trans : forall x y z, R x y -> R y z -> R x z.
Hypothesis leb_R : forall x y, leb x y = true -> R x y.
Hypothesis not_leb_R : forall x y, leb x y = false -> R y x.

Lemma insert_sorted x l :
  StronglySorted R l -> StronglySorted R (insert leb x l).
Proof.
  induction 1 as [|y l Hs IH Hy]; simpl.
  - repeat constructor.
  - destruct (leb x y) eqn:E.
    + constructor; [constructor; assumption|].
      constructor; [apply leb_R; exact E|].
      apply List.Forall_forall. intros z Hz.
      apply R_trans with y; [apply leb_R; exact E|].
      rewrite List.Forall_forall in Hy. apply Hy. exact Hz.
    + constructor; [exact IH|].
      apply List.Forall_forall. intros z Hz.
      apply (Permutation_in _ (insert_perm x l)) in Hz.
      destruct Hz as [<-|Hz]; [apply not_leb_R; exact E|].
      rewrite List.Forall_forall in Hy. apply Hy. exact Hz.
Qed.

Lemma order_by_sorted l : StronglySorted R (order_by leb l).
Proof.
  induction l as [|x l IH]; simpl; [constructor|].
  apply insert_sorted. exact IH.
Qed.
End Sorted.

(** Selecting rows commutes with ordering them. *)
Section Filter.
Hypothesis leb_trans :
  forall x y z, leb x y = true -> leb y z = true -> leb x z = true.
Hypothesis leb_total : forall x y, leb x y = false -> leb y x = true.

Lemma filter_insert (p : A -> bool) x l :
  StronglySorted (fun a b => leb a b = true) l ->
  List.filter p (insert leb x l)
  = if p x then insert leb x (List.filter p l) else List.filter p l.
Proof.
  induction 1 as [|y l Hs IH Hy]; simpl.
  - destruct (p x); reflexivity.
  - destruct (leb x y) eqn:E; simpl.
    + destruct (p x) eqn:Px; [|reflexivity].
      symmetry. apply insert_first.
      intros z Hz.
      assert (Hz' : In z (y :: l)).
      { destruct (p y); [destruct Hz as [<-|Hz]; [left; reflexivity|]|];
          right; apply filter_In in Hz; tauto. }
      destruct Hz' as [<-|Hz']; [exact E|].
      apply leb_trans with y; [exact E|].
      rewrite List.Forall_forall in Hy. apply Hy. exact Hz'.
    + rewrite IH. destruct (p y), (p x); simpl; rewrite ?E; reflexivity.
Qed.

Lemma order_by_filter (p : A -> bool) l :
  List.filter p (order_by leb l) = order_by leb (List.filter p l).
Proof.
  induction l as [|x l IH]; simpl; [reflexivity|].
  rewrite filter_insert.
  - rewrite IH. destruct (p x); reflexivity.
  - apply order_by_sorted.
    + intros a b c. apply leb_trans.
    + auto.
    + intros a b Hab. apply leb_total. exact Hab.
Qed.
End Filter.
End OrderByFacts.

(** ** Facts about the store statements *)

Lemma date_eqb_eq a b : date_eqb a b = true <-> a = b.
Proof.
  unfold date_eqb. destruct a as [y1 m1 d1], b as [y2 m2 d2]; simpl.
  rewrite !andb_true_iff, !Z.eqb_eq. split.
  - intros [[-> ->] ->]. reflexivity.
  - intros [= -> -> ->]. auto.
Qed.

Lemma date_eqb_refl a : date_eqb a a = true.
Proof. apply date_eqb_eq. reflexivity. Qed.

Lemma same_slot_set_day_of_week u d mt dow r :
  same_slot u d mt (MealRow.set_day_of_week dow r) = same_slot u d mt r.
Proof. reflexivity. Qed.

Lemma same_slot_new u d mt i dow notes :
  same_slot u d mt (MealRow.mk i u d dow mt notes) = true.
Proof.
  unfold same_slot. simpl. rewrite !String.eqb_refl, date_eqb_refl. reflexivity.
Qed.

Lemma find_map_preserve {A} (p : A -> bool) (f : A -> A) l :
  (forall x, p (f x) = p x) -> find p (map f l) = option_map f (find p l).
Proof.
  intros H. induction l as [|x l IH]; simpl; [reflexivity|].
  rewrite H. destruct (p x); [reflexivity|exact IH].
Qed.

Lemma find_app_none {A} (p : A -> bool) l l' :
  find p l = None -> find p (l ++ l') = find p l'.
Proof.
  induction l as [|x l IH]; simpl; [reflexivity|].
  destruct (p x); [discriminate|exact IH].
Qed.

Lemma filter_all {A} (p : A -> bool) l :
  (forall x, In x l -> p x = true) -> List.filter p l = l.
Proof.
  induction l as [|x l IH]; intros H; simpl; [reflexivity|].
  rewrite (H x (or_introl eq_refl)), IH; [reflexivity|].
  intros; apply H; right; assumption.
Qed.

Lemma filter_none {A} (p : A -> bool) l :
  (forall x, In x l -> p x = false) -> List.filter p l = [].
Proof.
  induction l as [|x l IH]; intros H; simpl; [reflexivity|].
  rewrite (H x (or_introl eq_refl)). apply IH.
  intros; apply H; right; assumption.
Qed.

Lemma filter_filter {A} (p q : A -> bool) l :
  List.filter p (List.filter q l) = List.filter (fun x => q x && p x) l.
Proof.
  induction l as [|x l IH]; simpl; [reflexivity|].
  destruct (q x); simpl; [destruct (p x)|]; rewrite IH; reflexivity.
Qed.

(** The header statement: the slot has a header afterwards, with the
    given day of week and the key it had before, or a new key. *)
Lemma sql_upsert_meal_header db u d dow mt :
  let r := sql_upsert_meal db u d dow mt in
  exists h,
    find_slot (fst r) u d mt = Some h /\
    MealRow.id h = snd r /\
    MealRow.day_of_week h = dow /\
    Store.meal_items (fst r) = Store.meal_items db /\
    match find_slot db u d mt with
    | Some old => MealRow.id h = MealRow.id old
    | None => MealRow.id h = Store.next_id db
    end.
Proof.
  unfold sql_upsert_meal, find_slot.
  destruct (find (same_slot u d mt) (Store.meals db)) as [m|] eqn:E; simpl.
  - exists (MealRow.set_day_of_week dow m).
    rewrite find_map_preserve.
    + rewrite E. simpl. rewrite (proj2 (find_some _ _ E)). auto.
    + intros x. destruct (same_slot u d mt x) eqn:Ex; [|exact Ex].
      rewrite same_slot_set_day_of_week. exact Ex.
  - exists (MealRow.mk (Store.next_id db) u d dow mt None).
    rewrite find_app_none by exact E. simpl.
    rewrite same_slot_new. auto.
Qed.

Lemma item_rows_delete_meal_items db mid mid' :
  item_rows (sql_delete_meal_items db mid) mid'
  = if mid' =? mid then [] else item_rows db mid'.
Proof.
  unfold item_rows, sql_delete_meal_items. simpl. rewrite filter_filter.
  destruct (Nat.eqb_spec mid' mid) as [->|Hne].
  - apply filter_none. intros x _. destruct (MealItemRow.meal_id x =? mid); reflexivity.
  - apply filter_ext. intros x.
    destruct (MealItemRow.meal_id x =? mid) eqn:E1;
      destruct (MealItemRow.meal_id x =? mid') eqn:E2; simpl; try reflexivity.
    apply Nat.eqb_eq in E1, E2. congruence.
Qed.

(** The insert loop of [upsert_meal] appends one row per pair, in order,
    and touches nothing else. *)
Lemma insert_loop mid (l : list (Z * ident)) : forall db,
  let db' :=
    fold_left (fun db '(idx, fid) => sql_insert_meal_item db mid fid idx) l db in
  Store.meals db' = Store.meals db /\
  exists rows,
    Store.meal_items db' = Store.meal_items db ++ rows /\
    map (fun r => (MealItemRow.sort_order r, MealItemRow.food_id r)) rows = l /\
    (forall r, In r rows -> MealItemRow.meal_id r = mid).
Proof.
  induction l as [|[idx fid] l IH]; intros db; simpl.
  - split; [reflexivity|]. exists []. rewrite app_nil_r. simpl. tauto.
  - specialize (IH (sql_insert_meal_item db mid fid idx)).
    cbv zeta in IH. destruct IH as (Hm & rows & Hi & Hl & Hmid).
    split; [rewrite Hm; reflexivity|].
    exists (MealItemRow.mk (Store.next_id db) mid fid idx :: rows).
    split; [rewrite Hi; simpl; rewrite <- app_assoc; reflexivity|].
    split; [simpl; rewrite Hl; reflexivity|].
    intros r [<-|Hr]; [reflexivity|auto].
Qed.

Lemma enumerate_from_snd {A} (l : list A) : forall i, map snd (enumerate_from i l) = l.
Proof. induction l as [|x l IH]; intros i; simpl; [|rewrite IH]; reflexivity. Qed.

Lemma enumerate_from_lower {A} (l : list A) : forall i p,
  In p (enumerate_from i l) -> (i <= fst p)%Z.
Proof.
  induction l as [|x l IH]; intros i p; simpl; [tauto|].
  intros [<-|H]; simpl; [lia|]. apply IH in H. lia.
Qed.

Lemma enumerate_from_sorted {A} (l : list A) : forall i,
  StronglySorted (fun a b => (fst a <=? fst b)%Z = true) (enumerate_from i l).
Proof.
  induction l as [|x l IH]; intros i; simpl; constructor; [apply IH|].
  apply List.Forall_forall. intros p Hp. apply enumerate_from_lower in Hp.
  simpl. apply Z.leb_le. lia.
Qed.

Lemma StronglySorted_map_inv {A B} (f : A -> B) (R : B -> B -> Prop) l :
  StronglySorted R (map f l) -> StronglySorted (fun a b => R (f a) (f b)) l.
Proof.
  induction l as [|x l IH]; simpl; intros H; [constructor|].
  inversion H as [|? ? Hs Hx]; subst. constructor; [apply IH; exact Hs|].
  apply List.Forall_forall. intros y Hy.
  rewrite List.Forall_forall in Hx. apply Hx. apply in_map. exact Hy.
Qed.

Lemma by_sort_order_trans x y z :
  by_sort_order x y = true -> by_sort_order y z = true -> by_sort_order x z = true.
Proof. unfold by_sort_order. rewrite !Z.leb_le. lia. Qed.

Lemma by_sort_order_total x y : by_sort_order x y = false -> by_sort_order y x = true.
Proof. unfold by_sort_order. rewrite Z.leb_le, Z.leb_gt. lia. Qed.

(** What [upsert_meal] leaves in the store. *)
Lemma upsert_meal_rows db u d dow mt fids :
  let db' := upsert_meal db u d dow mt fids in
  exists h,
    find_slot db' u d mt = Some h /\
    MealRow.day_of_week h = dow /\
    match find_slot db u d mt with
    | Some old => MealRow.id h = MealRow.id old
    | None => MealRow.id h = Store.next_id db
    end /\
    map (fun r => (MealItemRow.sort_order r, MealItemRow.food_id r))
      (item_rows db' (MealRow.id h))
    = enumerate fids /\
    (forall mid, mid <> MealRow.id h -> item_rows db' mid = item_rows db mid).
Proof.
  unfold upsert_meal.
  destruct (sql_upsert_meal_header db u d dow mt) as (h & Hfind & Hid & Hdow & Hitems & Hold).
  destruct (sql_upsert_meal db u d dow mt) as [db1 mid] eqn:E. simpl in *. subst mid.
  set (db2 := sql_delete_meal_items db1 (MealRow.id h)).
  assert (Hloop : (if truthy_list fids
                   then fold_left
                          (fun db '(idx, fid) =>
                             sql_insert_meal_item db (MealRow.id h) fid idx)
                          (enumerate fids) db2
                   else db2)
                  = fold_left
                      (fun db '(idx, fid) =>
                         sql_insert_meal_item db (MealRow.id h) fid idx)
                      (enumerate fids) db2)
    by (destruct fids; reflexivity).
  cbv zeta. rewrite Hloop. clear Hloop.
  destruct (insert_loop (MealRow.id h) (enumerate fids) db2)
    as (Hmeals & rows & Hrows & Hl & Hmid).
  exists h. unfold find_slot. rewrite Hmeals. simpl.
  split; [exact Hfind|]. split; [exact Hdow|]. split; [exact Hold|].
  assert (Hir : forall mid,
             item_rows
               (fold_left
                  (fun db '(idx, fid) =>
                     sql_insert_meal_item db (MealRow.id h) fid idx)
                  (enumerate fids) db2) mid
             = item_rows db2 mid
               ++ List.filter (fun i => MealItemRow.meal_id i =? mid) rows).
  { intros mid. unfold item_rows at 1. rewrite Hrows, List.filter_app. reflexivity. }
  split.
  - rewrite Hir. unfold db2. rewrite item_rows_delete_meal_items, Nat.eqb_refl.
    simpl. rewrite filter_all; [exact Hl|].
    intros r Hr. rewrite (Hmid r Hr). apply Nat.eqb_refl.
  - intros mid Hne. rewrite Hir. unfold db2.
    rewrite item_rows_delete_meal_items.
    destruct (Nat.eqb_spec mid (MealRow.id h)) as [|_]; [contradiction|].
    rewrite filter_none, app_nil_r.
    + unfold item_rows. rewrite Hitems. reflexivity.
    + intros r Hr. rewrite (Hmid r Hr). apply Nat.eqb_neq. congruence.
Qed.

Lemma ordered_items_enumerate db mid (fids : list ident) i :
  map (fun r => (MealItemRow.sort_order r, MealItemRow.food_id r)) (item_rows db mid)
  = enumerate_from i fids ->
  map MealItemRow.food_id (ordered_items db mid) = fids.
Proof.
  intros H. unfold ordered_items.
  rewrite order_by_sorted_id.
  - rewrite <- (enumerate_from_snd fids i), <- H, map_map. reflexivity.
  - pose proof (enumerate_from_sorted fids i) as Hs. rewrite <- H in Hs.
    apply StronglySorted_map_inv in Hs. exact Hs.
Qed.

Lemma enumerate_from_fst {A} (l : list A) : forall i,
  map fst (enumerate_from i l)
  = map (fun k => (i + Z.of_nat k)%Z) (seq 0 (length l)).
Proof.
  induction l as [|x l IH]; intros i; [reflexivity|].
  cbn [enumerate_from map length seq fst]. f_equal; [lia|].
  rewrite IH, <- seq_shift, map_map. apply map_ext. intros k. lia.
Qed.

(** C5. Upsert-slot leaves the slot with a header (the old key when the
    slot existed, the given day of week) and with exactly the given foods
    in the given order, the k-th of them (counting from 0) at sort index
    k, so that the indices are 0..n-1; other slots are untouched; the
    empty list leaves a header with no items; a second call with the same
    arguments leaves the slot's foods as they are. *)
Theorem upsert_meal_replace_all (db : Store.t) (user_id : string) (date : date)
  (day_of_week meal_type : string) (food_item_ids : list ident) :
  let db' := upsert_meal db user_id date day_of_week meal_type food_item_ids in
  (exists header,
     find_slot db' user_id date meal_type = Some header /\
     MealRow.day_of_week header = day_of_week /\
     (forall old, find_slot db user_id date meal_type = Some old ->
                  MealRow.id header = MealRow.id old) /\
     map MealItemRow.food_id (item_rows db' (MealRow.id header)) = food_item_ids /\
     map MealItemRow.sort_order (item_rows db' (MealRow.id header))
     = map Z.of_nat (seq 0 (length food_item_ids)) /\
     (forall k row,
        nth_error (item_rows db' (MealRow.id header)) k = Some row ->
        MealItemRow.sort_order row = Z.of_nat k /\
        nth_error food_item_ids k = Some (MealItemRow.food_id row)) /\
     (forall mid, mid <> MealRow.id header -> item_rows db' mid = item_rows db mid)) /\
  slot_foods db' user_id date meal_type = Some food_item_ids /\
  slot_foods (upsert_meal db user_id date day_of_week meal_type []) user_id date meal_type
  = Some [] /\
  slot_foods (upsert_meal db' user_id date day_of_week meal_type food_item_ids)
    user_id date meal_type
  = slot_foods db' user_id date meal_type.
Proof.
  assert (Hfoods : forall db0 fids,
             slot_foods (upsert_meal db0 user_id date day_of_week meal_type fids)
               user_id date meal_type = Some fids).
  { intros db0 fids.
    destruct (upsert_meal_rows db0 user_id date day_of_week meal_type fids)
      as (h & Hfind & _ & _ & Hrows & _).
    unfold slot_foods. rewrite Hfind. f_equal.
    apply (ordered_items_enumerate _ _ _ 0%Z). exact Hrows. }
  cbv zeta. split.
  - destruct (upsert_meal_rows db user_id date day_of_week meal_type food_item_ids)
      as (h & Hfind & Hdow & Hold & Hrows & Hframe).
    set (rows := item_rows
                   (upsert_meal db user_id date day_of_week meal_type food_item_ids)
                   (MealRow.id h)) in *.
    assert (Hfood : map MealItemRow.food_id rows = food_item_ids).
    { rewrite <- (enumerate_from_snd food_item_ids 0%Z).
      fold (enumerate food_item_ids). rewrite <- Hrows, map_map. reflexivity. }
    assert (Hidx : map MealItemRow.sort_order rows
                   = map Z.of_nat (seq 0 (length food_item_ids))).
    { transitivity (map fst (enumerate food_item_ids)).
      - rewrite <- Hrows, map_map. reflexivity.
      - unfold enumerate. rewrite enumerate_from_fst. apply map_ext. intros k. lia. }
    exists h.
    split; [exact Hfind|]. split; [exact Hdow|].
    split; [intros old Ho; rewrite Ho in Hold; exact Hold|].
    split; [exact Hfood|]. split; [exact Hidx|]. split; [|exact Hframe].
    intros k row Hk. change (nth_error rows k = Some row) in Hk.
    assert (Hlt : k < length food_item_ids).
    { rewrite <- Hfood, length_map. apply nth_error_Some. rewrite Hk. discriminate. }
    split.
    + pose proof (map_nth_error MealItemRow.sort_order k rows Hk) as Hso.
      rewrite Hidx in Hso.
      rewrite (map_nth_error Z.of_nat k (seq 0 (length food_item_ids)) (d := k)) in Hso.
      * injection Hso as Hso. symmetry. exact Hso.
      * rewrite nth_error_nth' with (d := 0) by (rewrite length_seq; exact Hlt).
        rewrite seq_nth by exact Hlt. reflexivity.
    + rewrite <- Hfood. apply map_nth_error. exact Hk.
  - rewrite !Hfoods. auto.
Qed.

Lemma fold_max_spec l : forall x,
  let m := fold_left Z.max l x in
  (x <= m)%Z /\ (forall y, In y l -> (y <= m)%Z) /\ (m = x \/ In m l).
Proof.
  induction l as [|a l IH]; intros x; simpl.
  - split; [lia|]. split; [tauto|]. left; reflexivity.
  - destruct (IH (Z.max x a)) as (H1 & H2 & H3). cbv zeta.
    split; [lia|]. split.
    + intros y [<-|Hy]; [lia|auto].
    + destruct H3 as [H3|H3]; [|auto].
      destruct (Z.max_spec x a) as [[_ E]|[_ E]]; rewrite E in H3 |- *;
        [right; left; symmetry; exact H3|left; exact H3].
Qed.

(** [MAX] is the greatest selected value, and NULL only on no row. *)
Lemma sql_max_spec l :
  match sql_max l with
  | Some m => In m l /\ forall y, In y l -> (y <= m)%Z
  | None => l = []
  end.
Proof.
  destruct l as [|x l]; simpl; [reflexivity|].
  destruct (fold_max_spec l x) as (H1 & H2 & H3). cbv zeta in *.
  split.
  - destruct H3 as [H3|H3]; [left; symmetry; exact H3|right; exact H3].
  - intros y [<-|Hy]; auto.
Qed.

Lemma item_rows_meal_id db mid i : In i (item_rows db mid) -> MealItemRow.meal_id i = mid.
Proof.
  unfold item_rows. rewrite filter_In. intros [_ H]. apply Nat.eqb_eq. exact H.
Qed.

Lemma ordered_items_meal_id db mid i :
  In i (ordered_items db mid) -> MealItemRow.meal_id i = mid.
Proof.
  unfold ordered_items. rewrite In_order_by. apply item_rows_meal_id.
Qed.

Lemma item_rows_unallocated db mid :
  keys_allocated db -> Store.next_id db <= mid -> item_rows db mid = [].
Proof.
  intros [_ Hi] Hle. apply filter_none. intros i Hin.
  apply Nat.eqb_neq. destruct (Hi i Hin). lia.
Qed.

(** What [add_meal_item] leaves in the store. *)
Lemma add_meal_item_rows db u d dow mt f :
  let db' := add_meal_item db u d dow mt f in
  exists h new_row,
    find_slot db' u d mt = Some h /\
    MealRow.day_of_week h = dow /\
    match find_slot db u d mt with
    | Some old => MealRow.id h = MealRow.id old
    | None => MealRow.id h = Store.next_id db
    end /\
    Store.meal_items db' = Store.meal_items db ++ [new_row] /\
    MealItemRow.meal_id new_row = MealRow.id h /\
    MealItemRow.food_id new_row = f /\
    MealItemRow.sort_order new_row
    = (coalesce (sql_max (map MealItemRow.sort_order (item_rows db (MealRow.id h))))
         (-1) + 1)%Z.
Proof.
  unfold add_meal_item.
  destruct (sql_upsert_meal_header db u d dow mt)
    as (h & Hfind & Hid & Hdow & Hitems & Hold).
  destruct (sql_upsert_meal db u d dow mt) as [db1 mid] eqn:E. simpl in *. subst mid.
  exists h, (MealItemRow.mk (Store.next_id db1) (MealRow.id h) f
               (sql_next_order db1 (MealRow.id h))).
  unfold find_slot, sql_insert_meal_item. simpl.
  split; [exact Hfind|]. split; [exact Hdow|]. split; [exact Hold|].
  split; [rewrite Hitems; reflexivity|].
  split; [reflexivity|]. split; [reflexivity|].
  unfold sql_next_order, item_rows. rewrite Hitems. reflexivity.
Qed.

Lemma item_rows_app_one db db' mid row :
  Store.meal_items db' = Store.meal_items db ++ [row] ->
  item_rows db' mid
  = item_rows db mid ++ (if MealItemRow.meal_id row =? mid then [row] else []).
Proof.
  intros H. unfold item_rows. rewrite H, List.filter_app. reflexivity.
Qed.

(** Reading a slot after [add_meal_item]: the rows of the slot, in table
    order and in reading order, are the old ones followed by the new row. *)
Lemma add_meal_item_read db u d dow mt f :
  let db' := add_meal_item db u d dow mt f in
  exists h new_row,
    find_slot db' u d mt = Some h /\
    match find_slot db u d mt with
    | Some old => MealRow.id h = MealRow.id old
    | None => MealRow.id h = Store.next_id db
    end /\
    Store.meal_items db' = Store.meal_items db ++ [new_row] /\
    MealItemRow.food_id new_row = f /\
    (forall i, In i (item_rows db (MealRow.id h)) -> by_sort_order i new_row = true) /\
    item_rows db' (MealRow.id h) = item_rows db (MealRow.id h) ++ [new_row] /\
    ordered_items db' (MealRow.id h) = ordered_items db (MealRow.id h) ++ [new_row].
Proof.
  cbv zeta.
  destruct (add_meal_item_rows db u d dow mt f)
    as (h & row & Hfind & _ & Hold & Hitems & Hmid & Hfood & Hso).
  exists h, row. split; [exact Hfind|]. split; [exact Hold|].
  split; [exact Hitems|]. split; [exact Hfood|].
  assert (Hle : forall i, In i (item_rows db (MealRow.id h)) ->
                          by_sort_order i row = true).
  { intros i Hi. unfold by_sort_order. apply Z.leb_le. rewrite Hso.
    pose proof (sql_max_spec (map MealItemRow.sort_order
                                (item_rows db (MealRow.id h)))) as Hmax.
    destruct (sql_max _) as [m|]; simpl.
    - destruct Hmax as [_ Hmax].
      specialize (Hmax _ (in_map MealItemRow.sort_order _ _ Hi)). lia.
    - apply map_eq_nil in Hmax. rewrite Hmax in Hi. destruct Hi. }
  split; [exact Hle|].
  assert (Hrows : item_rows (add_meal_item db u d dow mt f) (MealRow.id h)
                  = item_rows db (MealRow.id h) ++ [row]).
  { rewrite (item_rows_app_one db _ _ row Hitems), Hmid, Nat.eqb_refl. reflexivity. }
  split; [exact Hrows|].
  unfold ordered_items. rewrite Hrows. apply order_by_snoc. exact Hle.
Qed.

Lemma slot_foods_add db u d dow mt f old :
  find_slot db u d mt = Some old ->
  slot_foods (add_meal_item db u d dow mt f) u d mt
  = Some (map MealItemRow.food_id (ordered_items db (MealRow.id old)) ++ [f]).
Proof.
  intros Hold.
  destruct (add_meal_item_read db u d dow mt f)
    as (h & row & Hfind & Hid & _ & Hfood & _ & _ & Hord).
  rewrite Hold in Hid.
  unfold slot_foods. rewrite Hfind, Hord, Hid, map_app. simpl.
  rewrite Hfood. reflexivity.
Qed.

Lemma slot_foods_new db u d dow mt f :
  keys_allocated db -> find_slot db u d mt = None ->
  exists h,
    find_slot (add_meal_item db u d dow mt f) u d mt = Some h /\
    slot_foods (add_meal_item db u d dow mt f) u d mt = Some [f].
Proof.
  intros Hk Hnone.
  destruct (add_meal_item_read db u d dow mt f)
    as (h & row & Hfind & Hid & _ & Hfood & _ & Hrows & _).
  exists h. split; [exact Hfind|].
  rewrite Hnone in Hid.
  rewrite (item_rows_unallocated db (MealRow.id h) Hk) in Hrows by lia.
  unfold slot_foods, ordered_items. rewrite Hfind, Hrows. simpl.
  rewrite Hfood. reflexivity.
Qed.

(** C6. Add-item leaves the slot with a header (the old key when the
    slot existed), adds exactly one item row and keeps every stored row;
    the new row's index is the greatest index of the slot plus 1, or 0 when
    the slot has no items; the slot reads as before with the new food last.
    A brand-new slot then holds exactly one item, at index 0, and adding A
    then B to an empty slot reads [A, B]. *)
Theorem add_meal_item_appends (db : Store.t) (user_id : string) (date : date)
  (day_of_week meal_type : string) (food_item_id : ident) :
  let db' := add_meal_item db user_id date day_of_week meal_type food_item_id in
  exists header new_row,
    find_slot db' user_id date meal_type = Some header /\
    MealRow.day_of_week header = day_of_week /\
    (forall old, find_slot db user_id date meal_type = Some old ->
                 MealRow.id header = MealRow.id old) /\
    Store.meal_items db' = Store.meal_items db ++ [new_row] /\
    MealItemRow.meal_id new_row = MealRow.id header /\
    MealItemRow.food_id new_row = food_item_id /\
    (item_rows db (MealRow.id header) = [] -> MealItemRow.sort_order new_row = 0%Z) /\
    (item_rows db (MealRow.id header) <> [] ->
     exists top,
       In top (item_rows db (MealRow.id header)) /\
       (forall i, In i (item_rows db (MealRow.id header)) ->
                  (MealItemRow.sort_order i <= MealItemRow.sort_order top)%Z) /\
       MealItemRow.sort_order new_row = (MealItemRow.sort_order top + 1)%Z) /\
    ordered_items db' (MealRow.id header)
    = ordered_items db (MealRow.id header) ++ [new_row] /\
    (forall mid, mid <> MealRow.id header -> item_rows db' mid = item_rows db mid) /\
    (keys_allocated db -> find_slot db user_id date meal_type = None ->
     item_rows db' (MealRow.id header) = [new_row] /\
     MealItemRow.sort_order new_row = 0%Z) /\
    (forall other,
       keys_allocated db ->
       find_slot db user_id date meal_type = None \/
       slot_foods db user_id date meal_type = Some [] ->
       slot_foods
         (add_meal_item db' user_id date day_of_week meal_type other)
         user_id date meal_type
       = Some [food_item_id; other]).
Proof.
  cbv zeta.
  destruct (add_meal_item_rows db user_id date day_of_week meal_type food_item_id)
    as (h & row & Hfind & Hdow & Hold & Hitems & Hmid & Hfood & Hso).
  exists h, row.
  split; [exact Hfind|]. split; [exact Hdow|].
  split; [intros old Ho; rewrite Ho in Hold; exact Hold|].
  split; [exact Hitems|]. split; [exact Hmid|]. split; [exact Hfood|].
  assert (Hrows : item_rows
                    (add_meal_item db user_id date day_of_week meal_type food_item_id)
                    (MealRow.id h)
                  = item_rows db (MealRow.id h) ++ [row]).
  { rewrite (item_rows_app_one db _ _ row Hitems), Hmid, Nat.eqb_refl. reflexivity. }
  assert (Hnew : keys_allocated db -> find_slot db user_id date meal_type = None ->
                 item_rows db (MealRow.id h) = []).
  { intros Hk Hnone. rewrite Hnone in Hold. rewrite Hold.
    apply item_rows_unallocated; [exact Hk|lia]. }
  pose proof (sql_max_spec (map MealItemRow.sort_order
                              (item_rows db (MealRow.id h)))) as Hmax.
  split; [intros Hnil; rewrite Hso, Hnil; reflexivity|].
  split.
  { intros Hne.
    destruct (sql_max _) as [m|] eqn:Em.
    - destruct Hmax as [Hin Hmax]. apply in_map_iff in Hin.
      destruct Hin as (top & Htop & Hin). exists top.
      split; [exact Hin|]. split.
      + intros i Hi. rewrite Htop. apply Hmax. apply in_map. exact Hi.
      + rewrite Hso, Htop. reflexivity.
    - apply map_eq_nil in Hmax. contradiction. }
  split.
  { unfold ordered_items. rewrite Hrows. apply order_by_snoc.
    intros i Hi. unfold by_sort_order. apply Z.leb_le. rewrite Hso.
    destruct (sql_max _) as [m|]; simpl.
    - destruct Hmax as [_ Hmax].
      specialize (Hmax _ (in_map MealItemRow.sort_order _ _ Hi)). lia.
    - apply map_eq_nil in Hmax. rewrite Hmax in Hi. destruct Hi. }
  split.
  { intros mid Hne. rewrite (item_rows_app_one db _ _ row Hitems), Hmid.
    destruct (Nat.eqb_spec (MealRow.id h) mid); [congruence|apply app_nil_r]. }
  split.
  { intros Hk Hnone. rewrite Hrows, Hso, (Hnew Hk Hnone). split; reflexivity. }
  intros other Hk Hempty.
  rewrite (slot_foods_add _ user_id date day_of_week meal_type other h Hfind).
  f_equal.
  destruct Hempty as [Hnone|Hsome].
  - destruct (slot_foods_new db user_id date day_of_week meal_type food_item_id Hk Hnone)
      as (h' & Hf' & Hs').
    unfold slot_foods in Hs'. rewrite Hfind in Hs'. injection Hs' as ->. reflexivity.
  - unfold slot_foods in Hsome.
    destruct (find_slot db user_id date meal_type) as [old|] eqn:Eold; [|discriminate].
    pose proof (slot_foods_add db user_id date day_of_week meal_type food_item_id
                  old Eold) as Hs'.
    injection Hsome as Hsome. rewrite Hsome in Hs'.
    unfold slot_foods in Hs'. rewrite Hfind in Hs'. injection Hs' as ->. reflexivity.
Qed.

Lemma item_rows_remove db mid f mid' :
  item_rows (remove_meal_item db mid f) mid'
  = List.filter
      (fun i => negb ((MealItemRow.meal_id i =? mid) && (MealItemRow.food_id i =? f)))
      (item_rows db mid').
Proof.
  unfold item_rows, remove_meal_item, sql_delete_meal_item. simpl.
  rewrite !filter_filter. apply filter_ext. intros i. apply andb_comm.
Qed.

Lemma ordered_items_remove db mid f mid' :
  ordered_items (remove_meal_item db mid f) mid'
  = List.filter
      (fun i => negb ((MealItemRow.meal_id i =? mid) && (MealItemRow.food_id i =? f)))
      (ordered_items db mid').
Proof.
  unfold ordered_items. rewrite item_rows_remove. symmetry.
  apply order_by_filter.
  - apply by_sort_order_trans.
  - apply by_sort_order_total.
Qed.

Lemma map_food_id_filter mid f rows :
  (forall i, In i rows -> MealItemRow.meal_id i = mid) ->
  map MealItemRow.food_id
    (List.filter
       (fun i => negb ((MealItemRow.meal_id i =? mid) && (MealItemRow.food_id i =? f)))
       rows)
  = List.filter (fun x => negb (x =? f)) (map MealItemRow.food_id rows).
Proof.
  induction rows as [|r rows IH]; intros H; simpl; [reflexivity|].
  rewrite (H r (or_introl eq_refl)), Nat.eqb_refl. simpl.
  rewrite <- IH by (intros; apply H; right; assumption).
  destruct (MealItemRow.food_id r =? f); reflexivity.
Qed.

Lemma slot_foods_remove db u d mt f h :
  find_slot db u d mt = Some h ->
  find_slot (remove_meal_item db (MealRow.id h) f) u d mt = Some h /\
  slot_foods (remove_meal_item db (MealRow.id h) f) u d mt
  = Some (List.filter (fun x => negb (x =? f))
            (map MealItemRow.food_id (ordered_items db (MealRow.id h)))).
Proof.
  intros Hfind.
  assert (Hsame : find_slot (remove_meal_item db (MealRow.id h) f) u d mt = Some h)
    by exact Hfind.
  split; [exact Hsame|].
  unfold slot_foods. rewrite Hsame, ordered_items_remove. f_equal.
  apply map_food_id_filter. intros i. apply ordered_items_meal_id.
Qed.

(** C7. Remove-item deletes the item rows of the slot that hold the food
    and nothing else: headers and all other item rows stay as they are,
    with their keys and sort indices, and every slot reads in the same
    order as before without the removed rows.  After [A, B], removing A
    and adding C reads [B, C]. *)
Theorem remove_meal_item_frame (db : Store.t) (meal_id food_item_id : ident) :
  let db' := remove_meal_item db meal_id food_item_id in
  let removed i :=
    (MealItemRow.meal_id i =? meal_id) && (MealItemRow.food_id i =? food_item_id) in
  Store.meals db' = Store.meals db /\
  (forall i, In i (Store.meal_items db') <->
             In i (Store.meal_items db) /\ removed i = false) /\
  (forall mid, ordered_items db' mid
               = List.filter (fun i => negb (removed i)) (ordered_items db mid)) /\
  (forall mid, mid <> meal_id -> item_rows db' mid = item_rows db mid) /\
  (forall user_id date day_of_week meal_type A B C,
     keys_allocated db ->
     find_slot db user_id date meal_type = None ->
     A <> B ->
     let add db f := add_meal_item db user_id date day_of_week meal_type f in
     let db2 := add (add db A) B in
     exists slot,
       find_slot db2 user_id date meal_type = Some slot /\
       slot_foods db2 user_id date meal_type = Some [A; B] /\
       slot_foods (add (remove_meal_item db2 (MealRow.id slot) A) C)
         user_id date meal_type
       = Some [B; C]).
Proof.
  cbv zeta. split; [reflexivity|]. split.
  { intros i. unfold remove_meal_item, sql_delete_meal_item. simpl.
    rewrite filter_In, negb_true_iff. reflexivity. }
  split; [intros mid; apply ordered_items_remove|].
  split.
  { intros mid Hne. rewrite item_rows_remove. apply filter_all.
    intros i Hi. apply item_rows_meal_id in Hi.
    destruct (Nat.eqb_spec (MealItemRow.meal_id i) meal_id); [congruence|reflexivity]. }
  intros u d dow mt A B C Hk Hnone HAB.
  destruct (slot_foods_new db u d dow mt A Hk Hnone) as (h1 & Hf1 & Hs1).
  pose proof (slot_foods_add _ u d dow mt B h1 Hf1) as Hs2.
  destruct (add_meal_item_read (add_meal_item db u d dow mt A) u d dow mt B)
    as (h2 & _ & Hf2 & _).
  exists h2. split; [exact Hf2|].
  assert (HAB' : map MealItemRow.food_id
                   (ordered_items (add_meal_item db u d dow mt A) (MealRow.id h1))
                 = [A]).
  { unfold slot_foods in Hs1. rewrite Hf1 in Hs1. injection Hs1 as Hs1. exact Hs1. }
  rewrite HAB' in Hs2. split; [exact Hs2|].
  destruct (slot_foods_remove _ u d mt A h2 Hf2) as [Hf3 Hs3].
  rewrite (slot_foods_add _ u d dow mt C h2 Hf3).
  unfold slot_foods in Hs2, Hs3. rewrite Hf2 in Hs2. rewrite Hf3 in Hs3.
  injection Hs2 as Hs2. injection Hs3 as Hs3.
  rewrite Hs3, Hs2. simpl. rewrite Nat.eqb_refl. simpl.
  destruct (Nat.eqb_spec B A); [congruence|]. reflexivity.
Qed.

(** ** Dates *)

Lemma date_leb_le a b : date_leb a b = true <-> date_le a b.
Proof.
  unfold date_leb, date_le.
  destruct (Z.ltb_spec (year a) (year b)), (Z.eqb_spec (year a) (year b)),
    (Z.ltb_spec (month a) (month b)), (Z.eqb_spec (month a) (month b)),
    (Z.leb_spec (day a) (day b)); simpl; split; intros; try discriminate;
    try reflexivity; lia.
Qed.

Lemma date_le_refl a : date_le a a.
Proof. unfold date_le. lia. Qed.

Lemma date_le_trans a b c : date_le a b -> date_le b c -> date_le a c.
Proof. unfold date_le. lia. Qed.

Lemma date_le_total a b : date_le a b \/ date_le b a.
Proof. unfold date_le. lia. Qed.

Lemma date_le_neq_lt a b : date_le a b -> a <> b -> date_lt a b.
Proof.
  unfold date_le, date_lt. destruct a as [y1 m1 d1], b as [y2 m2 d2]. simpl.
  intros H Hne.
  assert (~ (y1 = y2 /\ m1 = m2 /\ d1 = d2)) by (intros (-> & -> & ->); congruence).
  lia.
Qed.

Lemma date_lt_irrefl a : ~ date_lt a a.
Proof. unfold date_lt. lia. Qed.

Lemma date_lt_trans a b c : date_lt a b -> date_lt b c -> date_lt a c.
Proof. unfold date_lt. lia. Qed.

Lemma digit_inj a b :
  (0 <= a < 10)%Z -> (0 <= b < 10)%Z -> digit a = digit b -> a = b.
Proof.
  intros Ha Hb H. unfold digit in H.
  apply (f_equal nat_of_ascii) in H.
  rewrite !nat_ascii_embedding in H by lia. lia.
Qed.

Lemma mod10_range n : (0 <= n mod 10 < 10)%Z.
Proof. apply Z.mod_pos_bound. lia. Qed.

Lemma pad2_inj a b :
  (0 <= a < 100)%Z -> (0 <= b < 100)%Z -> pad2 a = pad2 b -> a = b.
Proof.
  intros Ha Hb H. unfold pad2 in H. injection H as H1 H0.
  apply digit_inj in H1, H0; try apply mod10_range.
  Z.to_euclidean_division_equations; lia.
Qed.

Lemma pad4_inj a b :
  (0 <= a < 10000)%Z -> (0 <= b < 10000)%Z -> pad4 a = pad4 b -> a = b.
Proof.
  intros Ha Hb H. unfold pad4, pad2 in H. injection H as H3 H2 H1 H0.
  apply digit_inj in H3, H2, H1, H0; try apply mod10_range.
  Z.to_euclidean_division_equations; lia.
Qed.

(** Distinct dates have distinct ISO strings. *)
Lemma date_str_inj a b :
  date_valid a -> date_valid b -> date_str a = date_str b -> a = b.
Proof.
  unfold date_valid. destruct a as [y1 m1 d1], b as [y2 m2 d2]. simpl.
  intros Ha Hb H. unfold date_str in H. simpl in H.
  injection H as H1 H2 H3 H4 H5 H6 H7 H8.
  f_equal.
  - apply pad4_inj; [lia|lia|]. unfold pad4, pad2. congruence.
  - apply pad2_inj; [lia|lia|]. unfold pad2. congruence.
  - apply pad2_inj; [lia|lia|]. unfold pad2. congruence.
Qed.

(** ** The range query *)

Lemma left_join_left {A B} (on : A -> B -> bool) l r a ob :
  In (a, ob) (left_join on l r) -> In a l.
Proof.
  unfold left_join. rewrite in_flat_map. intros (a' & Ha & Hin).
  destruct (List.filter (on a') r) as [|b bs].
  - destruct Hin as [[= <- _]|[]]. exact Ha.
  - apply in_map_iff in Hin. destruct Hin as (b' & [= <- _] & _). exact Ha.
Qed.

Lemma left_join_keeps {A B} (on : A -> B -> bool) l r a :
  In a l -> exists ob, In (a, ob) (left_join on l r).
Proof.
  intros Ha. unfold left_join.
  destruct (List.filter (on a) r) as [|b bs] eqn:E.
  - exists None. apply in_flat_map. exists a. rewrite E. simpl. auto.
  - exists (Some b). apply in_flat_map. exists a. rewrite E.
    split; [exact Ha|]. left. reflexivity.
Qed.

Lemma range_order_leb_date a b :
  range_order_leb a b = true ->
  date_le (RangeRow.meal_date a) (RangeRow.meal_date b).
Proof.
  unfold range_order_leb.
  destruct (date_eqb (RangeRow.meal_date a) (RangeRow.meal_date b)) eqn:E.
  - intros _. apply date_eqb_eq in E. rewrite E. apply date_le_refl.
  - apply date_leb_le.
Qed.

Lemma range_order_not_leb_date a b :
  range_order_leb a b = false ->
  date_le (RangeRow.meal_date b) (RangeRow.meal_date a).
Proof.
  unfold range_order_leb.
  destruct (date_eqb (RangeRow.meal_date a) (RangeRow.meal_date b)) eqn:E.
  - intros _. apply date_eqb_eq in E. rewrite E. apply date_le_refl.
  - intros H.
    destruct (date_le_total (RangeRow.meal_date a) (RangeRow.meal_date b)) as [Hle|Hle];
      [|exact Hle].
    apply date_leb_le in Hle. congruence.
Qed.

(** The rows of the range query come in ascending date order. *)
Lemma sql_select_meals_range_sorted db u s e :
  StronglySorted date_le
    (map RangeRow.meal_date (sql_select_meals_range db u s e)).
Proof.
  unfold sql_select_meals_range.
  match goal with
  | |- StronglySorted _ (map _ (order_by _ ?l)) => generalize l
  end.
  intros l.
  assert (H : StronglySorted
                (fun a b => date_le (RangeRow.meal_date a) (RangeRow.meal_date b))
                (order_by range_order_leb l)).
  { apply order_by_sorted.
    - intros x y z. apply date_le_trans.
    - apply range_order_leb_date.
    - apply range_order_not_leb_date. }
  induction H as [|x l' Hs IH Hx]; simpl; constructor; [exact IH|].
  apply List.Forall_forall. intros d Hd. apply in_map_iff in Hd.
  destruct Hd as (y & <- & Hy). rewrite List.Forall_forall in Hx. apply Hx. exact Hy.
Qed.

(** The dates of the rows are the dates of the selected meals. *)
Lemma sql_select_meals_range_dates db u s e d :
  In d (map RangeRow.meal_date (sql_select_meals_range db u s e)) <->
  exists m, In m (Store.meals db) /\ in_range u s e m /\ MealRow.log_date m = d.
Proof.
  unfold sql_select_meals_range, in_range.
  rewrite in_map_iff. split.
  - intros (row & <- & Hrow). apply In_order_by in Hrow.
    apply in_map_iff in Hrow. destruct Hrow as ([[m mi] f] & <- & Hsel).
    apply filter_In in Hsel. destruct Hsel as [Hjoin Hwhere].
    apply left_join_left in Hjoin. apply left_join_left in Hjoin.
    rewrite !andb_true_iff, !date_leb_le, String.eqb_eq in Hwhere.
    exists m. simpl. tauto.
  - intros (m & Hm & (Hu & Hs & He) & <-).
    destruct (left_join_keeps (fun m mi => MealRow.id m =? MealItemRow.meal_id mi)
                (Store.meals db) (Store.meal_items db) m Hm) as [mi Hmi].
    destruct (left_join_keeps
                (fun '(_, mi) f =>
                   match mi with
                   | Some mi => MealItemRow.food_id mi =? FoodRow.id f
                   | None => false
                   end)
                _ (Store.foods db) (m, mi) Hmi) as [f Hf].
    eexists. split; [|apply In_order_by; apply in_map_iff;
                      exists ((m, mi), f); split; [reflexivity|]].
    + reflexivity.
    + apply filter_In. split; [exact Hf|].
      rewrite !andb_true_iff, !date_leb_le, String.eqb_eq. tauto.
Qed.

(** ** The grouping loop *)

Lemma dict_mem_keys {V} k (d : list (string * V)) :
  dict_mem k d = existsb (String.eqb k) (map fst d).
Proof.
  unfold dict_mem. induction d as [|[k' v] d IH]; simpl; [reflexivity|].
  destruct (String.eqb k k'); [reflexivity|exact IH].
Qed.

Lemma dict_get_set {V} k (v : V) d : dict_get k (dict_set k v d) = Some v.
Proof.
  induction d as [|[k' v'] d IH]; cbn [dict_get dict_set].
  - rewrite String.eqb_refl. reflexivity.
  - destruct (String.eqb k k') eqn:E; cbn [dict_get]; rewrite E; [reflexivity|exact IH].
Qed.

Lemma dict_get_mem {V} k (d : list (string * V)) :
  dict_mem k d = true -> exists v, dict_get k d = Some v.
Proof.
  unfold dict_mem. destruct (dict_get k d) as [v|]; [eauto|discriminate].
Qed.

Lemma dict_set_keys {V} k (v : V) d :
  map fst (dict_set k v d) = add_key (map fst d) k.
Proof.
  unfold add_key. induction d as [|[k' v'] d IH]; simpl; [reflexivity|].
  destruct (String.eqb k k'); simpl; [reflexivity|].
  rewrite IH. destruct (existsb (String.eqb k) (map fst d)); reflexivity.
Qed.

Lemma dict_set_keyed k v d :
  keyed d -> DayData.date v = k -> keyed (dict_set k v d).
Proof.
  unfold keyed, dict_values. intros Hd Hv.
  induction d as [|[k' v'] d IH]; simpl in *.
  - rewrite Hv. reflexivity.
  - injection Hd as Hk Hd. destruct (String.eqb_spec k k') as [->|]; simpl.
    + rewrite Hv, Hd. reflexivity.
    + rewrite Hk, IH by exact Hd. reflexivity.
Qed.

Lemma dict_get_keyed k v d : keyed d -> dict_get k d = Some v -> DayData.date v = k.
Proof.
  unfold keyed, dict_values.
  induction d as [|[k' v'] d IH]; simpl; [discriminate|].
  intros [= Hk Hd]. destruct (String.eqb_spec k k') as [->|].
  - intros [= <-]. exact Hk.
  - apply IH. exact Hd.
Qed.

Lemma map_meal_type_to_key_attr meal_type :
  In (_map_meal_type_to_key meal_type) MEAL_ATTRS.
Proof.
  unfold _map_meal_type_to_key, mapping.
  repeat match goal with
    | |- context [<[?k := _]> _ !! meal_type] =>
        destruct (decide (k = meal_type)) as [<-|];
        [vm_compute; tauto|rewrite lookup_insert_ne by assumption]
    end.
  rewrite lookup_empty. simpl. tauto.
Qed.

Lemma getattr_attr meals attr :
  In attr MEAL_ATTRS -> exists meal, getattr meals attr = Some meal.
Proof.
  simpl. intros H. decompose [or] H; subst; try contradiction; eexists; reflexivity.
Qed.

Lemma setattr_attr meals attr v :
  In attr MEAL_ATTRS ->
  exists meals', setattr meals attr v = Some meals' /\ getattr meals' attr = Some v.
Proof.
  destruct meals as [b s1 l s2 d]. simpl.
  intros H. decompose [or] H; subst; try contradiction; eexists; split; reflexivity.
Qed.

(** One turn of the grouping loop never raises; it adds the date key of
    the row when it is new. *)
Lemma group_row_keys nutrients_map day_map row :
  keyed day_map ->
  exists day_map',
    group_row nutrients_map day_map row = Some day_map' /\
    keyed day_map' /\
    map fst day_map'
    = add_key (map fst day_map) (date_str (RangeRow.meal_date row)).
Proof.
  intros Hkeyed. unfold group_row.
  set (date_key := date_str (RangeRow.meal_date row)).
  set (dm1 := if negb (dict_mem date_key day_map)
              then dict_set date_key
                     (new_day_data date_key (RangeRow.day_of_week row)) day_map
              else day_map).
  assert (Hdm1 : keyed dm1 /\ map fst dm1 = add_key (map fst day_map) date_key /\
                 exists day_data, dict_get date_key dm1 = Some day_data).
  { unfold dm1. destruct (dict_mem date_key day_map) eqn:E; simpl.
    - split; [exact Hkeyed|]. split; [|apply dict_get_mem; exact E].
      unfold add_key. rewrite <- dict_mem_keys, E. reflexivity.
    - split; [apply dict_set_keyed; [exact Hkeyed|reflexivity]|].
      split; [apply dict_set_keys|]. eexists. apply dict_get_set. }
  destruct Hdm1 as (Hk1 & Hkeys1 & day_data & Hget).
  rewrite Hget. simpl.
  pose proof (map_meal_type_to_key_attr (RangeRow.meal_type row)) as Hattr.
  set (key := _map_meal_type_to_key (RangeRow.meal_type row)) in *.
  assert (Hmeals : exists meals current,
             (current_meal ← getattr (DayData.meals day_data) key;
              match current_meal with
              | None =>
                  setattr (DayData.meals day_data) key
                    (Some (Meal.mk (RangeRow.meal_id row) (RangeRow.meal_type row) []
                             MicronutrientPresence.init (RangeRow.meal_notes row)))
              | Some _ => Some (DayData.meals day_data)
              end) = Some meals /\
             getattr meals key = Some (Some current)).
  { destruct (getattr_attr (DayData.meals day_data) key Hattr) as [[cur|] Hcur];
      rewrite Hcur; simpl.
    - exists (DayData.meals day_data), cur. auto.
    - destruct (setattr_attr (DayData.meals day_data) key
                  (Some (Meal.mk (RangeRow.meal_id row) (RangeRow.meal_type row) []
                           MicronutrientPresence.init (RangeRow.meal_notes row)))
                  Hattr) as (meals' & Hset & Hget').
      rewrite Hset. eauto. }
  destruct Hmeals as (meals & current & Hstep & Hcur).
  destruct (getattr (DayData.meals day_data) key) as [cur0|] eqn:E0;
    [|discriminate]. simpl in Hstep |- *.
  rewrite Hstep. simpl.
  assert (Hfood : exists meals',
             match RangeRow.food row with
             | Some food_row =>
                 current_meal ← getattr meals key;
                 current_meal ← current_meal;
                 setattr meals key
                   (Some (append_item current_meal
                            (_map_food_item food_row
                               (Some (default []
                                        (nutrients_map !! FoodRow.id food_row))))))
             | None => Some meals
             end = Some meals').
  { destruct (RangeRow.food row) as [food_row|]; [|eauto].
    rewrite Hcur. simpl.
    destruct (setattr_attr meals key
                (Some (append_item current
                         (_map_food_item food_row
                            (Some (default [] (nutrients_map !! FoodRow.id food_row))))))
                Hattr) as (meals' & Hset & _).
    eauto. }
  destruct Hfood as (meals' & Hfood). rewrite Hfood. simpl.
  eexists. split; [reflexivity|]. split.
  - apply dict_set_keyed; [exact Hk1|]. simpl. apply (dict_get_keyed _ _ dm1 Hk1 Hget).
  - rewrite dict_set_keys, Hkeys1. unfold add_key at 1.
    replace (existsb (String.eqb date_key) (add_key (map fst day_map) date_key)) with true;
      [reflexivity|].
    symmetry. unfold add_key.
    destruct (existsb (String.eqb date_key) (map fst day_map)) eqn:E; [exact E|].
    rewrite existsb_app. cbn [existsb]. rewrite String.eqb_refl. apply orb_true_r.
Qed.

Lemma group_rows_keys nutrients_map rows : forall day_map,
  keyed day_map ->
  exists day_map',
    for_each (group_row nutrients_map) rows day_map = Some day_map' /\
    keyed day_map' /\
    map fst day_map'
    = fold_left add_key (map (fun r => date_str (RangeRow.meal_date r)) rows)
        (map fst day_map).
Proof.
  induction rows as [|row rows IH]; intros day_map Hk; simpl.
  - eauto.
  - destruct (group_row_keys nutrients_map day_map row Hk) as (dm1 & Hstep & Hk1 & Hkeys).
    rewrite Hstep. simpl.
    destruct (IH dm1 Hk1) as (dm2 & Hrest & Hk2 & Hkeys2).
    exists dm2. rewrite <- Hkeys. auto.
Qed.

(** ** The second pass *)

Lemma aggregate_loop meals :
  exists meals', for_each aggregate_slot MEAL_ATTRS meals = Some meals'.
Proof.
  destruct meals as [[b|] [s1|] [l|] [s2|] [d|]]; eexists; reflexivity.
Qed.

Lemma summarise_day_date day_data :
  exists day_data',
    summarise_day day_data = Some day_data' /\
    DayData.date day_data' = DayData.date day_data.
Proof.
  unfold summarise_day.
  destruct (aggregate_loop (DayData.meals day_data)) as [meals Hm].
  rewrite Hm. simpl.
  rewrite calculate_daily_summary_after_loop.
  destruct (summary_loop meals) as [hw Hloop]. rewrite Hloop. simpl.
  eexists. split; reflexivity.
Qed.

Lemma summarise_days_dates days :
  exists days',
    mapM summarise_day days = Some days' /\
    map DayData.date days' = map DayData.date days.
Proof.
  induction days as [|day days IH]; simpl.
  - exists []. auto.
  - destruct (summarise_day_date day) as (day' & Hd & Hdate).
    destruct IH as (days' & Hds & Hdates).
    exists (day' :: days'). rewrite Hd. simpl. rewrite Hds. simpl.
    rewrite Hdate, Hdates. auto.
Qed.

(** ** Keys of sorted rows *)

Lemma StronglySorted_snoc {A} (R : A -> A -> Prop) l x :
  StronglySorted R l -> (forall a, In a l -> R a x) -> StronglySorted R (l ++ [x]).
Proof.
  induction 1 as [|y l Hs IH Hy]; intros Hx; simpl.
  - repeat constructor.
  - constructor; [apply IH; intros; apply Hx; right; assumption|].
    apply List.Forall_forall. intros z Hz. apply in_app_or in Hz.
    destruct Hz as [Hz|[<-|[]]].
    + rewrite List.Forall_forall in Hy. apply Hy. exact Hz.
    + apply Hx. left. reflexivity.
Qed.

Lemma existsb_date_str d ds :
  date_valid d -> (forall x, In x ds -> date_valid x) ->
  existsb (String.eqb (date_str d)) (map date_str ds) = true <-> In d ds.
Proof.
  intros Hd Hds. rewrite existsb_exists. split.
  - intros (k & Hk & Heq). apply in_map_iff in Hk. destruct Hk as (x & <- & Hx).
    apply String.eqb_eq in Heq. apply date_str_inj in Heq; auto. subst. exact Hx.
  - intros H. exists (date_str d). split; [apply in_map; exact H|apply String.eqb_refl].
Qed.

(** Adding the keys of date-sorted rows yields each date once, in
    ascending order. *)
Lemma add_keys_sorted rest : forall ds,
  (forall x, In x ds -> date_valid x) ->
  (forall x, In x rest -> date_valid x) ->
  StronglySorted date_lt ds ->
  StronglySorted date_le rest ->
  (forall a b, In a ds -> In b rest -> date_le a b) ->
  exists ds',
    fold_left add_key (map date_str rest) (map date_str ds) = map date_str ds' /\
    StronglySorted date_lt ds' /\
    (forall x, In x ds' <-> In x ds \/ In x rest).
Proof.
  induction rest as [|r rest IH]; intros ds Hvds Hvrest Hds Hrest Hle; simpl.
  - exists ds. split; [reflexivity|]. split; [exact Hds|]. tauto.
  - inversion Hrest as [|? ? Hrest' Hr]; subst. rewrite List.Forall_forall in Hr.
    unfold add_key at 2.
    destruct (existsb (String.eqb (date_str r)) (map date_str ds)) eqn:E.
    + apply existsb_date_str in E; [|apply Hvrest; left; reflexivity|exact Hvds].
      destruct (IH ds) as (ds' & Hfold & Hs' & Hin'); auto.
      { intros; apply Hvrest; right; assumption. }
      { intros a b Ha Hb. apply Hle; [exact Ha|right; exact Hb]. }
      exists ds'. split; [exact Hfold|]. split; [exact Hs'|].
      intros x. rewrite Hin'. split; [tauto|].
      intros [H|[<-|H]]; auto.
    + assert (Hnot : ~ In r ds).
      { intros Hin. apply (existsb_date_str r ds) in Hin;
          [congruence|apply Hvrest; left; reflexivity|exact Hvds]. }
      replace (map date_str ds ++ [date_str r]) with (map date_str (ds ++ [r]))
        by (rewrite map_app; reflexivity).
      destruct (IH (ds ++ [r])) as (ds' & Hfold & Hs' & Hin').
      { intros x Hx. apply in_app_or in Hx. destruct Hx as [Hx|[<-|[]]];
          [apply Hvds; exact Hx|apply Hvrest; left; reflexivity]. }
      { intros; apply Hvrest; right; assumption. }
      { apply StronglySorted_snoc; [exact Hds|].
        intros a Ha. apply date_le_neq_lt.
        - apply Hle; [exact Ha|left; reflexivity].
        - intros ->. contradiction. }
      { exact Hrest'. }
      { intros a b Ha Hb. apply in_app_or in Ha. destruct Ha as [Ha|[<-|[]]].
        - apply Hle; [exact Ha|right; exact Hb].
        - apply Hr. exact Hb. }
      exists ds'. split; [exact Hfold|]. split; [exact Hs'|].
      intros x. rewrite Hin', in_app_iff. simpl. tauto.
Qed.

Lemma StronglySorted_lt_NoDup ds : StronglySorted date_lt ds -> List.NoDup ds.
Proof.
  induction 1 as [|d ds Hs IH Hd]; constructor; [|exact IH].
  intros Hin. rewrite List.Forall_forall in Hd.
  apply (date_lt_irrefl d). apply Hd. exact Hin.
Qed.

Lemma NoDup_map_date_str ds :
  (forall x, In x ds -> date_valid x) -> List.NoDup ds -> List.NoDup (map date_str ds).
Proof.
  intros Hv Hnd. induction Hnd as [|d ds Hnot Hnd IH]; simpl; constructor.
  - intros Hin. apply in_map_iff in Hin. destruct Hin as (x & Heq & Hx).
    apply date_str_inj in Heq; [subst; contradiction| |]; apply Hv; simpl; auto.
  - apply IH. intros; apply Hv; right; assumption.
Qed.

(** C3. The day reconstructor returns, for a user and an inclusive date
    range, one record per distinct date that has a meal row of the user in
    the range, in ascending date order, and nothing else: no record when no
    meal row is in the range.  It never raises. *)
Theorem get_meals_by_date_range_days (db : Store.t) (user_id : string)
  (start_date end_date : date) :
  dates_valid db ->
  exists days dates,
    get_meals_by_date_range db user_id start_date end_date = Some days /\
    map DayData.date days = map date_str dates /\
    StronglySorted date_lt dates /\
    (forall d, In d dates <->
               exists m, In m (Store.meals db) /\
                         in_range user_id start_date end_date m /\
                         MealRow.log_date m = d) /\
    List.NoDup (map DayData.date days) /\
    ((forall m, In m (Store.meals db) ->
                ~ in_range user_id start_date end_date m) ->
     days = []).
Proof.
  intros Hvalid. unfold get_meals_by_date_range.
  set (results := sql_select_meals_range db user_id start_date end_date).
  match goal with
  | |- context [group_row ?nm] => generalize nm
  end.
  intros nutrients_map.
  destruct (group_rows_keys nutrients_map results [] eq_refl)
    as (day_map & Hloop & Hkeyed & Hkeys).
  rewrite Hloop. simpl.
  destruct (summarise_days_dates (dict_values day_map)) as (days & Hdays & Hdates).
  rewrite Hdays.
  assert (Hrows : forall d, In d (map RangeRow.meal_date results) ->
                            date_valid d).
  { intros d Hd. apply sql_select_meals_range_dates in Hd.
    destruct Hd as (m & Hm & _ & <-). apply Hvalid. exact Hm. }
  destruct (add_keys_sorted (map RangeRow.meal_date results) [])
    as (dates & Hfold & Hsorted & Hin).
  { intros x []. }
  { exact Hrows. }
  { constructor. }
  { apply sql_select_meals_range_sorted. }
  { intros a b []. }
  rewrite map_map in Hfold. simpl in Hkeys, Hfold. rewrite Hfold in Hkeys.
  assert (Hdd : map DayData.date days = map date_str dates).
  { rewrite Hdates. unfold keyed in Hkeyed. rewrite Hkeyed. exact Hkeys. }
  assert (Hspec : forall d, In d dates <->
                            exists m, In m (Store.meals db) /\
                                      in_range user_id start_date end_date m /\
                                      MealRow.log_date m = d).
  { intros d. rewrite Hin. rewrite <- sql_select_meals_range_dates.
    fold results. simpl. tauto. }
  exists days, dates.
  split; [reflexivity|]. split; [exact Hdd|]. split; [exact Hsorted|].
  split; [exact Hspec|]. split.
  - rewrite Hdd. apply NoDup_map_date_str.
    + intros x Hx. apply Hspec in Hx. destruct Hx as (m & Hm & _ & <-).
      apply Hvalid. exact Hm.
    + apply StronglySorted_lt_NoDup. exact Hsorted.
  - intros Hnone.
    destruct dates as [|d dates].
    + destruct days; [reflexivity|discriminate].
    + exfalso. destruct (proj1 (Hspec d) (or_introl eq_refl)) as (m & Hm & Hr & _).
      exact (Hnone m Hm Hr).
Qed.

Lemma get_meals_by_date_range_days_witness :
  dates_valid example_day /\
  exists days dates,
    get_meals_by_date_range example_day "U" (mkDate 2024 1 1) (mkDate 2024 1 31)
    = Some days /\
    map DayData.date days = map date_str dates /\
    (forall d, In d dates <->
               exists m, In m (Store.meals example_day) /\
                         in_range "U" (mkDate 2024 1 1) (mkDate 2024 1 31) m /\
                         MealRow.log_date m = d).
Proof.
  assert (Hvalid : dates_valid example_day).
  { intros m Hm. vm_compute in Hm. unfold date_valid.
    decompose [or] Hm; try contradiction; subst; simpl; lia. }
  split; [exact Hvalid|].
  destruct (get_meals_by_date_range_days example_day "U" (mkDate 2024 1 1)
              (mkDate 2024 1 31) Hvalid)
    as (days & dates & Hrun & Hdates & _ & Hspec & _).
  exists days, dates. split; [exact Hrun|]. split; [exact Hdates|exact Hspec].
Defined.

(** The end-to-end example of the specification: iron is covered twice,
    calcium once, folic acid and protein are missing; the day before comes
    first. *)
Example example_day_summary :
  exists snack_day summary meals,
    get_meals_by_date_range example_day "U" (mkDate 2024 1 1) (mkDate 2024 1 31)
    = Some [snack_day;
            DayData.mk "2024-01-05" "2024-01-05" "Friday" meals summary] /\
    DayData.date snack_day = "2024-01-04" /\
    DailySummary.iron summary
    = NutrientStatus.mk true ["breakfast"; "lunch"] "good" /\
    DailySummary.calcium summary = NutrientStatus.mk true ["lunch"] "moderate" /\
    NutrientStatus.status (DailySummary.folicAcid summary) = "missing" /\
    DailySummary.missingNutrients summary = ["Folic Acid"; "Protein"].
Proof.
  do 3 eexists. split; [vm_compute; reflexivity|]. simpl. auto.
Qed.

Lemma upsert_meal_replace_all_witness :
  exists header,
    find_slot (upsert_meal example_day "U" (mkDate 2024 1 5) "Fri" "Lunch" [1; 2; 1])
      "U" (mkDate 2024 1 5) "Lunch" = Some header /\
    MealRow.id header = 102 /\
    map MealItemRow.food_id
      (item_rows (upsert_meal example_day "U" (mkDate 2024 1 5) "Fri" "Lunch" [1; 2; 1])
         102)
    = [1; 2; 1] /\
    map MealItemRow.sort_order
      (item_rows (upsert_meal example_day "U" (mkDate 2024 1 5) "Fri" "Lunch" [1; 2; 1])
         102)
    = [0; 1; 2]%Z /\
    item_rows (upsert_meal example_day "U" (mkDate 2024 1 5) "Fri" "Lunch" [1; 2; 1]) 100
    = item_rows example_day 100.
Proof.
  destruct (upsert_meal_replace_all example_day "U" (mkDate 2024 1 5) "Fri" "Lunch"
              [1; 2; 1]) as ((header & Hfind & _ & Hold & Hfood & Hidx & _ & Hframe) & _).
  exists header. split; [exact Hfind|].
  assert (Hid : MealRow.id header = 102).
  { apply (Hold (MealRow.mk 102 "U" (mkDate 2024 1 5) "Friday" "Lunch" None)).
    reflexivity. }
  split; [exact Hid|].
  rewrite Hid in Hfood, Hidx.
  split; [exact Hfood|]. split; [exact Hidx|].
  apply Hframe. rewrite Hid. lia.
Defined.

Lemma keys_allocated_example_foods : keys_allocated example_foods.
Proof. split; intros x []. Qed.

Lemma add_meal_item_appends_witness :
  exists header new_row,
    item_rows (add_meal_item example_foods "U" (mkDate 2024 1 5) "Friday" "Snack 1" 2)
      (MealRow.id header) = [new_row] /\
    MealItemRow.sort_order new_row = 0%Z /\
    slot_foods
      (add_meal_item
         (add_meal_item example_foods "U" (mkDate 2024 1 5) "Friday" "Snack 1" 2)
         "U" (mkDate 2024 1 5) "Friday" "Snack 1" 1)
      "U" (mkDate 2024 1 5) "Snack 1"
    = Some [2; 1].
Proof.
  destruct (add_meal_item_appends example_foods "U" (mkDate 2024 1 5) "Friday"
              "Snack 1" 2)
    as (header & new_row & _ & _ & _ & _ & _ & _ & _ & _ & _ & _ & Hnew & Htwo).
  exists header, new_row.
  destruct (Hnew keys_allocated_example_foods eq_refl) as [Hrows Hzero].
  split; [exact Hrows|]. split; [exact Hzero|].
  apply Htwo; [exact keys_allocated_example_foods|left; reflexivity].
Defined.

Lemma remove_meal_item_frame_witness :
  exists slot,
    slot_foods
      (add_meal_item
         (remove_meal_item
            (add_meal_item
               (add_meal_item example_foods "U" (mkDate 2024 1 5) "Friday" "Dinner" 1)
               "U" (mkDate 2024 1 5) "Friday" "Dinner" 2)
            (MealRow.id slot) 1)
         "U" (mkDate 2024 1 5) "Friday" "Dinner" 1)
      "U" (mkDate 2024 1 5) "Dinner"
    = Some [2; 1].
Proof.
  destruct (remove_meal_item_frame example_foods 0 0) as (_ & _ & _ & _ & Hchain).
  destruct (Hchain "U" (mkDate 2024 1 5) "Friday" "Dinner" 1 2 1
              keys_allocated_example_foods eq_refl ltac:(lia))
    as (slot & _ & _ & Hread).
  exists slot. exact Hread.
Defined.

(** ** Key allocation is an invariant of the mutations *)

Lemma keys_allocated_header db u d dow mt :
  keys_allocated db ->
  keys_allocated (fst (sql_upsert_meal db u d dow mt)) /\
  snd (sql_upsert_meal db u d dow mt) < Store.next_id (fst (sql_upsert_meal db u d dow mt)).
Proof.
  intros [Hm Hi]. unfold sql_upsert_meal.
  destruct (find (same_slot u d mt) (Store.meals db)) as [m|] eqn:E; simpl.
  - split; [split|]; simpl.
    + intros m' Hin. apply in_map_iff in Hin. destruct Hin as (m0 & <- & Hin).
      specialize (Hm m0 Hin). destruct (same_slot u d mt m0); exact Hm.
    + exact Hi.
    + apply Hm. apply (find_some _ _ E).
  - split; [split|]; simpl; [| |lia].
    + intros m' Hin. apply in_app_or in Hin.
      destruct Hin as [Hin|[<-|[]]]; [specialize (Hm m' Hin); lia|simpl; lia].
    + intros i Hin. specialize (Hi i Hin). lia.
Qed.

Lemma keys_allocated_insert_item db mid f so :
  keys_allocated db -> mid < Store.next_id db ->
  keys_allocated (sql_insert_meal_item db mid f so) /\
  Store.next_id db <= Store.next_id (sql_insert_meal_item db mid f so).
Proof.
  intros [Hm Hi] Hmid. unfold sql_insert_meal_item. simpl.
  split; [split|lia]; simpl.
  - intros m Hin. specialize (Hm m Hin). lia.
  - intros i Hin. apply in_app_or in Hin.
    destruct Hin as [Hin|[<-|[]]]; [specialize (Hi i Hin); lia|simpl; lia].
Qed.

Lemma keys_allocated_select_items db p :
  keys_allocated db ->
  keys_allocated (Store.set_meal_items db (List.filter p (Store.meal_items db))).
Proof.
  intros [Hm Hi]. split; simpl; [exact Hm|].
  intros i Hin. apply filter_In in Hin. apply Hi. tauto.
Qed.

Lemma keys_allocated_insert_loop mid (l : list (Z * ident)) : forall db,
  keys_allocated db -> mid < Store.next_id db ->
  keys_allocated
    (fold_left (fun db '(idx, fid) => sql_insert_meal_item db mid fid idx) l db).
Proof.
  induction l as [|[idx fid] l IH]; intros db Hk Hmid; simpl; [exact Hk|].
  destruct (keys_allocated_insert_item db mid fid idx Hk Hmid) as [Hk' Hle].
  apply IH; [exact Hk'|lia].
Qed.

(** Every mutation of the service keeps the keys allocated. *)
Lemma keys_allocated_preserved db u d dow mt :
  keys_allocated db ->
  (forall fids, keys_allocated (upsert_meal db u d dow mt fids)) /\
  (forall f, keys_allocated (add_meal_item db u d dow mt f)) /\
  (forall mid f, keys_allocated (remove_meal_item db mid f)).
Proof.
  intros Hk.
  destruct (keys_allocated_header db u d dow mt Hk) as [Hk1 Hmid].
  split; [|split].
  - intros fids. unfold upsert_meal.
    destruct (sql_upsert_meal db u d dow mt) as [db1 mid]. simpl in Hk1, Hmid.
    pose proof (keys_allocated_select_items db1
                  (fun i => negb (MealItemRow.meal_id i =? mid)) Hk1) as Hk2.
    destruct fids as [|fid fids]; [exact Hk2|].
    apply keys_allocated_insert_loop; [exact Hk2|exact Hmid].
  - intros f. unfold add_meal_item.
    destruct (sql_upsert_meal db u d dow mt) as [db1 mid]. simpl in Hk1, Hmid.
    apply keys_allocated_insert_item; assumption.
  - intros mid f. apply keys_allocated_select_items. exact Hk.
Qed.

(** ** Invariants of the headers and of the item rows *)

Lemma same_slot_key u d mt m :
  same_slot u d mt m = true <-> slot_key m = (u, d, mt).
Proof.
  unfold same_slot, slot_key.
  rewrite !andb_true_iff, !String.eqb_eq, date_eqb_eq. split.
  - intros [[-> ->] ->]. reflexivity.
  - intros [= -> -> ->]. auto.
Qed.

Lemma sql_upsert_meal_meals db u d dow mt :
  let db1 := fst (sql_upsert_meal db u d dow mt) in
  (map slot_key (Store.meals db1) = map slot_key (Store.meals db) /\
   map MealRow.id (Store.meals db1) = map MealRow.id (Store.meals db) /\
   In (u, d, mt) (map slot_key (Store.meals db))) \/
  (Store.meals db1
   = Store.meals db ++ [MealRow.mk (Store.next_id db) u d dow mt None] /\
   ~ In (u, d, mt) (map slot_key (Store.meals db))).
Proof.
  unfold sql_upsert_meal.
  destruct (find (same_slot u d mt) (Store.meals db)) as [m|] eqn:E; simpl.
  - left. rewrite !map_map. split; [|split].
    + apply map_ext. intros r.
      destruct (same_slot u d mt r); reflexivity.
    + apply map_ext. intros r.
      destruct (same_slot u d mt r); reflexivity.
    + apply find_some in E. destruct E as [Hin Hs].
      apply same_slot_key in Hs. rewrite <- Hs. apply in_map. exact Hin.
  - right. split; [reflexivity|].
    intros Hin. apply in_map_iff in Hin. destruct Hin as (m & Hk & Hm).
    apply same_slot_key in Hk.
    pose proof (find_none _ _ E m Hm) as Hf. congruence.
Qed.

Lemma upsert_meal_meals db u d dow mt fids :
  Store.meals (upsert_meal db u d dow mt fids)
  = Store.meals (fst (sql_upsert_meal db u d dow mt)).
Proof.
  unfold upsert_meal. destruct (sql_upsert_meal db u d dow mt) as [db1 mid]. simpl.
  destruct fids as [|fid fids]; [reflexivity|]. cbn [truthy_list].
  apply (insert_loop mid (enumerate (fid :: fids)) (sql_delete_meal_items db1 mid)).
Qed.

Lemma add_meal_item_meals db u d dow mt f :
  Store.meals (add_meal_item db u d dow mt f)
  = Store.meals (fst (sql_upsert_meal db u d dow mt)).
Proof.
  unfold add_meal_item. destruct (sql_upsert_meal db u d dow mt) as [db1 mid].
  reflexivity.
Qed.

Lemma NoDup_snoc {A} (l : list A) x : List.NoDup l -> ~ In x l -> List.NoDup (l ++ [x]).
Proof.
  intros Hl Hx. induction Hl as [|y l Hy Hl IH]; simpl.
  - constructor; [tauto|constructor].
  - constructor.
    + intros Hin. apply in_app_or in Hin. destruct Hin as [Hin|[->|[]]].
      * contradiction.
      * apply Hx. left. reflexivity.
    + apply IH. intros Hin. apply Hx. right. exact Hin.
Qed.

Lemma slots_unique_header db u d dow mt :
  slots_unique db -> List.NoDup (map slot_key (Store.meals (fst (sql_upsert_meal db u d dow mt)))).
Proof.
  unfold slots_unique. intros Hu.
  destruct (sql_upsert_meal_meals db u d dow mt) as [(Hk & _ & _)|(Hm & Hnew)];
    cbv zeta in *.
  - rewrite Hk. exact Hu.
  - rewrite Hm, map_app. simpl. apply NoDup_snoc; assumption.
Qed.

Lemma NoDup_map_filter {A B} (f : A -> B) (p : A -> bool) l :
  List.NoDup (map f l) -> List.NoDup (map f (List.filter p l)).
Proof.
  induction l as [|x l IH]; simpl; intros H; [constructor|].
  inversion H as [|? ? Hx Hl]; subst.
  destruct (p x); simpl; [constructor|]; auto.
  intros Hin. apply Hx. apply in_map_iff in Hin. destruct Hin as (y & <- & Hy).
  apply in_map. apply filter_In in Hy. tauto.
Qed.

(** X3. The mutations never leave two headers for one (user, date, slot
    type): when the headers are unique before upsert-slot, add-item,
    remove-item or delete-slot, they are unique afterwards. *)
Theorem slots_unique_preserved (db : Store.t) (user_id : string) (date : date)
  (day_of_week meal_type : string) :
  slots_unique db ->
  (forall fids, slots_unique (upsert_meal db user_id date day_of_week meal_type fids)) /\
  (forall f, slots_unique (add_meal_item db user_id date day_of_week meal_type f)) /\
  (forall mid f, slots_unique (remove_meal_item db mid f)) /\
  (forall mid, slots_unique (delete_meal db mid)).
Proof.
  intros Hu.
  pose proof (slots_unique_header db user_id date day_of_week meal_type Hu) as Hh.
  split; [|split; [|split]].
  - intros fids. unfold slots_unique. rewrite upsert_meal_meals. exact Hh.
  - intros f. unfold slots_unique. rewrite add_meal_item_meals. exact Hh.
  - intros mid f. exact Hu.
  - intros mid. unfold slots_unique, delete_meal. simpl.
    apply NoDup_map_filter. exact Hu.
Qed.

Lemma slots_unique_preserved_witness :
  slots_unique example_day /\
  slots_unique (upsert_meal example_day "U" (mkDate 2024 1 5) "Fri" "Lunch" [1; 1]).
Proof.
  assert (H : slots_unique example_day).
  { unfold slots_unique. vm_compute.
    repeat (constructor; [simpl; intros Hin; decompose [or] Hin; discriminate || assumption|]).
    constructor. }
  split; [exact H|].
  destruct (slots_unique_preserved example_day "U" (mkDate 2024 1 5) "Fri" "Lunch" H)
    as (Hupsert & _).
  exact (Hupsert [1; 1]).
Defined.

Lemma header_id_stored db u d dow mt :
  In (snd (sql_upsert_meal db u d dow mt))
     (map MealRow.id (Store.meals (fst (sql_upsert_meal db u d dow mt)))).
Proof.
  destruct (sql_upsert_meal_header db u d dow mt) as (h & Hfind & Hid & _).
  cbv zeta in *. rewrite <- Hid. apply in_map.
  unfold find_slot in Hfind. apply (find_some _ _ Hfind).
Qed.

Lemma header_ids_kept db u d dow mt x :
  In x (map MealRow.id (Store.meals db)) ->
  In x (map MealRow.id (Store.meals (fst (sql_upsert_meal db u d dow mt)))).
Proof.
  intros Hin.
  destruct (sql_upsert_meal_meals db u d dow mt) as [(_ & Hi & _)|(Hm & _)];
    cbv zeta in *.
  - rewrite Hi. exact Hin.
  - rewrite Hm, map_app. apply in_or_app. left. exact Hin.
Qed.

Lemma items_attached_ids db :
  items_attached db <->
  forall i, In i (Store.meal_items db) ->
            In (MealItemRow.meal_id i) (map MealRow.id (Store.meals db)).
Proof.
  unfold items_attached. split; intros H i Hi.
  - destruct (H i Hi) as (m & Hm & <-). apply in_map. exact Hm.
  - specialize (H i Hi). apply in_map_iff in H. destruct H as (m & Hid & Hm). eauto.
Qed.

(** X4. The mutations never create an orphan item: when every item row
    belongs to a stored header before upsert-slot, add-item or remove-item,
    the same holds afterwards. *)
Theorem items_attached_preserved (db : Store.t) (user_id : string) (date : date)
  (day_of_week meal_type : string) :
  items_attached db ->
  (forall fids, items_attached (upsert_meal db user_id date day_of_week meal_type fids)) /\
  (forall f, items_attached (add_meal_item db user_id date day_of_week meal_type f)) /\
  (forall mid f, items_attached (remove_meal_item db mid f)).
Proof.
  rewrite items_attached_ids. intros Ha.
  pose proof (header_id_stored db user_id date day_of_week meal_type) as Hid.
  pose proof (header_ids_kept db user_id date day_of_week meal_type) as Hkept.
  destruct (sql_upsert_meal_header db user_id date day_of_week meal_type)
    as (_ & _ & _ & _ & Hitems & _). cbv zeta in Hitems.
  split; [|split].
  - intros fids. apply items_attached_ids. intros i Hi.
    rewrite upsert_meal_meals.
    unfold upsert_meal in Hi.
    destruct (sql_upsert_meal db user_id date day_of_week meal_type) as [db1 mid].
    simpl in *.
    assert (Hloop : (if truthy_list fids
                     then fold_left
                            (fun db '(idx, fid) => sql_insert_meal_item db mid fid idx)
                            (enumerate fids) (sql_delete_meal_items db1 mid)
                     else sql_delete_meal_items db1 mid)
                    = fold_left
                        (fun db '(idx, fid) => sql_insert_meal_item db mid fid idx)
                        (enumerate fids) (sql_delete_meal_items db1 mid))
      by (destruct fids; reflexivity).
    rewrite Hloop in Hi. clear Hloop.
    destruct (insert_loop mid (enumerate fids) (sql_delete_meal_items db1 mid))
      as (_ & rows & Hrows & _ & Hmid).
    rewrite Hrows in Hi. apply in_app_or in Hi. destruct Hi as [Hi|Hi].
    + simpl in Hi. apply filter_In in Hi. destruct Hi as [Hi _].
      rewrite Hitems in Hi. apply Hkept. apply Ha. exact Hi.
    + rewrite (Hmid i Hi). exact Hid.
  - intros f. apply items_attached_ids. intros i Hi.
    rewrite add_meal_item_meals.
    unfold add_meal_item in Hi.
    destruct (sql_upsert_meal db user_id date day_of_week meal_type) as [db1 mid].
    simpl in *. rewrite Hitems in Hi.
    apply in_app_or in Hi. destruct Hi as [Hi|[<-|[]]].
    + apply Hkept. apply Ha. exact Hi.
    + exact Hid.
  - intros mid f. apply items_attached_ids. intros i Hi.
    simpl in Hi. apply filter_In in Hi. apply Ha. tauto.
Qed.

Lemma items_attached_preserved_witness :
  items_attached example_foods /\
  items_attached (add_meal_item example_foods "U" (mkDate 2024 1 5) "Friday" "Lunch" 2).
Proof.
  assert (H : items_attached example_foods) by (intros i []).
  split; [exact H|].
  destruct (items_attached_preserved example_foods "U" (mkDate 2024 1 5) "Friday"
              "Lunch" H) as (_ & Hadd & _).
  exact (Hadd 2).
Defined.

(** ** More on the mutations *)

Lemma filter_idem {A} (p : A -> bool) l :
  List.filter p (List.filter p l) = List.filter p l.
Proof.
  apply filter_all. intros x Hx. apply filter_In in Hx. tauto.
Qed.

(** X6. Remove-item is a no-op on a food that the slot does not hold (no
    error, store unchanged), and removing the same food a second time
    changes nothing. *)
Theorem remove_meal_item_absent (db : Store.t) (meal_id food_item_id : ident) :
  ((forall i, In i (item_rows db meal_id) -> MealItemRow.food_id i <> food_item_id) ->
   remove_meal_item db meal_id food_item_id = db) /\
  remove_meal_item (remove_meal_item db meal_id food_item_id) meal_id food_item_id
  = remove_meal_item db meal_id food_item_id.
Proof.
  unfold remove_meal_item, sql_delete_meal_item. split.
  - intros Habsent. destruct db as [foods meals items nutrients links next].
    unfold Store.set_meal_items. simpl. f_equal.
    apply filter_all. intros i Hi.
    destruct (Nat.eqb_spec (MealItemRow.meal_id i) meal_id) as [Hm|]; [|reflexivity].
    destruct (Nat.eqb_spec (MealItemRow.food_id i) food_item_id) as [Hf|]; [|reflexivity].
    exfalso. apply (Habsent i); [|exact Hf].
    unfold item_rows. simpl. apply filter_In. split; [exact Hi|].
    apply Nat.eqb_eq. exact Hm.
  - unfold Store.set_meal_items. simpl. rewrite filter_idem. reflexivity.
Qed.

Lemma remove_meal_item_absent_witness :
  remove_meal_item example_day 102 1 = example_day.
Proof.
  destruct (remove_meal_item_absent example_day 102 1) as [Habsent _].
  apply Habsent. vm_compute. intros i [<-|[]]. simpl. lia.
Defined.

Lemma enumerate_from_fst_max {A} (l : list A) : forall i,
  (coalesce (sql_max (map fst (enumerate_from i l))) (i - 1)
   = i + Z.of_nat (length l) - 1)%Z.
Proof.
  induction l as [|x l IH]; intros i.
  - simpl. lia.
  - pose proof (sql_max_spec (map fst (enumerate_from i (x :: l)))) as Hmax.
    destruct (sql_max (map fst (enumerate_from i (x :: l)))) as [m|];
      [|discriminate].
    destruct Hmax as [Hin Hge]. cbn [coalesce].
    assert (Hup : forall j (k : list A) p,
               In p (enumerate_from j k) -> (fst p <= j + Z.of_nat (length k) - 1)%Z).
    { intros j k. revert j. induction k as [|y k IHk]; intros j p; simpl; [tauto|].
      intros [<-|Hp]; simpl; [lia|]. apply IHk in Hp. lia. }
    assert (Hlast : forall j (k : list A) y,
               In (j + Z.of_nat (length k))%Z (map fst (enumerate_from j (y :: k)))).
    { intros j k. revert j. induction k as [|z k IHk]; intros j y.
      - simpl. left. lia.
      - cbn [enumerate_from map length]. right.
        replace (j + Z.of_nat (S (length k)))%Z with (j + 1 + Z.of_nat (length k))%Z
          by lia.
        apply IHk. }
    apply in_map_iff in Hin. destruct Hin as (p & <- & Hp).
    apply Hup in Hp. specialize (Hge _ (Hlast i l x)).
    cbn [length] in *. lia.
Qed.

(** X5. Add-item after upsert-slot appends: the new row gets the index
    [len(food_item_ids)] and the slot reads as the upserted list followed
    by the new food. *)
Theorem add_after_upsert (db : Store.t) (user_id : string) (date : date)
  (day_of_week day_of_week' meal_type : string) (food_item_ids : list ident)
  (food_item_id : ident) :
  let db1 := upsert_meal db user_id date day_of_week meal_type food_item_ids in
  let db2 := add_meal_item db1 user_id date day_of_week' meal_type food_item_id in
  exists new_row,
    Store.meal_items db2 = Store.meal_items db1 ++ [new_row] /\
    MealItemRow.food_id new_row = food_item_id /\
    MealItemRow.sort_order new_row = Z.of_nat (length food_item_ids) /\
    slot_foods db2 user_id date meal_type = Some (food_item_ids ++ [food_item_id]).
Proof.
  cbv zeta.
  destruct (upsert_meal_rows db user_id date day_of_week meal_type food_item_ids)
    as (h & Hfind & _ & _ & Hrows & _).
  set (db1 := upsert_meal db user_id date day_of_week meal_type food_item_ids) in *.
  destruct (add_meal_item_rows db1 user_id date day_of_week' meal_type food_item_id)
    as (h2 & row & _ & _ & Hold & Hitems & _ & Hfood & Hso).
  rewrite Hfind in Hold. rewrite Hold in Hso.
  exists row. split; [exact Hitems|]. split; [exact Hfood|]. split.
  - rewrite Hso.
    replace (map MealItemRow.sort_order (item_rows db1 (MealRow.id h)))
      with (map fst (enumerate food_item_ids))
      by (rewrite <- Hrows, map_map; reflexivity).
    pose proof (enumerate_from_fst_max food_item_ids 0) as Hmax.
    unfold enumerate. change (0 - 1)%Z with (-1)%Z in Hmax. rewrite Hmax. lia.
  - rewrite (slot_foods_add db1 user_id date day_of_week' meal_type food_item_id h Hfind).
    rewrite (ordered_items_enumerate db1 (MealRow.id h) food_item_ids 0 Hrows).
    reflexivity.
Qed.

(** ** More on the daily summary *)

Lemma warnings_fold (slots : list (string * option Meal.t)) : forall hw,
  fold_left
    (fun (hw : bool) (slot : string * option Meal.t) =>
       match snd slot with
       | Some meal => if any FoodItem.hasWarnings (Meal.items meal) then true else hw
       | None => hw
       end) slots hw
  = hw || existsb (fun slot : string * option Meal.t =>
                     match snd slot with
                     | Some meal => existsb FoodItem.hasWarnings (Meal.items meal)
                     | None => false
                     end) slots.
Proof.
  induction slots as [|[k [meal|]] slots IH]; intros hw; simpl.
  - rewrite orb_false_r. reflexivity.
  - rewrite IH. unfold any.
    destruct (existsb FoodItem.hasWarnings (Meal.items meal)), hw; reflexivity.
  - apply IH.
Qed.

(** The loop of the summary leaves [has_warnings] set exactly when some
    item of some meal carries a warning. *)
Lemma summary_loop_warnings meals :
  for_each (summary_step meals) MEAL_ATTRS (Coverage.init, false)
  = Some (fold_left cover_slot (day_slots meals) Coverage.init,
          day_has_warnings meals).
Proof.
  unfold day_has_warnings.
  rewrite <- (orb_false_l (existsb _ (day_slots meals))), <- warnings_fold.
  destruct meals as [[b|] [s1|] [l|] [s2|] [d|]]; reflexivity.
Qed.

(** X7. The day-level warning flag of the summary is true exactly when
    some food item of some meal of the day has a warning. *)
Theorem daily_summary_hasWarnings (meals : DayMeals.t) :
  exists summary,
    _calculate_daily_summary meals = Some summary /\
    DailySummary.hasWarnings summary = day_has_warnings meals /\
    (DailySummary.hasWarnings summary = true <->
     exists slot meal item,
       In slot (day_slots meals) /\ snd slot = Some meal /\
       In item (Meal.items meal) /\ FoodItem.hasWarnings item = true).
Proof.
  rewrite calculate_daily_summary_after_loop, summary_loop_warnings.
  eexists. split; [reflexivity|]. cbn [fst snd summary_of_coverage DailySummary.hasWarnings].
  split; [reflexivity|].
  unfold day_has_warnings. rewrite existsb_exists. split.
  - intros (slot & Hslot & Hw). destruct (snd slot) as [meal|] eqn:E; [|discriminate].
    apply existsb_exists in Hw. destruct Hw as (item & Hitem & Hw).
    exists slot, meal, item. auto.
  - intros (slot & meal & item & Hslot & Hmeal & Hitem & Hw).
    exists slot. split; [exact Hslot|]. rewrite Hmeal.
    apply existsb_exists. eauto.
Qed.

(** ** More on the second pass *)

Lemma aggregate_loop_meals meals :
  for_each aggregate_slot MEAL_ATTRS meals = Some (aggregate_meals meals).
Proof.
  destruct meals as [[b|] [s1|] [l|] [s2|] [d|]]; reflexivity.
Qed.

Lemma summarise_day_result day_data day_data' :
  summarise_day day_data = Some day_data' ->
  DayData.meals day_data' = aggregate_meals (DayData.meals day_data) /\
  DayData.id day_data' = DayData.id day_data /\
  DayData.date day_data' = DayData.date day_data /\
  DayData.dayOfWeek day_data' = DayData.dayOfWeek day_data /\
  _calculate_daily_summary (DayData.meals day_data')
  = Some (DayData.dailySummary day_data').
Proof.
  unfold summarise_day. rewrite aggregate_loop_meals. simpl.
  destruct (_calculate_daily_summary (aggregate_meals (DayData.meals day_data)))
    as [summary|] eqn:E; simpl; [|discriminate].
  intros [= <-]. simpl. auto.
Qed.

Lemma mapM_In {A B} (f : A -> option B) l : forall l' y,
  mapM f l = Some l' -> In y l' -> exists x, In x l /\ f x = Some y.
Proof.
  induction l as [|x l IH]; intros l' y; simpl.
  - intros [= <-] [].
  - destruct (f x) as [y0|] eqn:E; simpl; [|discriminate].
    destruct (mapM f l) as [k|]; simpl; [|discriminate].
    intros [= <-] [<-|Hy]; [eauto|].
    destruct (IH k y eq_refl Hy) as (x' & Hx' & Hf). eauto.
Qed.

Lemma aggregate_meals_slots meals slot meal :
  In slot (day_slots (aggregate_meals meals)) -> snd slot = Some meal ->
  exists meal0,
    In (fst slot, Some meal0) (day_slots meals) /\ meal = aggregated meal0.
Proof.
  destruct meals as [b s1 l s2 d]. unfold day_slots, aggregate_meals. simpl.
  intros H Hs. decompose [or] H; try contradiction; subst slot; simpl in Hs;
    match type of Hs with
    | option_map _ ?o = _ => destruct o as [m0|]; [|discriminate]
    end;
    injection Hs as <-; exists m0; split; auto 10.
Qed.

Lemma get_meals_by_date_range_returns db u s e :
  exists days, get_meals_by_date_range db u s e = Some days.
Proof.
  unfold get_meals_by_date_range.
  match goal with
  | |- context [group_row ?nm] => generalize nm
  end.
  intros nm.
  destruct (group_rows_keys nm (sql_select_meals_range db u s e) [] eq_refl)
    as (dm & Hloop & _).
  rewrite Hloop. cbn [mbind option_bind].
  destruct (summarise_days_dates (dict_values dm)) as (days & Hdays & _).
  exists days. exact Hdays.
Qed.

(** X2. The day reconstructor returns, and every record it returns is
    consistent with itself: the flags of each of its meals are the
    aggregate of that meal's own items, and its daily summary is the
    summary of its own meals. *)
Theorem get_meals_by_date_range_consistent (db : Store.t) (user_id : string)
  (start_date end_date : date) :
  exists days,
    get_meals_by_date_range db user_id start_date end_date = Some days /\
    forall day, In day days ->
      _calculate_daily_summary (DayData.meals day) = Some (DayData.dailySummary day) /\
      (forall slot meal,
         In slot (day_slots (DayData.meals day)) -> snd slot = Some meal ->
         Meal.containsMicronutrients meal = _aggregate_micronutrients (Meal.items meal)).
Proof.
  destruct (get_meals_by_date_range_returns db user_id start_date end_date)
    as (days & Hrun).
  exists days. split; [exact Hrun|]. revert Hrun.
  unfold get_meals_by_date_range.
  match goal with
  | |- context [group_row ?nm] => generalize nm
  end.
  intros nutrients_map.
  destruct (group_rows_keys nutrients_map
              (sql_select_meals_range db user_id start_date end_date) [] eq_refl)
    as (day_map & Hloop & Hkeyed & _).
  rewrite Hloop. simpl. intros Hdays day Hday.
  destruct (mapM_In _ _ _ _ Hdays Hday) as (day0 & Hin0 & Hsum).
  destruct (summarise_day_result _ _ Hsum) as (Hmeals & _ & _ & _ & Hcalc).
  split; [exact Hcalc|].
  intros slot meal Hslot Hmeal. rewrite Hmeals in Hslot.
  destruct (aggregate_meals_slots _ _ _ Hslot Hmeal) as (meal0 & _ & ->).
  reflexivity.
Qed.

(** ** The nutrient lookup *)

Lemma nutrients_map_fold (l : list (ident * string)) :
  forall (m : gmap ident (list string)) fid,
    default []
      (fold_left
         (fun (nutrients_map : gmap ident (list string)) '(food_id, name) =>
            let nutrients_map :=
              match nutrients_map !! food_id with
              | None => <[food_id := []]> nutrients_map
              | Some _ => nutrients_map
              end in
            <[food_id := default [] (nutrients_map !! food_id) ++ [name]]> nutrients_map)
         l m !! fid)
    = default [] (m !! fid)
      ++ map snd (List.filter (fun p => fst p =? fid) l).
Proof.
  induction l as [|[f n] l IH]; intros m fid; simpl.
  - rewrite app_nil_r. reflexivity.
  - rewrite IH. clear IH.
    assert (Hsame : default []
                      (match m !! f with
                       | None => <[f := []]> m
                       | Some _ => m
                       end !! f) = default [] (m !! f)).
    { destruct (m !! f) as [names|] eqn:E; [rewrite E; reflexivity|].
      rewrite lookup_insert_eq. reflexivity. }
    destruct (Nat.eqb_spec f fid) as [->|Hne].
    + rewrite lookup_insert_eq. simpl. rewrite Hsame, <- app_assoc. reflexivity.
    + rewrite lookup_insert_ne by exact Hne.
      replace (match m !! f with
               | None => <[f := []]> m
               | Some _ => m
               end !! fid) with (m !! fid); [reflexivity|].
      destruct (m !! f); [reflexivity|]. rewrite lookup_insert_ne by exact Hne.
      reflexivity.
Qed.

Lemma sql_select_food_nutrients_In db food_ids fid name :
  In (fid, name) (sql_select_food_nutrients db food_ids) <->
  In fid food_ids /\
  exists fn n,
    In fn (Store.food_nutrients db) /\ In n (Store.nutrients db) /\
    FoodNutrientRow.food_id fn = fid /\
    FoodNutrientRow.nutrient_id fn = NutrientRow.id n /\
    FoodNutrientRow.is_present fn = true /\
    NutrientRow.name n = name.
Proof.
  unfold sql_select_food_nutrients. rewrite in_flat_map. split.
  - intros (fn & Hfn & Hin). apply in_flat_map in Hin. destruct Hin as (n & Hn & Hin).
    destruct (_ && _) eqn:E in Hin; [|destruct Hin].
    destruct Hin as [[= <- <-]|[]].
    rewrite !andb_true_iff in E. destruct E as [[E1 E2] E3].
    apply Nat.eqb_eq in E1. apply existsb_exists in E2. destruct E2 as (x & Hx & E2).
    apply Nat.eqb_eq in E2. subst x.
    split; [exact Hx|]. exists fn, n. auto 10.
  - intros (Hid & fn & n & Hfn & Hn & <- & Hnid & Hp & <-).
    exists fn. split; [exact Hfn|]. apply in_flat_map. exists n. split; [exact Hn|].
    replace ((FoodNutrientRow.nutrient_id fn =? NutrientRow.id n)
             && existsb (Nat.eqb (FoodNutrientRow.food_id fn)) food_ids
             && FoodNutrientRow.is_present fn) with true; [left; reflexivity|].
    symmetry. rewrite !andb_true_iff. split; [split|exact Hp].
    + apply Nat.eqb_eq. exact Hnid.
    + apply existsb_exists. exists (FoodNutrientRow.food_id fn).
      split; [exact Hid|apply Nat.eqb_refl].
Qed.

(** The lookup [nutrients_map.get(fid, [])] holds the names of the
    present nutrients of a requested food. *)
Lemma nutrients_map_lookup db food_ids fid name :
  In name (default [] (_get_food_nutrients_map db food_ids !! fid)) <->
  In (fid, name) (sql_select_food_nutrients db food_ids).
Proof.
  unfold _get_food_nutrients_map.
  destruct food_ids as [|x ids]; cbn [truthy_list negb].
  - rewrite lookup_empty. simpl. split; [tauto|].
    rewrite sql_select_food_nutrients_In. simpl. tauto.
  - rewrite nutrients_map_fold, lookup_empty. simpl.
    rewrite in_map_iff. split.
    + intros ([f n] & <- & Hin). apply filter_In in Hin. destruct Hin as [Hin Hf].
      simpl in Hf. apply Nat.eqb_eq in Hf. subst f. exact Hin.
    + intros Hin. exists (fid, name). split; [reflexivity|].
      apply filter_In. split; [exact Hin|]. simpl. apply Nat.eqb_refl.
Qed.

(** X8. The batched nutrient lookup maps each requested food to exactly
    the names of the nutrients that the store links to it as present; foods
    that were not requested, or that have no present link, read as the
    empty list. *)
Theorem get_food_nutrients_map_spec (db : Store.t) (food_ids : list ident)
  (fid : ident) (name : string) :
  In name (default [] (_get_food_nutrients_map db food_ids !! fid)) <->
  In fid food_ids /\
  exists fn n,
    In fn (Store.food_nutrients db) /\ In n (Store.nutrients db) /\
    FoodNutrientRow.food_id fn = fid /\
    FoodNutrientRow.nutrient_id fn = NutrientRow.id n /\
    FoodNutrientRow.is_present fn = true /\
    NutrientRow.name n = name.
Proof.
  rewrite nutrients_map_lookup. apply sql_select_food_nutrients_In.
Qed.

(** ** Reading foods *)

Lemma presence_flag_mapped n row names :
  presence_flag n (FoodItem.containsMicronutrients (_map_food_item row (Some names)))
  = py_in (stored_name n) names.
Proof. destruct n; reflexivity. Qed.

Lemma get_food_by_id_some db fid item :
  get_food_by_id db fid = Some item ->
  exists row names,
    In row (Store.foods db) /\ FoodRow.id row = fid /\
    sql_select_food_by_id db fid = Some row /\
    item = _map_food_item row (Some names) /\
    (forall x, In x names <-> nutrient_linked db fid x).
Proof.
  unfold get_food_by_id.
  destruct (sql_select_food_by_id db fid) as [row|] eqn:E; [|discriminate].
  intros [= <-]. unfold sql_select_food_by_id in E.
  destruct (find_some _ _ E) as [Hin Hid]. apply Nat.eqb_eq in Hid.
  exists row, (default [] (_get_food_nutrients_map db [FoodRow.id row] !! FoodRow.id row)).
  split; [exact Hin|]. split; [exact Hid|]. split; [reflexivity|].
  split; [reflexivity|].
  intros x. rewrite nutrients_map_lookup, sql_select_food_nutrients_In, Hid.
  unfold nutrient_linked. simpl. tauto.
Qed.

(** X9. get-food-by-id answers None exactly when no food row has the id;
    otherwise the item carries the id, each core flag is true exactly when
    the store links the food to the nutrient of that stored name, and each
    of the three tri-state flags (vitaminD, omega3, fiber) is None exactly
    when the food has no present link at all, True exactly when the food
    is linked to its stored name (vitamin_d, dha, fiber), and False exactly
    when the food has some present link but not that one. *)
Theorem get_food_by_id_spec (db : Store.t) (food_id : ident) :
  (get_food_by_id db food_id = None <->
   forall row, In row (Store.foods db) -> FoodRow.id row <> food_id) /\
  (forall item,
     get_food_by_id db food_id = Some item ->
     FoodItem.id item = food_id /\
     (forall n,
        presence_flag n (FoodItem.containsMicronutrients item) = true <->
        nutrient_linked db food_id (stored_name n)) /\
     (MicronutrientPresence.vitaminD (FoodItem.containsMicronutrients item) = None <->
      forall x, ~ nutrient_linked db food_id x) /\
     (MicronutrientPresence.omega3 (FoodItem.containsMicronutrients item) = None <->
      forall x, ~ nutrient_linked db food_id x) /\
     (MicronutrientPresence.fiber (FoodItem.containsMicronutrients item) = None <->
      forall x, ~ nutrient_linked db food_id x) /\
     (MicronutrientPresence.vitaminD (FoodItem.containsMicronutrients item) = Some true <->
      nutrient_linked db food_id "vitamin_d") /\
     (MicronutrientPresence.omega3 (FoodItem.containsMicronutrients item) = Some true <->
      nutrient_linked db food_id "dha") /\
     (MicronutrientPresence.fiber (FoodItem.containsMicronutrients item) = Some true <->
      nutrient_linked db food_id "fiber") /\
     (MicronutrientPresence.vitaminD (FoodItem.containsMicronutrients item) = Some false <->
      (exists x, nutrient_linked db food_id x) /\
      ~ nutrient_linked db food_id "vitamin_d") /\
     (MicronutrientPresence.omega3 (FoodItem.containsMicronutrients item) = Some false <->
      (exists x, nutrient_linked db food_id x) /\
      ~ nutrient_linked db food_id "dha") /\
     (MicronutrientPresence.fiber (FoodItem.containsMicronutrients item) = Some false <->
      (exists x, nutrient_linked db food_id x) /\
      ~ nutrient_linked db food_id "fiber")).
Proof.
  split.
  - unfold get_food_by_id, sql_select_food_by_id.
    destruct (find _ (Store.foods db)) as [row|] eqn:E; split.
    + discriminate.
    + intros H. destruct (find_some _ _ E) as [Hin Hid]. apply Nat.eqb_eq in Hid.
      exfalso. exact (H row Hin Hid).
    + intros _ row Hin Hid. pose proof (find_none _ _ E row Hin) as Hf.
      simpl in Hf. apply Nat.eqb_neq in Hf. contradiction.
    + reflexivity.
  - intros item Hsome.
    destruct (get_food_by_id_some db food_id item Hsome)
      as (row & names & _ & Hid & _ & -> & Hnames).
    split; [exact Hid|]. split.
    { intros n. rewrite presence_flag_mapped, py_in_In. apply Hnames. }
    cbn [_map_food_item FoodItem.containsMicronutrients MicronutrientPresence.vitaminD
         MicronutrientPresence.omega3 MicronutrientPresence.fiber].
    assert (Hflag : forall x, py_in x names = true <-> nutrient_linked db food_id x).
    { intros x. rewrite py_in_In. apply Hnames. }
    assert (Hnot : forall x, py_in x names = false <-> ~ nutrient_linked db food_id x).
    { intros x. rewrite <- Hflag. destruct (py_in x names); split; congruence. }
    destruct names as [|a names]; cbn [truthy_list].
    + assert (Hnone : forall x, ~ nutrient_linked db food_id x).
      { intros x Hx. apply Hnames in Hx. destruct Hx. }
      repeat apply conj; try discriminate; try reflexivity;
        try (intros _; exact Hnone);
        try (intros Hl; exfalso; exact (Hnone _ Hl));
        try (intros [[x Hx] _]; exfalso; exact (Hnone x Hx)).
    + assert (Hlinked : exists x, nutrient_linked db food_id x).
      { exists a. apply Hnames. left. reflexivity. }
      repeat apply conj; try discriminate;
        try (intros Hnone; exfalso; destruct Hlinked as [x Hx]; exact (Hnone x Hx));
        try (intros H; injection H as H; apply Hflag; exact H);
        try (intros H; f_equal; apply Hflag; exact H);
        try (intros H; injection H as H; split; [exact Hlinked|apply Hnot; exact H]);
        try (intros [_ H]; f_equal; apply Hnot; exact H).
Qed.

Lemma get_food_by_id_spec_witness :
  exists item,
    get_food_by_id example_foods 2 = Some item /\
    MicronutrientPresence.calcium (FoodItem.containsMicronutrients item) = true.
Proof.
  destruct (get_food_by_id example_foods 2) as [item|] eqn:E;
    [|vm_compute in E; discriminate].
  exists item. split; [reflexivity|].
  destruct (get_food_by_id_spec example_foods 2) as [_ Hsome].
  destruct (Hsome item E) as (_ & Hflags & _).
  apply (Hflags Calcium).
  exists (FoodNutrientRow.mk 2 10 true), (NutrientRow.mk 10 "calcium").
  simpl. auto 10.
Defined.

(** ** Creating a food and reading it back *)

Lemma requested_names cm x :
  In x
    (append_if (truthy_opt_bool (MicronutrientPresence.fiber cm)) "fiber"
       (append_if (truthy_opt_bool (MicronutrientPresence.omega3 cm)) "dha"
          (append_if (truthy_opt_bool (MicronutrientPresence.vitaminD cm)) "vitamin_d"
             (append_if (MicronutrientPresence.protein cm) "protein"
                (append_if (MicronutrientPresence.folicAcid cm) "folate"
                   (append_if (MicronutrientPresence.iron cm) "iron"
                      (append_if (MicronutrientPresence.calcium cm) "calcium" [])))))))
  <-> requested cm x = true.
Proof.
  rewrite !In_append_if. unfold requested. split.
  - intros H. simpl in H.
    decompose [or and] H; try contradiction; subst x; simpl; assumption.
  - repeat match goal with
      | |- context [String.eqb x ?b] => destruct (String.eqb_spec x b) as [->|_]
      end;
      intros Hreq; simpl in Hreq; try discriminate; auto 20.
Qed.

(** The links that [_insert_nutrient_mappings] writes. *)
Lemma insert_nutrient_mappings_rows db fid cm :
  let db' := _insert_nutrient_mappings db fid cm in
  Store.food_nutrients db'
  = Store.food_nutrients db
    ++ map (fun n => FoodNutrientRow.mk fid (NutrientRow.id n) true)
         (List.filter (fun n => requested cm (NutrientRow.name n)) (Store.nutrients db)) /\
  Store.foods db' = Store.foods db /\
  Store.nutrients db' = Store.nutrients db.
Proof.
  unfold _insert_nutrient_mappings. cbv zeta.
  match goal with
  | |- context [truthy_list ?l] =>
      pose proof (fun x => requested_names cm x) as Hnames; set (names := l) in *
  end.
  assert (Hfilter : List.filter (fun n => py_in (NutrientRow.name n) names)
                      (Store.nutrients db)
                    = List.filter (fun n => requested cm (NutrientRow.name n))
                        (Store.nutrients db)).
  { apply filter_ext. intros n.
    destruct (requested cm (NutrientRow.name n)) eqn:E.
    - apply py_in_In. apply Hnames. exact E.
    - destruct (py_in (NutrientRow.name n) names) eqn:E'; [|reflexivity].
      apply py_in_In in E'. apply Hnames in E'. congruence. }
  destruct names as [|a names'] eqn:En; cbn [truthy_list].
  - split; [|split; reflexivity].
    rewrite <- Hfilter. rewrite filter_none; [rewrite app_nil_r; reflexivity|].
    intros n _. reflexivity.
  - unfold sql_insert_food_nutrients. simpl. rewrite Hfilter. auto.
Qed.

Lemma NoDup_map_inj {A B} (f : A -> B) l a b :
  List.NoDup (map f l) -> In a l -> In b l -> f a = f b -> a = b.
Proof.
  induction l as [|x l IH]; simpl; intros Hnd Ha Hb Hf; [destruct Ha|].
  inversion Hnd as [|? ? Hx Hl]; subst.
  destruct Ha as [<-|Ha], Hb as [<-|Hb]; auto.
  - exfalso. apply Hx. rewrite Hf. apply in_map. exact Hb.
  - exfalso. apply Hx. rewrite <- Hf. apply in_map. exact Ha.
Qed.

Lemma known_nutrient_In db x :
  known_nutrient db x = true <->
  exists n, In n (Store.nutrients db) /\ NutrientRow.name n = x.
Proof.
  unfold known_nutrient. rewrite existsb_exists. split.
  - intros (n & Hn & He). apply String.eqb_eq in He. eauto.
  - intros (n & Hn & He). exists n. split; [exact Hn|apply String.eqb_eq; exact He].
Qed.

(** The links of a food just created. *)
Lemma create_food_linked db food x :
  food_keys_allocated db ->
  List.NoDup (map NutrientRow.id (Store.nutrients db)) ->
  nutrient_linked (fst (create_food db food)) (Store.next_id db) x <->
  requested (FoodItemCreate.containsMicronutrients food) x = true /\
  known_nutrient db x = true.
Proof.
  intros [_ Hlinks] Hnd. unfold create_food, sql_insert_food. simpl.
  match goal with
  | |- context [_insert_nutrient_mappings ?d ?f ?c] =>
      destruct (insert_nutrient_mappings_rows d f c) as (Hfn & _ & Hnut)
  end.
  cbv zeta in Hfn, Hnut. simpl in Hfn, Hnut.
  unfold nutrient_linked. rewrite Hfn, Hnut. rewrite known_nutrient_In. split.
  - intros (fn & n & Hin & Hn & Hfid & Hnid & _ & Hname).
    apply in_app_or in Hin. destruct Hin as [Hin|Hin].
    + specialize (Hlinks fn Hin). lia.
    + apply in_map_iff in Hin. destruct Hin as (n0 & <- & Hn0).
      apply filter_In in Hn0. destruct Hn0 as [Hn0 Hreq]. simpl in Hnid.
      assert (n0 = n) by (apply (NoDup_map_inj NutrientRow.id _ _ _ Hnd); assumption).
      subst n0. rewrite Hname in Hreq. eauto.
  - intros (Hreq & n & Hn & Hname).
    exists (FoodNutrientRow.mk (Store.next_id db) (NutrientRow.id n) true), n.
    split; [|simpl; auto 10].
    apply in_or_app. right. apply in_map_iff. exists n. split; [reflexivity|].
    apply filter_In. split; [exact Hn|]. rewrite Hname. exact Hreq.
Qed.

(** X10. A food read back after create-food: it is found under the
    returned id with the submitted name; each core flag is the submitted
    flag, provided the nutrient table knows the stored name (an unknown
    name is dropped silently); and the warning flag is the submitted flag
    or a non-empty warning message. *)
Theorem create_food_read_back (db : Store.t) (food : FoodItemCreate.t) :
  food_keys_allocated db ->
  List.NoDup (map NutrientRow.id (Store.nutrients db)) ->
  let db' := fst (create_food db food) in
  let created := snd (create_food db food) in
  exists item,
    get_food_by_id db' (FoodItem.id created) = Some item /\
    FoodItem.name item = FoodItemCreate.name food /\
    FoodItem.warningMessage item = FoodItemCreate.warningMessage food /\
    FoodItem.hasWarnings item
    = FoodItemCreate.hasWarnings food
      || truthy_opt_str (FoodItemCreate.warningMessage food) /\
    (forall n,
       presence_flag n (FoodItem.containsMicronutrients item)
       = presence_flag n (FoodItemCreate.containsMicronutrients food)
         && known_nutrient db (stored_name n)).
Proof.
  intros Hk Hnd. cbv zeta.
  assert (Hid : FoodItem.id (snd (create_food db food)) = Store.next_id db)
    by reflexivity.
  rewrite Hid.
  set (db' := fst (create_food db food)).
  set (row := FoodRow.mk (Store.next_id db)
                (FoodItemCreate.name food) (FoodItemCreate.portion food)
                (FoodItemCreate.macroCategory food) (FoodItemCreate.rainbowColor food)
                (FoodItemCreate.phytonutrientFocus food)
                (Some (negb (FoodItemCreate.hasWarnings food)))
                (FoodItemCreate.warningMessage food) (FoodItemCreate.warningType food)
                (FoodItemCreate.tags food) (FoodItemCreate.description food)).
  assert (Hfoods : Store.foods db' = Store.foods db ++ [row]).
  { unfold db', create_food, sql_insert_food. simpl.
    match goal with
    | |- context [_insert_nutrient_mappings ?d ?f ?c] =>
        destruct (insert_nutrient_mappings_rows d f c) as (_ & Hf & _)
    end.
    cbv zeta in Hf. rewrite Hf. reflexivity. }
  assert (Hfind : sql_select_food_by_id db' (Store.next_id db) = Some row).
  { unfold sql_select_food_by_id. rewrite Hfoods, find_app_none.
    - simpl. rewrite Nat.eqb_refl. reflexivity.
    - destruct (find _ (Store.foods db)) as [f|] eqn:E; [|reflexivity].
      destruct (find_some _ _ E) as [Hin Hf]. apply Nat.eqb_eq in Hf.
      destruct Hk as [Hfoodkeys _]. specialize (Hfoodkeys f Hin). lia. }
  destruct (get_food_by_id db' (Store.next_id db)) as [item|] eqn:E.
  - destruct (get_food_by_id_some db' _ item E)
      as (row' & names & _ & _ & Hfind' & -> & Hnames).
    rewrite Hfind in Hfind'. injection Hfind' as <-.
    eexists. split; [reflexivity|].
    split; [reflexivity|]. split; [reflexivity|]. split.
    + simpl. rewrite negb_involutive. reflexivity.
    + intros n. rewrite presence_flag_mapped.
      pose proof (create_food_linked db food (stored_name n) Hk Hnd) as Hl.
      fold db' in Hl. rewrite <- Hnames, <- py_in_In in Hl.
      assert (Hreq : requested (FoodItemCreate.containsMicronutrients food)
                       (stored_name n)
                     = presence_flag n (FoodItemCreate.containsMicronutrients food))
        by (destruct n; reflexivity).
      rewrite Hreq in Hl.
      destruct (py_in (stored_name n) names),
        (presence_flag n (FoodItemCreate.containsMicronutrients food)),
        (known_nutrient db (stored_name n)); simpl; try reflexivity;
        intuition discriminate.
  - unfold get_food_by_id in E. rewrite Hfind in E. discriminate.
Qed.

Lemma create_food_read_back_witness :
  let food :=
    FoodItemCreate.mk "Kale" None None None None
      (MicronutrientPresence.mk true false false true None None None)
      false (Some "wash well") None None None in
  exists item,
    get_food_by_id (fst (create_food example_foods food)) 100 = Some item /\
    FoodItem.hasWarnings item = true /\
    MicronutrientPresence.calcium (FoodItem.containsMicronutrients item) = true /\
    MicronutrientPresence.protein (FoodItem.containsMicronutrients item) = false.
Proof.
  intros food.
  assert (Hk : food_keys_allocated example_foods).
  { split; intros x Hx; simpl in Hx; decompose [or] Hx; try contradiction; subst;
      simpl; lia. }
  assert (Hnd : List.NoDup (map NutrientRow.id (Store.nutrients example_foods))).
  { simpl. repeat (constructor; [simpl; lia|]). constructor. }
  destruct (create_food_read_back example_foods food Hk Hnd)
    as (item & Hget & _ & _ & Hw & Hflags).
  exists item. split; [exact Hget|]. split; [exact Hw|].
  split; [exact (Hflags Calcium)|exact (Hflags Protein)].
Defined.

(** ** The catalogue *)

Lemma filter_flat_map {A B} (p : B -> bool) (f : A -> list B) l :
  List.filter p (flat_map f l) = flat_map (fun x => List.filter p (f x)) l.
Proof.
  induction l as [|x l IH]; simpl; [reflexivity|].
  rewrite List.filter_app, IH. reflexivity.
Qed.

Lemma sql_select_food_nutrients_one db food_ids fid :
  In fid food_ids ->
  List.filter (fun p => fst p =? fid) (sql_select_food_nutrients db food_ids)
  = List.filter (fun p => fst p =? fid) (sql_select_food_nutrients db [fid]).
Proof.
  intros Hin. unfold sql_select_food_nutrients. rewrite !filter_flat_map.
  apply flat_map_ext. intros fn. rewrite !filter_flat_map.
  apply flat_map_ext. intros n.
  destruct (Nat.eqb_spec (FoodNutrientRow.food_id fn) fid) as [->|Hne].
  - replace (existsb (Nat.eqb fid) food_ids) with true.
    + simpl. rewrite Nat.eqb_refl. reflexivity.
    + symmetry. apply existsb_exists. exists fid. split; [exact Hin|apply Nat.eqb_refl].
  - assert (Hnil : forall b : bool,
               List.filter (fun p : ident * string => fst p =? fid)
                 (if b then [(FoodNutrientRow.food_id fn, NutrientRow.name n)] else [])
               = []).
    { intros [|]; simpl; [|reflexivity].
      destruct (Nat.eqb_spec (FoodNutrientRow.food_id fn) fid); [contradiction|reflexivity]. }
    rewrite !Hnil. reflexivity.
Qed.

(** The batched lookup and the lookup for one food give the same names. *)
Lemma nutrients_map_batch db food_ids fid :
  In fid food_ids ->
  default [] (_get_food_nutrients_map db food_ids !! fid)
  = default [] (_get_food_nutrients_map db [fid] !! fid).
Proof.
  intros Hin. unfold _get_food_nutrients_map.
  destruct food_ids as [|x ids]; [destruct Hin|]. cbn [truthy_list negb].
  rewrite !nutrients_map_fold, lookup_empty.
  rewrite (sql_select_food_nutrients_one db (x :: ids) fid Hin). reflexivity.
Qed.

(** X11. get-all-foods returns one item per stored food, and (food ids
    being unique) exactly the items that get-food-by-id finds: the batched
    nutrient lookup gives every food the flags of the single lookup. *)
Theorem get_all_foods_spec (db : Store.t) :
  Permutation (map FoodItem.id (get_all_foods db)) (map FoodRow.id (Store.foods db)) /\
  (List.NoDup (map FoodRow.id (Store.foods db)) ->
   forall item,
     In item (get_all_foods db) <->
     get_food_by_id db (FoodItem.id item) = Some item).
Proof.
  unfold get_all_foods. split.
  - rewrite map_map. simpl.
    apply Permutation_map. apply order_by_perm.
  - intros Hnd item.
    set (ids := map FoodRow.id (sql_select_foods db)).
    assert (Hone : forall row,
               In row (Store.foods db) ->
               get_food_by_id db (FoodRow.id row)
               = Some (_map_food_item row
                         (Some (default []
                                  (_get_food_nutrients_map db ids !! FoodRow.id row))))).
    { intros row Hrow. unfold get_food_by_id, sql_select_food_by_id.
      destruct (find _ (Store.foods db)) as [row'|] eqn:E.
      - destruct (find_some _ _ E) as [Hin' Hid]. apply Nat.eqb_eq in Hid.
        assert (row' = row) by (apply (NoDup_map_inj FoodRow.id _ _ _ Hnd); assumption).
        subst row'. cbv zeta. rewrite (nutrients_map_batch db ids); [reflexivity|].
        unfold ids. apply in_map. apply In_order_by. exact Hrow.
      - pose proof (find_none _ _ E row Hrow) as Hf. simpl in Hf.
        rewrite Nat.eqb_refl in Hf. discriminate. }
    rewrite in_map_iff. split.
    + intros (row & <- & Hrow). apply In_order_by in Hrow. apply (Hone row Hrow).
    + intros Hget.
      destruct (get_food_by_id_some db _ item Hget) as (row & _ & Hrow & Hid & _).
      exists row. split; [|apply In_order_by; exact Hrow].
      pose proof (Hone row Hrow) as Hget'. rewrite <- Hid in Hget.
      rewrite Hget in Hget'. injection Hget' as Hget'. symmetry. exact Hget'.
Qed.

Lemma get_all_foods_spec_witness :
  List.NoDup (map FoodRow.id (Store.foods example_foods)) /\
  forall item, In item (get_all_foods example_foods) ->
               get_food_by_id example_foods (FoodItem.id item) = Some item.
Proof.
  assert (Hnd : List.NoDup (map FoodRow.id (Store.foods example_foods))).
  { simpl. repeat (constructor; [simpl; lia|]). constructor. }
  split; [exact Hnd|].
  destruct (get_all_foods_spec example_foods) as [_ Hsame].
  intros item Hitem. apply (Hsame Hnd). exact Hitem.
Defined.

(** ** What the grouping loop builds *)

Lemma dict_get_set_ne {V} k k' (v : V) d :
  k <> k' -> dict_get k' (dict_set k v d) = dict_get k' d.
Proof.
  intros Hne. induction d as [|[k0 v0] d IH]; cbn [dict_get dict_set].
  - destruct (String.eqb_spec k' k); [congruence|reflexivity].
  - destruct (String.eqb_spec k k0) as [->|]; cbn [dict_get].
    + destruct (String.eqb_spec k' k0); [congruence|reflexivity].
    + rewrite IH. reflexivity.
Qed.

Lemma dict_get_In {V} k (v : V) d :
  List.NoDup (map fst d) -> In (k, v) d -> dict_get k d = Some v.
Proof.
  induction d as [|[k0 v0] d IH]; cbn [dict_get map fst]; intros Hnd Hin.
  - destruct Hin.
  - inversion Hnd as [|? ? Hk Hd]; subst. destruct Hin as [[= -> ->]|Hin].
    + rewrite String.eqb_refl. reflexivity.
    + destruct (String.eqb_spec k k0) as [->|]; [|apply IH; assumption].
      exfalso. apply Hk. apply (in_map fst) in Hin. exact Hin.
Qed.

Lemma add_key_NoDup keys k : List.NoDup keys -> List.NoDup (add_key keys k).
Proof.
  intros Hnd. unfold add_key.
  destruct (existsb (String.eqb k) keys) eqn:E; [exact Hnd|].
  apply NoDup_snoc; [exact Hnd|].
  intros Hin. assert (existsb (String.eqb k) keys = true); [|congruence].
  apply existsb_exists. exists k. split; [exact Hin|apply String.eqb_refl].
Qed.

Lemma setattr_getattr meals attr v :
  In attr MEAL_ATTRS ->
  exists meals',
    setattr meals attr v = Some meals' /\
    forall attr', In attr' MEAL_ATTRS ->
      getattr meals' attr' = if String.eqb attr' attr then Some v else getattr meals attr'.
Proof.
  destruct meals as [b s1 l s2 d]. simpl.
  intros H. decompose [or] H; subst; try contradiction;
    (eexists; split; [reflexivity|]);
    intros attr' H'; decompose [or] H'; subst; try contradiction; reflexivity.
Qed.

Lemma getattr_init attr : In attr MEAL_ATTRS -> getattr DayMeals.init attr = Some None.
Proof.
  simpl. intros H. decompose [or] H; subst; try contradiction; reflexivity.
Qed.

Lemma slot_rows_snoc dk attr seen r :
  slot_rows dk attr (seen ++ [r])
  = slot_rows dk attr seen
    ++ (if String.eqb (date_str (RangeRow.meal_date r)) dk
           && String.eqb (_map_meal_type_to_key (RangeRow.meal_type r)) attr
        then [r] else []).
Proof. unfold slot_rows. rewrite List.filter_app. reflexivity. Qed.

Lemma day_rows_snoc dk seen r :
  day_rows dk (seen ++ [r])
  = day_rows dk seen
    ++ (if String.eqb (date_str (RangeRow.meal_date r)) dk then [r] else []).
Proof. unfold day_rows. rewrite List.filter_app. reflexivity. Qed.

Lemma slot_rows_day_rows dk attr seen :
  day_rows dk seen = [] -> slot_rows dk attr seen = [].
Proof.
  unfold day_rows, slot_rows. intros H. apply filter_none. intros r Hr.
  destruct (String.eqb (date_str (RangeRow.meal_date r)) dk) eqn:E; [|reflexivity].
  assert (Hin : In r (List.filter
                        (fun r => String.eqb (date_str (RangeRow.meal_date r)) dk) seen))
    by (apply filter_In; auto).
  rewrite H in Hin. destruct Hin.
Qed.

Lemma grouped_meal_snoc nm rows r :
  grouped_meal nm (rows ++ [r]) = Some (extend_meal nm (grouped_meal nm rows) r).
Proof.
  unfold extend_meal. destruct rows as [|r0 rows]; cbn [grouped_meal app].
  - cbn [omap list_omap]. destruct (row_food_item nm r); reflexivity.
  - change (r0 :: rows ++ [r]) with ((r0 :: rows) ++ [r]).
    rewrite omap_app. cbn [omap list_omap].
    destruct (row_food_item nm r); [reflexivity|].
    rewrite app_nil_r. reflexivity.
Qed.

(** One turn of the grouping loop, as an update of the entry of the row's
    date and of the slot of the row's meal type. *)
Lemma group_row_step nm dm r dd cur :
  let dk := date_str (RangeRow.meal_date r) in
  let k := _map_meal_type_to_key (RangeRow.meal_type r) in
  let dm1 :=
    if negb (dict_mem dk dm)
    then dict_set dk (new_day_data dk (RangeRow.day_of_week r)) dm
    else dm in
  dict_get dk dm1 = Some dd ->
  getattr (DayData.meals dd) k = Some cur ->
  exists meals',
    group_row nm dm r = Some (dict_set dk (set_day_meals dd meals') dm1) /\
    forall attr, In attr MEAL_ATTRS ->
      getattr meals' attr
      = if String.eqb attr k then Some (Some (extend_meal nm cur r))
        else getattr (DayData.meals dd) attr.
Proof.
  intros dk k dm1 Hget Hcur.
  pose proof (map_meal_type_to_key_attr (RangeRow.meal_type r)) as Hattr.
  fold k in Hattr.
  unfold group_row. fold dk. fold k. fold dm1. rewrite Hget.
  cbn [mbind option_bind]. rewrite Hcur. cbn [mbind option_bind].
  unfold extend_meal, row_food_item.
  assert (Hkeep : forall m attr,
             getattr (DayData.meals dd) k = Some (Some m) ->
             getattr (DayData.meals dd) attr
             = if String.eqb attr k then Some (Some m)
               else getattr (DayData.meals dd) attr).
  { intros m attr Hm. destruct (String.eqb_spec attr k) as [->|]; [exact Hm|reflexivity]. }
  destruct cur as [m|].
  - cbn [mbind option_bind].
    destruct (RangeRow.food r) as [food_row|]; cbn [option_map].
    + rewrite Hcur. cbn [mbind option_bind].
      destruct (setattr_getattr (DayData.meals dd) k
                  (Some (append_item m
                           (_map_food_item food_row
                              (Some (default [] (nm !! FoodRow.id food_row))))))
                  Hattr) as (meals' & Hset & Hgets).
      rewrite Hset. cbn [mbind option_bind]. exists meals'. split; [reflexivity|].
      exact Hgets.
    + exists (DayData.meals dd). split; [reflexivity|].
      intros attr _. apply Hkeep. exact Hcur.
  - destruct (setattr_getattr (DayData.meals dd) k
                (Some (Meal.mk (RangeRow.meal_id r) (RangeRow.meal_type r) []
                         MicronutrientPresence.init (RangeRow.meal_notes r)))
                Hattr) as (meals1 & Hset1 & Hgets1).
    rewrite Hset1. cbn [mbind option_bind].
    destruct (RangeRow.food r) as [food_row|]; cbn [option_map].
    + rewrite (Hgets1 k Hattr), String.eqb_refl. cbn [mbind option_bind].
      destruct (setattr_getattr meals1 k
                  (Some (append_item
                           (Meal.mk (RangeRow.meal_id r) (RangeRow.meal_type r) []
                              MicronutrientPresence.init (RangeRow.meal_notes r))
                           (_map_food_item food_row
                              (Some (default [] (nm !! FoodRow.id food_row))))))
                  Hattr) as (meals2 & Hset2 & Hgets2).
      rewrite Hset2. cbn [mbind option_bind]. exists meals2. split; [reflexivity|].
      intros attr Ha. rewrite (Hgets2 attr Ha).
      destruct (String.eqb attr k) eqn:E; [reflexivity|].
      rewrite (Hgets1 attr Ha), E. reflexivity.
    + exists meals1. split; [reflexivity|]. exact Hgets1.
Qed.

Lemma grouped_step nm seen dm r :
  grouped nm seen dm ->
  exists dm', group_row nm dm r = Some dm' /\ grouped nm (seen ++ [r]) dm'.
Proof.
  intros [Hnd Hinv].
  set (dk0 := date_str (RangeRow.meal_date r)).
  set (k0 := _map_meal_type_to_key (RangeRow.meal_type r)).
  set (dm1 := if negb (dict_mem dk0 dm)
              then dict_set dk0 (new_day_data dk0 (RangeRow.day_of_week r)) dm
              else dm).
  pose proof (map_meal_type_to_key_attr (RangeRow.meal_type r)) as Hk0. fold k0 in Hk0.
  assert (Hdd : exists dd,
             dict_get dk0 dm1 = Some dd /\
             DayData.id dd = dk0 /\ DayData.date dd = dk0 /\
             option_map RangeRow.day_of_week (hd_error (day_rows dk0 (seen ++ [r])))
             = Some (DayData.dayOfWeek dd) /\
             (forall attr, In attr MEAL_ATTRS ->
                getattr (DayData.meals dd) attr
                = Some (grouped_meal nm (slot_rows dk0 attr seen))) /\
             List.NoDup (map fst dm1) /\
             (forall dk, dk <> dk0 -> dict_get dk dm1 = dict_get dk dm)).
  { pose proof (Hinv dk0) as H0. unfold dm1, dict_mem.
    rewrite day_rows_snoc. fold dk0. rewrite String.eqb_refl.
    destruct (dict_get dk0 dm) as [dd|] eqn:E; cbn [negb].
    - destruct H0 as (Hid & Hdate & Hdow & Hattrs).
      exists dd. split; [exact E|]. split; [exact Hid|]. split; [exact Hdate|].
      split; [|split; [exact Hattrs|split; [exact Hnd|reflexivity]]].
      destruct (day_rows dk0 seen); [discriminate|exact Hdow].
    - exists (new_day_data dk0 (RangeRow.day_of_week r)).
      split; [apply dict_get_set|]. split; [reflexivity|]. split; [reflexivity|].
      split; [rewrite H0; reflexivity|]. split; [|split].
      + intros attr Ha. rewrite (slot_rows_day_rows _ _ _ H0).
        apply getattr_init. exact Ha.
      + rewrite dict_set_keys. apply add_key_NoDup. exact Hnd.
      + intros dk Hne. apply dict_get_set_ne. congruence. }
  destruct Hdd as (dd & Hget & Hid & Hdate & Hdow & Hattrs & Hnd1 & Hother).
  destruct (group_row_step nm dm r dd (grouped_meal nm (slot_rows dk0 k0 seen))
              Hget (Hattrs k0 Hk0)) as (meals' & Hrun & Hgets).
  fold dk0 k0 dm1 in Hrun.
  eexists. split; [exact Hrun|]. split.
  - rewrite dict_set_keys. apply add_key_NoDup. exact Hnd1.
  - intros dk. destruct (String.eqb_spec dk0 dk) as [<-|Hne].
    + rewrite dict_get_set. cbn [set_day_meals DayData.id DayData.date
                                  DayData.dayOfWeek DayData.meals].
      split; [exact Hid|]. split; [exact Hdate|]. split; [exact Hdow|].
      intros attr Ha. rewrite (Hgets attr Ha), slot_rows_snoc.
      fold dk0 k0. rewrite String.eqb_refl, (String.eqb_sym k0 attr). cbn [andb].
      destruct (String.eqb_spec attr k0) as [->|].
      * rewrite grouped_meal_snoc. reflexivity.
      * rewrite app_nil_r. apply Hattrs. exact Ha.
    + rewrite dict_get_set_ne by exact Hne.
      rewrite Hother by congruence.
      pose proof (Hinv dk) as Hdk.
      assert (Hno : String.eqb (date_str (RangeRow.meal_date r)) dk = false)
        by (apply String.eqb_neq; exact Hne).
      rewrite day_rows_snoc, Hno, app_nil_r.
      destruct (dict_get dk dm) as [dd'|]; [|exact Hdk].
      destruct Hdk as (Hid' & Hdate' & Hdow' & Hattrs').
      split; [exact Hid'|]. split; [exact Hdate'|]. split; [exact Hdow'|].
      intros attr Ha. rewrite slot_rows_snoc, Hno. cbn [andb].
      rewrite app_nil_r. apply Hattrs'. exact Ha.
Qed.

Lemma grouped_loop nm rows : forall seen dm,
  grouped nm seen dm ->
  exists dm',
    for_each (group_row nm) rows dm = Some dm' /\ grouped nm (seen ++ rows) dm'.
Proof.
  induction rows as [|r rows IH]; intros seen dm Hg; cbn [for_each].
  - exists dm. rewrite app_nil_r. auto.
  - destruct (grouped_step nm seen dm r Hg) as (dm1 & Hrun & Hg1).
    rewrite Hrun. cbn [mbind option_bind].
    destruct (IH (seen ++ [r]) dm1 Hg1) as (dm2 & Hrest & Hg2).
    exists dm2. rewrite <- app_assoc in Hg2. auto.
Qed.

Lemma getattr_aggregate_meals meals attr :
  In attr MEAL_ATTRS ->
  getattr (aggregate_meals meals) attr
  = option_map (option_map aggregated) (getattr meals attr).
Proof.
  simpl. intros H. decompose [or] H; subst; try contradiction; reflexivity.
Qed.

(** X1. What the day reconstructor puts into each record.  The call
    returns, and with the rows of the range query in their order: the
    record of a date has that date string as id and date, the day of week
    of the date's first row, and in each slot the meal grouped from the
    rows of that date whose meal type maps to the slot: absent when there
    is no such row, else with the id, type and notes of the first such
    row, the foods of all such rows in row order, and the flags aggregated
    from those foods.  Rows of an unrecognised meal type land in the
    breakfast slot. *)
Theorem get_meals_by_date_range_grouping (db : Store.t) (user_id : string)
  (start_date end_date : date) :
  let results := sql_select_meals_range db user_id start_date end_date in
  let nutrients_map := _get_food_nutrients_map db (range_food_ids results) in
  exists days,
    get_meals_by_date_range db user_id start_date end_date = Some days /\
    forall day, In day days ->
      DayData.id day = DayData.date day /\
      option_map RangeRow.day_of_week (hd_error (day_rows (DayData.date day) results))
      = Some (DayData.dayOfWeek day) /\
      forall attr, In attr MEAL_ATTRS ->
        getattr (DayData.meals day) attr
        = Some (option_map aggregated
                  (grouped_meal nutrients_map
                     (slot_rows (DayData.date day) attr results))).
Proof.
  cbv zeta.
  destruct (get_meals_by_date_range_returns db user_id start_date end_date)
    as (days & Hrun).
  exists days. split; [exact Hrun|]. revert Hrun.
  unfold get_meals_by_date_range. fold (range_food_ids
    (sql_select_meals_range db user_id start_date end_date)).
  intros Hrun. cbv zeta.
  set (results := sql_select_meals_range db user_id start_date end_date) in *.
  set (nm := _get_food_nutrients_map db (range_food_ids results)) in *.
  assert (Hempty : grouped nm [] []).
  { split; [constructor|]. intros dk. reflexivity. }
  destruct (grouped_loop nm results [] [] Hempty) as (dm & Hloop & [Hnd Hinv]).
  cbn [app] in Hinv. rewrite Hloop in Hrun.
  cbn [mbind option_bind] in Hrun.
  intros day Hday.
  destruct (mapM_In _ _ _ _ Hrun Hday) as (day0 & Hin0 & Hsum).
  destruct (summarise_day_result _ _ Hsum) as (Hmeals & Hid & Hdate & Hdow & _).
  unfold dict_values in Hin0. apply in_map_iff in Hin0.
  destruct Hin0 as ([k v] & Hv & Hkv). simpl in Hv. subst v.
  pose proof (dict_get_In k day0 dm Hnd Hkv) as Hget.
  pose proof (Hinv k) as Hk. rewrite Hget in Hk. simpl in Hk.
  destruct Hk as (Hid0 & Hdate0 & Hdow0 & Hattrs).
  rewrite Hid, Hdate, Hdow, Hmeals, Hid0, Hdate0.
  split; [reflexivity|]. split; [exact Hdow0|].
  intros attr Ha. rewrite (getattr_aggregate_meals _ _ Ha), (Hattrs attr Ha).
  reflexivity.
Qed.

(** ** The order of the rows inside a slot *)

Lemma string_compare_refl b : String.compare b b = Eq.
Proof.
  induction b as [|c b IH]; simpl; [reflexivity|].
  unfold Ascii.compare. rewrite N.compare_refl. exact IH.
Qed.

Lemma string_leb_lt a b :
  String.leb a b = true <-> a = b \/ OrdersEx.String_as_OT.lt a b.
Proof.
  unfold String.leb, OrdersEx.String_as_OT.lt.
  change (OrdersEx.String_as_OT.compare a b) with (String.compare a b).
  destruct (String.compare a b) eqn:E.
  - apply String.compare_eq_iff in E. tauto.
  - tauto.
  - split; [discriminate|]. intros [->|H]; [|discriminate].
    rewrite string_compare_refl in E. discriminate.
Qed.

Lemma string_leb_trans a b c :
  String.leb a b = true -> String.leb b c = true -> String.leb a c = true.
Proof.
  rewrite !string_leb_lt. intros [->|H1] [->|H2]; auto.
  right. exact (StrictOrder_Transitive _ _ _ H1 H2).
Qed.

Lemma nulls_last_leb_trans a b c :
  nulls_last_leb a b = true -> nulls_last_leb b c = true -> nulls_last_leb a c = true.
Proof.
  destruct a, b, c; simpl; try discriminate; try reflexivity.
  rewrite !Z.leb_le. lia.
Qed.

Lemma nulls_last_leb_total a b :
  nulls_last_leb a b = false -> nulls_last_leb b a = true.
Proof.
  destruct a, b; simpl; try discriminate; try reflexivity.
  rewrite Z.leb_le, Z.leb_gt. lia.
Qed.

Lemma date_le_antisym a b : date_le a b -> date_le b a -> a = b.
Proof.
  unfold date_le. destruct a as [y1 m1 d1], b as [y2 m2 d2]. simpl.
  intros H1 H2. assert (y1 = y2 /\ m1 = m2 /\ d1 = d2) as (-> & -> & ->) by lia.
  reflexivity.
Qed.

Lemma range_order_leb_cases a b :
  range_order_leb a b = true <->
  date_lt (RangeRow.meal_date a) (RangeRow.meal_date b) \/
  (RangeRow.meal_date a = RangeRow.meal_date b /\
   ((RangeRow.meal_type a <> RangeRow.meal_type b /\
     String.leb (RangeRow.meal_type a) (RangeRow.meal_type b) = true) \/
    (RangeRow.meal_type a = RangeRow.meal_type b /\
     nulls_last_leb (RangeRow.sort_order a) (RangeRow.sort_order b) = true))).
Proof.
  unfold range_order_leb.
  destruct (date_eqb (RangeRow.meal_date a) (RangeRow.meal_date b)) eqn:Ed.
  - apply date_eqb_eq in Ed. rewrite Ed.
    destruct (String.eqb_spec (RangeRow.meal_type a) (RangeRow.meal_type b)) as [Et|Et].
    + split; [tauto|]. intros [H|[_ [[H _]|[_ H]]]]; [|contradiction|exact H].
      exfalso. exact (date_lt_irrefl _ H).
    + split; [tauto|]. intros [H|[_ [[_ H]|[H _]]]]; [|exact H|contradiction].
      exfalso. exact (date_lt_irrefl _ H).
  - assert (Hne : RangeRow.meal_date a <> RangeRow.meal_date b).
    { intros H. apply date_eqb_eq in H. congruence. }
    rewrite date_leb_le. split.
    + intros H. left. apply date_le_neq_lt; assumption.
    + intros [H|[H _]]; [|contradiction].
      unfold date_lt in H. unfold date_le. lia.
Qed.

Lemma range_order_leb_trans a b c :
  range_order_leb a b = true -> range_order_leb b c = true ->
  range_order_leb a c = true.
Proof.
  rewrite !range_order_leb_cases.
  intros [H1|[E1 H1]] [H2|[E2 H2]].
  - left. exact (date_lt_trans _ _ _ H1 H2).
  - left. rewrite <- E2. exact H1.
  - left. rewrite E1. exact H2.
  - right. split; [congruence|].
    destruct H1 as [[N1 L1]|[T1 S1]], H2 as [[N2 L2]|[T2 S2]].
    + destruct (String.eqb_spec (RangeRow.meal_type a) (RangeRow.meal_type c)) as [E|E].
      * exfalso. apply N1. apply String.leb_antisym; [exact L1|].
        rewrite E. exact L2.
      * left. split; [exact E|]. exact (string_leb_trans _ _ _ L1 L2).
    + left. rewrite <- T2. auto.
    + left. rewrite T1. auto.
    + right. split; [congruence|]. exact (nulls_last_leb_trans _ _ _ S1 S2).
Qed.

Lemma range_order_leb_total a b :
  range_order_leb a b = false -> range_order_leb b a = true.
Proof.
  intros H. apply range_order_leb_cases.
  destruct (date_le_total (RangeRow.meal_date a) (RangeRow.meal_date b)) as [Hab|Hba].
  - assert (Hd : RangeRow.meal_date b = RangeRow.meal_date a).
    { destruct (date_eqb (RangeRow.meal_date a) (RangeRow.meal_date b)) eqn:Ed;
        [apply date_eqb_eq in Ed; auto|].
      exfalso. unfold range_order_leb in H. rewrite Ed in H.
      apply date_leb_le in Hab. congruence. }
    right. split; [exact Hd|].
    unfold range_order_leb in H. rewrite <- Hd, date_eqb_refl in H.
    destruct (String.eqb_spec (RangeRow.meal_type a) (RangeRow.meal_type b)) as [Et|Et].
    + right. split; [auto|]. apply nulls_last_leb_total. exact H.
    + left. split; [auto|].
      destruct (String.leb_total (RangeRow.meal_type a) (RangeRow.meal_type b));
        [congruence|assumption].
  - destruct (date_eqb (RangeRow.meal_date a) (RangeRow.meal_date b)) eqn:Ed.
    + apply date_eqb_eq in Ed. right. split; [auto|].
      unfold range_order_leb in H. rewrite Ed, date_eqb_refl in H.
      destruct (String.eqb_spec (RangeRow.meal_type a) (RangeRow.meal_type b)) as [Et|Et].
      * right. split; [auto|]. apply nulls_last_leb_total. exact H.
      * left. split; [auto|].
        destruct (String.leb_total (RangeRow.meal_type a) (RangeRow.meal_type b));
          [congruence|assumption].
    + left. apply date_le_neq_lt; [exact Hba|].
      intros E. rewrite E, date_eqb_refl in Ed. discriminate.
Qed.

Lemma StronglySorted_filter {A} (R : A -> A -> Prop) (p : A -> bool) l :
  StronglySorted R l -> StronglySorted R (List.filter p l).
Proof.
  induction 1 as [|x l Hs IH Hx]; simpl; [constructor|].
  destruct (p x); [constructor|]; auto.
  apply List.Forall_forall. intros y Hy. apply filter_In in Hy.
  rewrite List.Forall_forall in Hx. apply Hx. tauto.
Qed.

Lemma StronglySorted_weaken {A} (R R' : A -> A -> Prop) l :
  StronglySorted R l ->
  (forall a b, In a l -> In b l -> R a b -> R' a b) ->
  StronglySorted R' l.
Proof.
  induction 1 as [|x l Hs IH Hx]; intros Himp; constructor.
  - apply IH. intros a b Ha Hb. apply Himp; right; assumption.
  - apply List.Forall_forall. intros y Hy. rewrite List.Forall_forall in Hx.
    apply Himp; [left; reflexivity|right; exact Hy|apply Hx; exact Hy].
Qed.

Lemma sql_select_meals_range_ordered db u s e :
  StronglySorted (fun a b => range_order_leb a b = true)
    (sql_select_meals_range db u s e).
Proof.
  unfold sql_select_meals_range. apply order_by_sorted.
  - apply range_order_leb_trans.
  - auto.
  - apply range_order_leb_total.
Qed.

(** X12. Inside every slot of every day, the rows that come from one
    stored meal type are in ascending sort index (rows without an item
    last): the foods of a meal are listed in the order of their sort
    indices. *)
Theorem slot_rows_sorted (db : Store.t) (user_id : string)
  (start_date end_date : date) (date_key attr : string) :
  dates_valid db ->
  StronglySorted
    (fun a b =>
       RangeRow.meal_type a = RangeRow.meal_type b ->
       nulls_last_leb (RangeRow.sort_order a) (RangeRow.sort_order b) = true)
    (slot_rows date_key attr (sql_select_meals_range db user_id start_date end_date)).
Proof.
  intros Hvalid.
  apply StronglySorted_weaken
    with (R := fun a b => range_order_leb a b = true).
  - unfold slot_rows. apply StronglySorted_filter.
    apply sql_select_meals_range_ordered.
  - intros a b Ha Hb Hab Htype.
    unfold slot_rows in Ha, Hb. apply filter_In in Ha, Hb.
    destruct Ha as [Ha Hpa], Hb as [Hb Hpb].
    apply andb_true_iff in Hpa, Hpb. destruct Hpa as [Hda _], Hpb as [Hdb _].
    apply String.eqb_eq in Hda, Hdb.
    assert (Hva : date_valid (RangeRow.meal_date a)).
    { apply (in_map RangeRow.meal_date) in Ha.
      apply sql_select_meals_range_dates in Ha. destruct Ha as (m & Hm & _ & <-).
      apply Hvalid. exact Hm. }
    assert (Hvb : date_valid (RangeRow.meal_date b)).
    { apply (in_map RangeRow.meal_date) in Hb.
      apply sql_select_meals_range_dates in Hb. destruct Hb as (m & Hm & _ & <-).
      apply Hvalid. exact Hm. }
    assert (Hd : RangeRow.meal_date a = RangeRow.meal_date b)
      by (apply date_str_inj; congruence).
    apply range_order_leb_cases in Hab.
    destruct Hab as [Hlt|[_ [[Hne _]|[_ Hso]]]].
    + rewrite Hd in Hlt. exfalso. exact (date_lt_irrefl _ Hlt).
    + contradiction.
    + exact Hso.
Qed.

(** ** Reading a stored slot through the day reconstructor *)

Lemma left_join_row_filter {A B} (on : A -> B -> bool) (q : A -> bool) r a :
  List.filter (fun x : A * option B => q (fst x))
    match List.filter (on a) r with
    | [] => [(a, None)]
    | bs => map (fun b => (a, Some b)) bs
    end
  = if q a
    then match List.filter (on a) r with
         | [] => [(a, None)]
         | bs => map (fun b => (a, Some b)) bs
         end
    else [].
Proof.
  destruct (q a) eqn:E.
  - apply filter_all. intros x Hx.
    destruct (List.filter (on a) r) as [|b bs].
    + destruct Hx as [<-|[]]. exact E.
    + apply in_map_iff in Hx. destruct Hx as (b' & <- & _). exact E.
  - apply filter_none. intros x Hx.
    destruct (List.filter (on a) r) as [|b bs].
    + destruct Hx as [<-|[]]. exact E.
    + apply in_map_iff in Hx. destruct Hx as (b' & <- & _). exact E.
Qed.

Lemma left_join_filter_left {A B} (on : A -> B -> bool) (q : A -> bool) l r :
  List.filter (fun x => q (fst x)) (left_join on l r) = left_join on (List.filter q l) r.
Proof.
  unfold left_join. induction l as [|a l IH]; [reflexivity|].
  cbn [flat_map List.filter]. rewrite List.filter_app, left_join_row_filter, IH.
  destruct (q a); reflexivity.
Qed.

Lemma filter_unique {A K} (key : A -> K) (q : A -> bool) l h :
  List.NoDup (map key l) -> In h l ->
  (forall m, In m l -> q m = true <-> key m = key h) ->
  List.filter q l = [h].
Proof.
  induction l as [|x l IH]; simpl; intros Hnd Hin Hq; [destruct Hin|].
  inversion Hnd as [|? ? Hx Hl]; subst.
  destruct Hin as [->|Hin].
  - rewrite (proj2 (Hq h (or_introl eq_refl)) eq_refl). f_equal.
    apply filter_none. intros m Hm.
    destruct (q m) eqn:E; [|reflexivity].
    apply (Hq m (or_intror Hm)) in E. exfalso. apply Hx. rewrite <- E.
    apply in_map. exact Hm.
  - destruct (q x) eqn:E.
    + apply (Hq x (or_introl eq_refl)) in E. exfalso. apply Hx. rewrite E.
      apply in_map. exact Hin.
    + apply IH; auto.
Qed.

Lemma filter_find_unique {A} (key : A -> nat) (k : nat) l :
  List.NoDup (map key l) ->
  List.filter (fun x => k =? key x) l
  = match find (fun x => k =? key x) l with Some x => [x] | None => [] end.
Proof.
  induction l as [|x l IH]; simpl; intros Hnd; [reflexivity|].
  inversion Hnd as [|? ? Hx Hl]; subst.
  destruct (Nat.eqb_spec k (key x)) as [->|Hne]; [|apply IH; exact Hl].
  f_equal. apply filter_none. intros y Hy. apply Nat.eqb_neq. intros E.
  apply Hx. rewrite E. apply in_map. exact Hy.
Qed.

Lemma order_by_ext_In {A} (leb leb' : A -> A -> bool) l :
  (forall a b, In a l -> In b l -> leb a b = leb' a b) ->
  order_by leb l = order_by leb' l.
Proof.
  induction l as [|x l IH]; intros H; simpl; [reflexivity|].
  rewrite IH by (intros; apply H; right; assumption).
  assert (Hins : forall s, (forall y, In y s -> In y l) ->
                           insert leb x s = insert leb' x s).
  { induction s as [|y s IHs]; intros Hs; simpl; [reflexivity|].
    rewrite (H x y); [|left; reflexivity|right; apply Hs; left; reflexivity].
    rewrite IHs by (intros; apply Hs; right; assumption). reflexivity. }
  apply Hins. intros y Hy. apply (In_order_by leb' y l). exact Hy.
Qed.

Lemma order_by_map {A B} (g : A -> B) (lebA : A -> A -> bool) (lebB : B -> B -> bool) l :
  (forall a b, lebB (g a) (g b) = lebA a b) ->
  order_by lebB (map g l) = map g (order_by lebA l).
Proof.
  intros H. induction l as [|x l IH]; simpl; [reflexivity|].
  rewrite IH. generalize (order_by lebA l). intros s.
  induction s as [|y s IHs]; simpl; [reflexivity|].
  rewrite H. destruct (lebA x y); simpl; [reflexivity|]. rewrite IHs. reflexivity.
Qed.

Lemma map_meal_type_to_key_own label other :
  In label own_slot_labels ->
  _map_meal_type_to_key other = _map_meal_type_to_key label -> other = label.
Proof.
  intros Hl. unfold _map_meal_type_to_key at 1. unfold mapping.
  repeat match goal with
    | |- context [<[?k := _]> _ !! other] =>
        destruct (decide (k = other)) as [<-|];
        [simpl in Hl; decompose [or] Hl; subst; try contradiction;
         vm_compute; intros E; try reflexivity; discriminate
        |rewrite lookup_insert_ne by assumption]
    end.
  rewrite lookup_empty. simpl in Hl.
  decompose [or] Hl; subst; try contradiction; vm_compute; discriminate.
Qed.

Lemma filter_map_comm {A B} (p : B -> bool) (g : A -> B) l :
  List.filter p (map g l) = map g (List.filter (fun a => p (g a)) l).
Proof.
  induction l as [|x l IH]; simpl; [reflexivity|].
  destruct (p (g x)); simpl; rewrite IH; reflexivity.
Qed.

Lemma flat_map_singleton {A B} (g : A -> B) l : flat_map (fun x => [g x]) l = map g l.
Proof. induction l as [|x l IH]; simpl; [|rewrite IH]; reflexivity. Qed.

(** The joined rows of one header. *)
Lemma joined_rows_header db h :
  List.NoDup (map FoodRow.id (Store.foods db)) ->
  map (fun '((m, mi), f) =>
         RangeRow.mk (MealRow.id m) (MealRow.log_date m)
           (MealRow.day_of_week m) (MealRow.meal_type m) (MealRow.notes m)
           (option_map MealItemRow.id mi)
           (option_map MealItemRow.sort_order mi)
           f)
    (left_join (fun '(_, mi) f =>
                  match mi with
                  | Some mi => MealItemRow.food_id mi =? FoodRow.id f
                  | None => false
                  end)
       (left_join (fun m mi => MealRow.id m =? MealItemRow.meal_id mi)
          [h] (Store.meal_items db))
       (Store.foods db))
  = match item_rows db (MealRow.id h) with
    | [] => [header_row h]
    | items => map (item_row db h) items
    end.
Proof.
  intros Hnd. unfold left_join at 2. cbn [flat_map]. rewrite app_nil_r.
  replace (List.filter (fun mi => MealRow.id h =? MealItemRow.meal_id mi)
             (Store.meal_items db)) with (item_rows db (MealRow.id h))
    by (unfold item_rows; apply filter_ext; intros i; apply Nat.eqb_sym).
  destruct (item_rows db (MealRow.id h)) as [|i its].
  - unfold left_join. cbn [flat_map]. rewrite app_nil_r.
    rewrite filter_none by reflexivity. reflexivity.
  - set (items := i :: its). unfold left_join.
    rewrite flat_map_concat_map, map_map, <- flat_map_concat_map.
    rewrite (flat_map_ext _
               (fun it =>
                  [((h, Some it),
                    find (fun f => MealItemRow.food_id it =? FoodRow.id f)
                      (Store.foods db))])).
    + rewrite flat_map_singleton, map_map. reflexivity.
    + intros it. cbn beta iota.
      rewrite (filter_find_unique FoodRow.id (MealItemRow.food_id it) _ Hnd).
      destruct (find _ (Store.foods db)); reflexivity.
Qed.

(** The rows of the range query that fall into the slot of a stored
    header, for a label that owns its slot. *)
Lemma slot_rows_stored db u s e d label h :
  dates_valid db -> slots_unique db ->
  List.NoDup (map FoodRow.id (Store.foods db)) ->
  In label own_slot_labels ->
  find_slot db u d label = Some h ->
  date_le s d -> date_le d e ->
  slot_rows (date_str d) (_map_meal_type_to_key label) (sql_select_meals_range db u s e)
  = stored_slot_rows db h.
Proof.
  intros Hvalid Huniq Hnd Hlabel Hfind Hs He.
  unfold find_slot in Hfind. destruct (find_some _ _ Hfind) as [Hin Hkey].
  apply same_slot_key in Hkey.
  assert (Hd : MealRow.log_date h = d) by (unfold slot_key in Hkey; congruence).
  unfold slot_rows, sql_select_meals_range. cbv zeta.
  rewrite (order_by_filter range_order_leb range_order_leb_trans range_order_leb_total).
  rewrite filter_map_comm, filter_filter.
  set (q := fun m : MealRow.t =>
              (String.eqb (MealRow.user_id m) u
               && date_leb s (MealRow.log_date m)
               && date_leb (MealRow.log_date m) e)
              && (String.eqb (date_str (MealRow.log_date m)) (date_str d)
                  && String.eqb (_map_meal_type_to_key (MealRow.meal_type m))
                       (_map_meal_type_to_key label))).
  rewrite (filter_ext _ (fun x : MealRow.t * option MealItemRow.t * option FoodRow.t =>
                           (fun y : MealRow.t * option MealItemRow.t => q (fst y))
                             (fst x)))
    by (intros [[m mi] f]; reflexivity).
  rewrite (left_join_filter_left _ (fun y : MealRow.t * option MealItemRow.t => q (fst y))).
  rewrite (left_join_filter_left _ q).
  rewrite (filter_unique slot_key q (Store.meals db) h Huniq Hin).
  - rewrite (joined_rows_header db h Hnd).
    unfold stored_slot_rows, ordered_items.
    destruct (item_rows db (MealRow.id h)) as [|i its] eqn:E; [reflexivity|].
    rewrite (order_by_ext_In range_order_leb
               (fun a b => nulls_last_leb (RangeRow.sort_order a) (RangeRow.sort_order b))).
    + rewrite (order_by_map (item_row db h) by_sort_order) by reflexivity.
      destruct (order_by by_sort_order (i :: its)) as [|i' its'] eqn:Eo; [|reflexivity].
      pose proof (order_by_perm by_sort_order (i :: its)) as Hp. rewrite Eo in Hp.
      apply Permutation_nil in Hp. discriminate.
    + intros a b Ha Hb. apply in_map_iff in Ha, Hb.
      destruct Ha as (ia & <- & _), Hb as (ib & <- & _).
      unfold range_order_leb, item_row. cbn [RangeRow.meal_date RangeRow.meal_type
        RangeRow.sort_order]. rewrite date_eqb_refl, String.eqb_refl. reflexivity.
  - intros m Hm. unfold q. rewrite !andb_true_iff, !String.eqb_eq, !date_leb_le.
    rewrite Hkey. unfold slot_key. split.
    + intros [[[Hu _] _] [Hdate Htype]].
      apply date_str_inj in Hdate;
        [|apply Hvalid; exact Hm|rewrite <- Hd; apply Hvalid; exact Hin].
      apply (map_meal_type_to_key_own label _ Hlabel) in Htype.
      congruence.
    + intros [= -> -> ->]. auto 10.
Qed.

Lemma get_meals_by_date_range_run db u s e days :
  get_meals_by_date_range db u s e = Some days ->
  exists day_map,
    grouped (_get_food_nutrients_map db (range_food_ids (sql_select_meals_range db u s e)))
      (sql_select_meals_range db u s e) day_map /\
    mapM summarise_day (dict_values day_map) = Some days.
Proof.
  unfold get_meals_by_date_range.
  fold (range_food_ids (sql_select_meals_range db u s e)). cbv zeta.
  set (results := sql_select_meals_range db u s e).
  set (nm := _get_food_nutrients_map db (range_food_ids results)).
  assert (Hempty : grouped nm [] []).
  { split; [constructor|]. intros dk. reflexivity. }
  destruct (grouped_loop nm results [] [] Hempty) as (dm & Hloop & Hg).
  cbn [app] in Hg. rewrite Hloop. cbn [mbind option_bind]. intros Hrun.
  exists dm. auto.
Qed.

Lemma dict_get_Some_In {V} k (v : V) d : dict_get k d = Some v -> In (k, v) d.
Proof.
  induction d as [|[k' v'] d IH]; cbn [dict_get]; [discriminate|].
  destruct (String.eqb_spec k k') as [->|]; [intros [= ->]; left; reflexivity|].
  intros H. right. apply IH. exact H.
Qed.

Lemma mapM_In_forward {A B} (f : A -> option B) l : forall l' x,
  mapM f l = Some l' -> In x l -> exists y, In y l' /\ f x = Some y.
Proof.
  induction l as [|a l IH]; intros l' x; simpl; [intros _ []|].
  destruct (f a) as [y0|] eqn:E; simpl; [|discriminate].
  destruct (mapM f l) as [k|]; simpl; [|discriminate].
  intros [= <-] [<-|Hx]; [exists y0; split; [left; reflexivity|exact E]|].
  destruct (IH k x eq_refl Hx) as (y & Hy & Hf). exists y. split; [right; exact Hy|exact Hf].
Qed.

Lemma item_rows_food_ids nm db h items :
  map FoodItem.id (omap (row_food_item nm) (map (item_row db h) items))
  = List.filter (food_stored db) (map MealItemRow.food_id items).
Proof.
  induction items as [|i items IH]; [reflexivity|].
  cbn [map omap list_omap List.filter].
  unfold row_food_item at 1, item_row at 1, food_stored at 1.
  cbn [RangeRow.food].
  destruct (find (fun f => MealItemRow.food_id i =? FoodRow.id f) (Store.foods db))
    as [f|] eqn:E; cbn [option_map].
  - destruct (find_some _ _ E) as [Hin Hid]. apply Nat.eqb_eq in Hid.
    replace (existsb (fun f0 => MealItemRow.food_id i =? FoodRow.id f0) (Store.foods db))
      with true.
    + cbn [map]. rewrite IH. f_equal. cbn [_map_food_item FoodItem.id]. congruence.
    + symmetry. apply existsb_exists. exists f. split; [exact Hin|].
      apply Nat.eqb_eq. exact Hid.
  - replace (existsb (fun f0 => MealItemRow.food_id i =? FoodRow.id f0) (Store.foods db))
      with false; [exact IH|].
    symmetry. apply not_true_is_false. intros Hex.
    apply existsb_exists in Hex. destruct Hex as (f & Hin & Hf).
    pose proof (find_none _ _ E f Hin) as Hn. simpl in Hn. congruence.
Qed.

Lemma get_meals_by_date_range_slot_rows (db : Store.t) (user_id : string)
  (start_date end_date date : date) (label : string) (header : MealRow.t)
  (days : list DayData.t) :
  dates_valid db -> slots_unique db ->
  List.NoDup (map FoodRow.id (Store.foods db)) ->
  In label own_slot_labels ->
  find_slot db user_id date label = Some header ->
  date_le start_date date -> date_le date end_date ->
  get_meals_by_date_range db user_id start_date end_date = Some days ->
  exists day meal,
    In day days /\
    DayData.date day = date_str date /\
    getattr (DayData.meals day) (_map_meal_type_to_key label) = Some (Some meal) /\
    Meal.id meal = MealRow.id header /\
    Meal.type meal = label /\
    map FoodItem.id (Meal.items meal)
    = List.filter (food_stored db)
        (map MealItemRow.food_id (ordered_items db (MealRow.id header))).
Proof.
  intros Hvalid Huniq Hnd Hlabel Hfind Hs He Hrun.
  destruct (get_meals_by_date_range_run _ _ _ _ _ Hrun) as (dm & [Hnd' Hinv] & HmapM).
  pose proof (slot_rows_stored db user_id start_date end_date date label header
                Hvalid Huniq Hnd Hlabel Hfind Hs He) as Hrows.
  pose proof (map_meal_type_to_key_attr label) as Hattr.
  assert (Htype : MealRow.meal_type header = label).
  { unfold find_slot in Hfind. destruct (find_some _ _ Hfind) as [_ Hk].
    apply same_slot_key in Hk. unfold slot_key in Hk. congruence. }
  assert (Hne : stored_slot_rows db header <> []).
  { unfold stored_slot_rows. destruct (ordered_items db (MealRow.id header));
      discriminate. }
  pose proof (Hinv (date_str date)) as Hday.
  destruct (dict_get (date_str date) dm) as [dd|] eqn:Eget.
  - destruct Hday as (_ & Hdate & _ & Hattrs).
    apply dict_get_Some_In in Eget.
    assert (Hdd : In dd (dict_values dm))
      by (unfold dict_values; apply in_map_iff; exists (date_str date, dd); auto).
    destruct (mapM_In_forward _ _ _ _ HmapM Hdd) as (day & Hday & Hsum).
    destruct (summarise_day_result _ _ Hsum) as (Hmeals & _ & Hdate' & _ & _).
    pose proof (Hattrs _ Hattr) as Hslot. rewrite Hrows in Hslot.
    assert (Hget : getattr (DayData.meals day) (_map_meal_type_to_key label)
                   = Some (option_map aggregated
                             (grouped_meal
                                (_get_food_nutrients_map db
                                   (range_food_ids
                                      (sql_select_meals_range db user_id start_date
                                         end_date)))
                                (stored_slot_rows db header)))).
    { rewrite Hmeals, (getattr_aggregate_meals _ _ Hattr), Hslot. reflexivity. }
    unfold stored_slot_rows in Hget.
    destruct (ordered_items db (MealRow.id header)) as [|i its] eqn:Eo.
    + eexists day, _. split; [exact Hday|]. split; [congruence|].
      split; [exact Hget|]. split; [reflexivity|]. split; [exact Htype|].
      reflexivity.
    + eexists day, _. split; [exact Hday|]. split; [congruence|].
      split; [exact Hget|]. split; [reflexivity|]. split; [exact Htype|].
      cbn [grouped_meal map option_map aggregated set_meal_micronutrients Meal.items].
      apply (item_rows_food_ids _ db header (i :: its)).
  - exfalso. apply Hne. rewrite <- Hrows.
    apply slot_rows_day_rows. exact Hday.
Qed.

(** X13. Reading a stored slot.  For a slot whose label owns its key
    (Snack 1, Lunch, Snack 2, Dinner) and whose date lies in the range, the
    day reconstructor returns a record of that date whose slot holds a meal
    with the key and the type of the header, and whose foods are the foods
    of the slot in reading order ([slot_foods]), without those that are not
    in the catalogue. *)
Theorem get_meals_by_date_range_slot (db : Store.t) (user_id : string)
  (start_date end_date date : date) (label : string) (header : MealRow.t) :
  dates_valid db -> slots_unique db ->
  List.NoDup (map FoodRow.id (Store.foods db)) ->
  In label own_slot_labels ->
  find_slot db user_id date label = Some header ->
  date_le start_date date -> date_le date end_date ->
  exists days day meal foods,
    get_meals_by_date_range db user_id start_date end_date = Some days /\
    In day days /\
    DayData.date day = date_str date /\
    getattr (DayData.meals day) (_map_meal_type_to_key label) = Some (Some meal) /\
    Meal.id meal = MealRow.id header /\
    Meal.type meal = label /\
    slot_foods db user_id date label = Some foods /\
    map FoodItem.id (Meal.items meal) = List.filter (food_stored db) foods.
Proof.
  intros Hvalid Huniq Hnd Hlabel Hfind Hs He.
  destruct (get_meals_by_date_range_returns db user_id start_date end_date)
    as (days & Hrun).
  destruct (get_meals_by_date_range_slot_rows db user_id start_date end_date date
              label header days Hvalid Huniq Hnd Hlabel Hfind Hs He Hrun)
    as (day & meal & Hday & Hdate & Hget & Hid & Htype & Hitems).
  exists days, day, meal,
    (map MealItemRow.food_id (ordered_items db (MealRow.id header))).
  unfold slot_foods. rewrite Hfind. auto 10.
Qed.

Lemma insert_loop_foods mid (l : list (Z * ident)) : forall db,
  Store.foods
    (fold_left (fun db '(idx, fid) => sql_insert_meal_item db mid fid idx) l db)
  = Store.foods db.
Proof.
  induction l as [|[idx fid] l IH]; intros db; simpl; [reflexivity|].
  rewrite IH. reflexivity.
Qed.

Lemma upsert_meal_foods db u d dow mt fids :
  Store.foods (upsert_meal db u d dow mt fids) = Store.foods db.
Proof.
  unfold upsert_meal, sql_upsert_meal.
  destruct (find (same_slot u d mt) (Store.meals db)); simpl;
    destruct fids; cbn [truthy_list]; rewrite ?insert_loop_foods; reflexivity.
Qed.

Lemma dates_valid_upsert db u d dow mt fids :
  dates_valid db -> date_valid d -> dates_valid (upsert_meal db u d dow mt fids).
Proof.
  intros Hv Hd m Hm. rewrite upsert_meal_meals in Hm.
  unfold sql_upsert_meal in Hm.
  destruct (find (same_slot u d mt) (Store.meals db)); simpl in Hm.
  - apply in_map_iff in Hm. destruct Hm as (m0 & <- & Hm0).
    destruct (same_slot u d mt m0); apply (Hv m0 Hm0).
  - apply in_app_or in Hm. destruct Hm as [Hm|[<-|[]]]; [apply Hv; exact Hm|exact Hd].
Qed.

(** X14. Read your writes.  After upsert-slot with foods of the
    catalogue, on a label that owns its slot, the day reconstructor (for
    any range that contains the date) returns a record of that date whose
    slot holds exactly the upserted foods, in the upserted order. *)
Theorem upsert_then_read (db : Store.t) (user_id : string)
  (start_date end_date date : date) (day_of_week label : string)
  (food_item_ids : list ident) :
  dates_valid db -> date_valid date -> slots_unique db ->
  List.NoDup (map FoodRow.id (Store.foods db)) ->
  In label own_slot_labels ->
  (forall f, In f food_item_ids -> food_stored db f = true) ->
  date_le start_date date -> date_le date end_date ->
  let db' := upsert_meal db user_id date day_of_week label food_item_ids in
  exists days day meal,
    get_meals_by_date_range db' user_id start_date end_date = Some days /\
    In day days /\
    DayData.date day = date_str date /\
    getattr (DayData.meals day) (_map_meal_type_to_key label) = Some (Some meal) /\
    Meal.type meal = label /\
    map FoodItem.id (Meal.items meal) = food_item_ids.
Proof.
  intros Hvalid Hd Huniq Hnd Hlabel Hstored Hs He. cbv zeta.
  set (db' := upsert_meal db user_id date day_of_week label food_item_ids).
  destruct (get_meals_by_date_range_returns db' user_id start_date end_date)
    as (days & Hrun).
  destruct (upsert_meal_rows db user_id date day_of_week label food_item_ids)
    as (h & Hfind & _ & _ & Hrows & _). fold db' in Hfind, Hrows.
  assert (Hfoods : Store.foods db' = Store.foods db) by apply upsert_meal_foods.
  assert (Huniq' : slots_unique db').
  { unfold slots_unique, db'. rewrite upsert_meal_meals.
    apply slots_unique_header. exact Huniq. }
  assert (Hnd' : List.NoDup (map FoodRow.id (Store.foods db')))
    by (rewrite Hfoods; exact Hnd).
  destruct (get_meals_by_date_range_slot_rows db' user_id start_date end_date date
              label h days
              (dates_valid_upsert db user_id date day_of_week label food_item_ids
                 Hvalid Hd)
              Huniq' Hnd' Hlabel Hfind Hs He Hrun)
    as (day & meal & Hday & Hdate & Hget & _ & Htype & Hitems).
  exists days, day, meal.
  split; [exact Hrun|]. split; [exact Hday|]. split; [exact Hdate|].
  split; [exact Hget|]. split; [exact Htype|].
  rewrite Hitems, (ordered_items_enumerate db' (MealRow.id h) food_item_ids 0 Hrows).
  apply filter_all. intros f Hf. unfold food_stored. rewrite Hfoods.
  apply Hstored. exact Hf.
Qed.

(** ** The small store satisfies the assumptions *)

Lemma example_day_dates_valid : dates_valid example_day.
Proof.
  intros m Hm. vm_compute in Hm. unfold date_valid.
  decompose [or] Hm; try contradiction; subst; simpl; lia.
Qed.

Lemma example_day_slots_unique : slots_unique example_day.
Proof.
  unfold slots_unique. vm_compute.
  repeat (constructor; [simpl; intros Hin; decompose [or] Hin; discriminate || assumption|]).
  constructor.
Qed.

Lemma example_day_foods_unique : List.NoDup (map FoodRow.id (Store.foods example_day)).
Proof.
  vm_compute. repeat (constructor; [simpl; lia|]). constructor.
Qed.

Lemma example_date_in_range :
  date_le (mkDate 2024 1 1) (mkDate 2024 1 5) /\ date_le (mkDate 2024 1 5) (mkDate 2024 1 31).
Proof. unfold date_le. simpl. lia. Qed.

Lemma slot_rows_sorted_witness :
  StronglySorted
    (fun a b =>
       RangeRow.meal_type a = RangeRow.meal_type b ->
       nulls_last_leb (RangeRow.sort_order a) (RangeRow.sort_order b) = true)
    (slot_rows "2024-01-05" "lunch"
       (sql_select_meals_range example_day "U" (mkDate 2024 1 1) (mkDate 2024 1 31))).
Proof.
  exact (slot_rows_sorted example_day "U" (mkDate 2024 1 1) (mkDate 2024 1 31)
           "2024-01-05" "lunch" example_day_dates_valid).
Defined.

Lemma get_meals_by_date_range_slot_witness :
  exists days day meal,
    get_meals_by_date_range example_day "U" (mkDate 2024 1 1) (mkDate 2024 1 31)
    = Some days /\
    In day days /\
    getattr (DayData.meals day) "lunch" = Some (Some meal) /\
    Meal.id meal = 102.
Proof.
  destruct example_date_in_range as [Hs He].
  destruct (get_meals_by_date_range_slot example_day "U" (mkDate 2024 1 1)
              (mkDate 2024 1 31) (mkDate 2024 1 5) "Lunch"
              (MealRow.mk 102 "U" (mkDate 2024 1 5) "Friday" "Lunch" None)
              example_day_dates_valid example_day_slots_unique
              example_day_foods_unique
              ltac:(simpl; tauto) eq_refl Hs He)
    as (days & day & meal & foods & Hrun & Hday & _ & Hget & Hid & _).
  exists days, day, meal. split; [exact Hrun|]. split; [exact Hday|].
  split; [exact Hget|exact Hid].
Defined.

Lemma upsert_then_read_witness :
  exists days day meal,
    get_meals_by_date_range
      (upsert_meal example_day "U" (mkDate 2024 1 5) "Friday" "Dinner" [2; 1; 2])
      "U" (mkDate 2024 1 1) (mkDate 2024 1 31) = Some days /\
    In day days /\
    getattr (DayData.meals day) "dinner" = Some (Some meal) /\
    map FoodItem.id (Meal.items meal) = [2; 1; 2].
Proof.
  destruct example_date_in_range as [Hs He].
  assert (Hd : date_valid (mkDate 2024 1 5)) by (unfold date_valid; simpl; lia).
  assert (Hstored : forall f, In f [2; 1; 2] -> food_stored example_day f = true).
  { intros f Hf. simpl in Hf. decompose [or] Hf; try contradiction; subst; reflexivity. }
  destruct (upsert_then_read example_day "U" (mkDate 2024 1 1) (mkDate 2024 1 31)
              (mkDate 2024 1 5) "Friday" "Dinner" [2; 1; 2]
              example_day_dates_valid Hd example_day_slots_unique
              example_day_foods_unique ltac:(simpl; tauto) Hstored Hs He)
    as (days & day & meal & Hrun & Hday & _ & Hget & _ & Hitems).
  exists days, day, meal. auto.
Defined.

(** ** Where the returned meals come from *)

Lemma left_join_In {A B} (on : A -> B -> bool) l r a ob :
  In (a, ob) (left_join on l r) ->
  In a l /\ forall b, ob = Some b -> In b r /\ on a b = true.
Proof.
  unfold left_join. rewrite in_flat_map. intros (a' & Ha & Hin).
  destruct (List.filter (on a') r) as [|b0 bs] eqn:E.
  - destruct Hin as [[= <- <-]|[]]. split; [exact Ha|discriminate].
  - apply in_map_iff in Hin. destruct Hin as (b' & [= <- <-] & Hb').
    split; [exact Ha|]. intros b [= <-]. rewrite <- E in Hb'.
    apply filter_In in Hb'. exact Hb'.
Qed.

(** Every row of the range query is built from a header of the user
    within the range, and its food, if any, from a catalogue row that an
    item of that header refers to. *)
Lemma sql_select_meals_range_row db u s e r :
  In r (sql_select_meals_range db u s e) ->
  exists h,
    In h (Store.meals db) /\ in_range u s e h /\
    RangeRow.meal_id r = MealRow.id h /\
    RangeRow.meal_date r = MealRow.log_date h /\
    RangeRow.day_of_week r = MealRow.day_of_week h /\
    RangeRow.meal_type r = MealRow.meal_type h /\
    RangeRow.meal_notes r = MealRow.notes h /\
    forall f, RangeRow.food r = Some f ->
      In f (Store.foods db) /\
      exists i, In i (Store.meal_items db) /\
                MealItemRow.meal_id i = MealRow.id h /\
                MealItemRow.food_id i = FoodRow.id f.
Proof.
  unfold sql_select_meals_range, in_range. intros Hrow.
  apply In_order_by in Hrow. apply in_map_iff in Hrow.
  destruct Hrow as ([[m mi] f] & <- & Hsel).
  apply filter_In in Hsel. destruct Hsel as [Hjoin Hwhere].
  apply left_join_In in Hjoin. destruct Hjoin as [Hjoin Hfood].
  apply left_join_In in Hjoin. destruct Hjoin as [Hm Hitem].
  rewrite !andb_true_iff, !date_leb_le, String.eqb_eq in Hwhere.
  exists m. cbn [RangeRow.meal_id RangeRow.meal_date RangeRow.day_of_week
                 RangeRow.meal_type RangeRow.meal_notes RangeRow.food].
  repeat (split; [tauto || reflexivity|]).
  intros f0 ->. destruct (Hfood f0 eq_refl) as [Hf Hon].
  split; [exact Hf|]. destruct mi as [i|]; [|discriminate].
  destruct (Hitem i eq_refl) as [Hi Hmi].
  apply Nat.eqb_eq in Hon. apply Nat.eqb_eq in Hmi.
  exists i. auto.
Qed.

Lemma getattr_Some_attr meals attr v :
  getattr meals attr = Some v -> In attr MEAL_ATTRS.
Proof.
  unfold getattr, MEAL_ATTRS.
  repeat match goal with
    | |- context [String.eqb attr ?k] =>
        destruct (String.eqb_spec attr k) as [->|_]; [intros _; simpl; tauto|]
    end.
  discriminate.
Qed.

Lemma In_omap {A B} (f : A -> option B) l y :
  In y (omap f l) -> exists x, In x l /\ f x = Some y.
Proof.
  induction l as [|a l IH]; cbn [omap list_omap]; [intros []|].
  destruct (f a) as [b|] eqn:E.
  - intros [<-|H]; [exists a; split; [left; reflexivity|exact E]|].
    destruct (IH H) as (x & Hx & Hf). exists x. split; [right; exact Hx|exact Hf].
  - intros H. destruct (IH H) as (x & Hx & Hf). exists x. split; [right; exact Hx|exact Hf].
Qed.

(** A meal that the day reconstructor returns was grouped from the rows of
    its slot. *)
Lemma get_meals_by_date_range_meal db u s e days day attr meal :
  get_meals_by_date_range db u s e = Some days ->
  In day days ->
  getattr (DayData.meals day) attr = Some (Some meal) ->
  exists r rows,
    slot_rows (DayData.date day) attr (sql_select_meals_range db u s e) = r :: rows /\
    Meal.id meal = RangeRow.meal_id r /\
    Meal.type meal = RangeRow.meal_type r /\
    Meal.notes meal = RangeRow.meal_notes r /\
    Meal.items meal
    = omap (row_food_item
              (_get_food_nutrients_map db
                 (range_food_ids (sql_select_meals_range db u s e))))
        (r :: rows).
Proof.
  intros Hrun Hday Hget.
  destruct (get_meals_by_date_range_run _ _ _ _ _ Hrun) as (dm & [Hnd Hinv] & HmapM).
  destruct (mapM_In _ _ _ _ HmapM Hday) as (day0 & Hin0 & Hsum).
  destruct (summarise_day_result _ _ Hsum) as (Hmeals & _ & Hdate & _).
  unfold dict_values in Hin0. apply in_map_iff in Hin0.
  destruct Hin0 as ([k v] & Hv & Hkv). simpl in Hv. subst v.
  pose proof (dict_get_In k day0 dm Hnd Hkv) as Hk0.
  pose proof (Hinv k) as Hk. rewrite Hk0 in Hk.
  destruct Hk as (_ & Hdate0 & _ & Hattrs).
  pose proof (getattr_Some_attr _ _ _ Hget) as Ha.
  rewrite Hmeals, (getattr_aggregate_meals _ _ Ha), (Hattrs attr Ha) in Hget.
  rewrite Hdate, Hdate0.
  destruct (slot_rows k attr (sql_select_meals_range db u s e)) as [|r rows];
    [discriminate|].
  cbn [grouped_meal option_map] in Hget. injection Hget as <-.
  exists r, rows. cbn. auto.
Qed.

(** X15. The day reconstructor returns, and it returns only the user's
    own meals of the requested range: every meal in a returned record
    carries the id, type and notes of a stored header of that user whose
    date is within the range and is that record's date, and whose type
    maps to the slot the meal sits in; and every food in it is a catalogue
    food that an item of a stored meal refers to. *)
Theorem get_meals_by_date_range_own_meals (db : Store.t) (user_id : string)
  (start_date end_date : date) :
  exists days,
    get_meals_by_date_range db user_id start_date end_date = Some days /\
    forall day attr meal,
      In day days ->
      getattr (DayData.meals day) attr = Some (Some meal) ->
      (exists h,
          In h (Store.meals db) /\
          MealRow.user_id h = user_id /\
          date_le start_date (MealRow.log_date h) /\
          date_le (MealRow.log_date h) end_date /\
          date_str (MealRow.log_date h) = DayData.date day /\
          _map_meal_type_to_key (MealRow.meal_type h) = attr /\
          Meal.id meal = MealRow.id h /\
          Meal.type meal = MealRow.meal_type h /\
          Meal.notes meal = MealRow.notes h) /\
      (forall item, In item (Meal.items meal) ->
         exists f i,
           In f (Store.foods db) /\ In i (Store.meal_items db) /\
           MealItemRow.food_id i = FoodRow.id f /\
           FoodItem.id item = FoodRow.id f /\
           FoodItem.name item = FoodRow.name f).
Proof.
  destruct (get_meals_by_date_range_returns db user_id start_date end_date)
    as (days & Hrun).
  exists days. split; [exact Hrun|].
  intros day attr meal Hday Hget.
  destruct (get_meals_by_date_range_meal _ _ _ _ _ _ _ _ Hrun Hday Hget)
    as (r & rows & Hrows & Hid & Htype & Hnotes & Hitems).
  assert (Hslot : forall x, In x (r :: rows) ->
            In x (sql_select_meals_range db user_id start_date end_date) /\
            date_str (RangeRow.meal_date x) = DayData.date day /\
            _map_meal_type_to_key (RangeRow.meal_type x) = attr).
  { intros x Hx. rewrite <- Hrows in Hx. unfold slot_rows in Hx.
    apply filter_In in Hx. destruct Hx as [Hx Hp].
    rewrite andb_true_iff, !String.eqb_eq in Hp. tauto. }
  split.
  - destruct (Hslot r (or_introl eq_refl)) as (Hr & Hd & Hk).
    destruct (sql_select_meals_range_row _ _ _ _ _ Hr)
      as (h & Hh & (Hu & Hs & He) & Hmid & Hmd & _ & Hmt & Hmn & _).
    exists h. rewrite Hmd in Hd. rewrite Hmt in Hk, Htype.
    rewrite Hmn in Hnotes. rewrite Hmid in Hid.
    repeat apply conj; assumption.
  - intros item Hitem. rewrite Hitems in Hitem.
    apply In_omap in Hitem. destruct Hitem as (x & Hx & Hfi).
    destruct (Hslot x Hx) as (Hr & _).
    destruct (sql_select_meals_range_row _ _ _ _ _ Hr) as (h & _ & _ & _ & _ & _ & _ & _ & Hfood).
    unfold row_food_item in Hfi.
    destruct (RangeRow.food x) as [f|] eqn:Ef; [|discriminate].
    cbn [option_map] in Hfi. injection Hfi as <-.
    destruct (Hfood f eq_refl) as (Hf & i & Hi & _ & Hfid).
    exists f, i. cbn. repeat apply conj; assumption || reflexivity.
Qed.

(** X16. A deleted meal is gone from the day view: after [delete_meal],
    the day reconstructor returns, for any user and range, and no record
    it returns holds a meal with the deleted id. *)
Theorem delete_meal_gone (db : Store.t) (meal_id : ident) (user_id : string)
  (start_date end_date : date) :
  exists days,
    get_meals_by_date_range (delete_meal db meal_id) user_id start_date end_date
    = Some days /\
    forall day attr meal,
      In day days ->
      getattr (DayData.meals day) attr = Some (Some meal) ->
      Meal.id meal <> meal_id.
Proof.
  destruct (get_meals_by_date_range_returns (delete_meal db meal_id) user_id
              start_date end_date) as (days & Hrun).
  exists days. split; [exact Hrun|].
  intros day attr meal Hday Hget.
  destruct (get_meals_by_date_range_meal _ _ _ _ _ _ _ _ Hrun Hday Hget)
    as (r & rows & Hrows & Hid & _).
  assert (Hr : In r (sql_select_meals_range (delete_meal db meal_id) user_id
                       start_date end_date)).
  { assert (Hin : In r (r :: rows)) by (left; reflexivity).
    rewrite <- Hrows in Hin. unfold slot_rows in Hin.
    apply filter_In in Hin. tauto. }
  destruct (sql_select_meals_range_row _ _ _ _ _ Hr) as (h & Hh & _ & Hmid & _).
  unfold delete_meal in Hh. cbn in Hh. apply filter_In in Hh.
  destruct Hh as [_ Hne]. apply negb_true_iff, Nat.eqb_neq in Hne.
  congruence.
Qed.

(** ** Deleting a slot *)

Lemma find_filter_keep {A} (p q : A -> bool) l h :
  find p l = Some h -> q h = true -> find p (List.filter q l) = Some h.
Proof.
  induction l as [|x l IH]; simpl; [discriminate|].
  destruct (p x) eqn:Ep.
  - intros [= ->] Hq. rewrite Hq. simpl. rewrite Ep. reflexivity.
  - intros Hf Hq. destruct (q x); simpl; [rewrite Ep|]; apply IH; assumption.
Qed.

Lemma find_all_false {A} (p : A -> bool) l :
  (forall x, In x l -> p x = false) -> find p l = None.
Proof.
  induction l as [|x l IH]; simpl; intros H; [reflexivity|].
  rewrite (H x (or_introl eq_refl)). apply IH. intros y Hy. apply H. right. exact Hy.
Qed.

(** X17. Delete-slot removes the header of the given id and no other:
    a slot whose header has another id keeps its header and reads the same
    foods in the same order; with unique headers, the slot whose header was
    deleted has no header afterwards. *)
Theorem delete_meal_frame (db : Store.t) (meal_id : ident) (user_id : string)
  (date : date) (meal_type : string) (header : MealRow.t) :
  find_slot db user_id date meal_type = Some header ->
  let db' := delete_meal db meal_id in
  (forall m, In m (Store.meals db') <-> In m (Store.meals db) /\ MealRow.id m <> meal_id) /\
  (MealRow.id header <> meal_id ->
   find_slot db' user_id date meal_type = Some header /\
   slot_foods db' user_id date meal_type = slot_foods db user_id date meal_type) /\
  (slots_unique db -> MealRow.id header = meal_id ->
   find_slot db' user_id date meal_type = None /\
   slot_foods db' user_id date meal_type = None).
Proof.
  intros Hfind. cbv zeta. split; [|split].
  - intros m. unfold delete_meal. cbn. rewrite filter_In, negb_true_iff, Nat.eqb_neq.
    reflexivity.
  - intros Hne.
    assert (Hfind' : find_slot (delete_meal db meal_id) user_id date meal_type
                     = Some header).
    { unfold find_slot, delete_meal. cbn. apply find_filter_keep; [exact Hfind|].
      apply negb_true_iff, Nat.eqb_neq. exact Hne. }
    split; [exact Hfind'|]. unfold slot_foods. rewrite Hfind', Hfind. reflexivity.
  - intros Hu Hid.
    assert (Hfind' : find_slot (delete_meal db meal_id) user_id date meal_type = None).
    { unfold find_slot, delete_meal. cbn. apply find_all_false.
      intros x Hx. apply filter_In in Hx. destruct Hx as [Hx Hkeep].
      destruct (same_slot user_id date meal_type x) eqn:Es; [|reflexivity].
      exfalso. unfold find_slot in Hfind. apply find_some in Hfind.
      destruct Hfind as [Hh Hs].
      apply same_slot_key in Es. apply same_slot_key in Hs.
      assert (x = header).
      { apply (NoDup_map_inj slot_key (Store.meals db)); [exact Hu|exact Hx|exact Hh|].
        congruence. }
      subst x. apply negb_true_iff, Nat.eqb_neq in Hkeep. contradiction. }
    split; [exact Hfind'|]. unfold slot_foods. rewrite Hfind'. reflexivity.
Qed.

Lemma delete_meal_frame_witness :
  find_slot (delete_meal example_day 102) "U" (mkDate 2024 1 5) "Lunch" = None /\
  slot_foods (delete_meal example_day 102) "U" (mkDate 2024 1 5) "Lunch" = None.
Proof.
  destruct (delete_meal_frame example_day 102 "U" (mkDate 2024 1 5) "Lunch"
              (MealRow.mk 102 "U" (mkDate 2024 1 5) "Friday" "Lunch" None) eq_refl)
    as (_ & _ & Hgone).
  exact (Hgone example_day_slots_unique eq_refl).
Defined.

(** ** The order of the date strings *)

Lemma digit_compare a b :
  (0 <= a < 10)%Z -> (0 <= b < 10)%Z ->
  Ascii.compare (digit a) (digit b) = (a ?= b)%Z.
Proof.
  intros Ha Hb.
  assert (Ea : (a = 0 \/ a = 1 \/ a = 2 \/ a = 3 \/ a = 4 \/ a = 5 \/ a = 6
                \/ a = 7 \/ a = 8 \/ a = 9)%Z) by lia.
  assert (Eb : (b = 0 \/ b = 1 \/ b = 2 \/ b = 3 \/ b = 4 \/ b = 5 \/ b = 6
                \/ b = 7 \/ b = 8 \/ b = 9)%Z) by lia.
  clear Ha Hb.
  decompose [or] Ea; decompose [or] Eb; subst; reflexivity.
Qed.

Lemma append_String c s t :
  String.append (String c s) t = String c (String.append s t).
Proof. reflexivity. Qed.

Lemma append_EmptyString t : String.append EmptyString t = t.
Proof. reflexivity. Qed.

Lemma append_EmptyString_r s : String.append s EmptyString = s.
Proof.
  induction s as [|c s IH]; [reflexivity|]. rewrite append_String, IH. reflexivity.
Qed.

Lemma pad2_compare a b s t :
  (0 <= a < 100)%Z -> (0 <= b < 100)%Z ->
  String.compare (String.append (pad2 a) s) (String.append (pad2 b) t)
  = match (a ?= b)%Z with
    | Eq => String.compare s t
    | c => c
    end.
Proof.
  intros Ha Hb. unfold pad2. rewrite !append_String, !append_EmptyString.
  cbn [String.compare].
  rewrite !digit_compare by (apply mod10_range).
  destruct (Z.compare_spec (a / 10 mod 10) (b / 10 mod 10));
    [destruct (Z.compare_spec (a mod 10) (b mod 10))| |];
    destruct (Z.compare_spec a b); try reflexivity;
    exfalso; Z.to_euclidean_division_equations; lia.
Qed.

Lemma pad4_compare a b s t :
  (0 <= a < 10000)%Z -> (0 <= b < 10000)%Z ->
  String.compare (String.append (pad4 a) s) (String.append (pad4 b) t)
  = match (a ?= b)%Z with
    | Eq => String.compare s t
    | c => c
    end.
Proof.
  intros Ha Hb. unfold pad4, pad2. rewrite !append_String, !append_EmptyString.
  cbn [String.compare].
  rewrite !digit_compare by (apply mod10_range).
  destruct (Z.compare_spec (a / 1000 mod 10) (b / 1000 mod 10));
    [destruct (Z.compare_spec (a / 100 mod 10) (b / 100 mod 10));
     [destruct (Z.compare_spec (a / 10 mod 10) (b / 10 mod 10));
      [destruct (Z.compare_spec (a mod 10) (b mod 10))| |]| |]| |];
    destruct (Z.compare_spec a b); try reflexivity;
    exfalso; Z.to_euclidean_division_equations; lia.
Qed.

(** On calendar dates, comparing the ISO strings character by character
    is comparing the dates. *)
Lemma date_str_lt a b :
  date_valid a -> date_valid b -> date_lt a b ->
  String.ltb (date_str a) (date_str b) = true.
Proof.
  unfold date_valid, date_lt, String.ltb, date_str. intros Ha Hb Hlt.
  rewrite pad4_compare by lia.
  rewrite !append_String, !append_EmptyString. cbn [String.compare].
  change (Ascii.compare "-" "-") with Eq. cbv iota.
  rewrite pad2_compare by lia.
  cbn [String.compare].
  change (Ascii.compare "-" "-") with Eq. cbv iota.
  rewrite <- (append_EmptyString_r (pad2 (day a))) at 1.
  rewrite <- (append_EmptyString_r (pad2 (day b))) at 1.
  rewrite pad2_compare by lia.
  destruct (Z.compare_spec (year a) (year b)); [|reflexivity|lia].
  destruct (Z.compare_spec (month a) (month b)); [|reflexivity|lia].
  destruct (Z.compare_spec (day a) (day b)); [lia|reflexivity|lia].
Qed.

(** The dates of the returned records are calendar dates in strictly
    ascending order. *)
Lemma get_meals_by_date_range_dates db u s e days :
  dates_valid db ->
  get_meals_by_date_range db u s e = Some days ->
  exists dates,
    map DayData.date days = map date_str dates /\
    StronglySorted date_lt dates /\
    (forall d, In d dates -> date_valid d).
Proof.
  intros Hvalid. unfold get_meals_by_date_range.
  set (results := sql_select_meals_range db u s e).
  match goal with
  | |- context [group_row ?nm] => generalize nm
  end.
  intros nutrients_map.
  destruct (group_rows_keys nutrients_map results [] eq_refl)
    as (day_map & Hloop & Hkeyed & Hkeys).
  rewrite Hloop. simpl.
  destruct (summarise_days_dates (dict_values day_map)) as (days' & Hdays & Hdates).
  rewrite Hdays. intros [= <-].
  assert (Hrows : forall d, In d (map RangeRow.meal_date results) -> date_valid d).
  { intros d Hd. apply sql_select_meals_range_dates in Hd.
    destruct Hd as (m & Hm & _ & <-). apply Hvalid. exact Hm. }
  destruct (add_keys_sorted (map RangeRow.meal_date results) [])
    as (dates & Hfold & Hsorted & Hin).
  { intros x []. }
  { exact Hrows. }
  { constructor. }
  { apply sql_select_meals_range_sorted. }
  { intros a b []. }
  rewrite map_map in Hfold. simpl in Hkeys, Hfold. rewrite Hfold in Hkeys.
  exists dates. split; [|split; [exact Hsorted|]].
  - rewrite Hdates. unfold keyed in Hkeyed. rewrite Hkeyed. exact Hkeys.
  - intros d Hd. apply Hrows. apply Hin in Hd. simpl in Hd. tauto.
Qed.

(** X18. With calendar dates in the store, the day reconstructor returns
    records whose date strings are in strictly ascending order as strings,
    compared character by character: a consumer that sorts or compares the
    records by their [date] field gets the calendar order. *)
Theorem get_meals_by_date_range_date_strings (db : Store.t) (user_id : string)
  (start_date end_date : date) :
  dates_valid db ->
  exists days,
    get_meals_by_date_range db user_id start_date end_date = Some days /\
    StronglySorted (fun a b => String.ltb a b = true) (map DayData.date days).
Proof.
  intros Hvalid.
  destruct (get_meals_by_date_range_returns db user_id start_date end_date)
    as (days & Hrun).
  exists days. split; [exact Hrun|].
  destruct (get_meals_by_date_range_dates _ _ _ _ _ Hvalid Hrun)
    as (dates & -> & Hsorted & Hv).
  induction Hsorted as [|d dates Hs IH Hd]; simpl; constructor.
  - apply IH. intros x Hx. apply Hv. right. exact Hx.
  - apply List.Forall_forall. intros x Hx. apply in_map_iff in Hx.
    destruct Hx as (d' & <- & Hd'). rewrite List.Forall_forall in Hd.
    apply date_str_lt; [apply Hv; left; reflexivity|apply Hv; right; exact Hd'|].
    apply Hd. exact Hd'.
Qed.

Lemma get_meals_by_date_range_date_strings_witness :
  exists days,
    get_meals_by_date_range example_day "U" (mkDate 2024 1 1) (mkDate 2024 1 31)
    = Some days /\
    StronglySorted (fun a b => String.ltb a b = true) (map DayData.date days).
Proof.
  exact (get_meals_by_date_range_date_strings example_day "U" (mkDate 2024 1 1)
           (mkDate 2024 1 31) example_day_dates_valid).
Defined.

(** ** The week view *)

Lemma days_in_month_range y m : (28 <= days_in_month y m <= 31)%Z.
Proof.
  unfold days_in_month.
  destruct (m =? 2)%Z; [destruct (is_leap y); lia|].
  destruct ((m =? 4) || (m =? 6) || (m =? 9) || (m =? 11))%Z; lia.
Qed.

Lemma calendar_date_valid d : calendar_date d -> date_valid d.
Proof.
  unfold calendar_date, date_valid.
  pose proof (days_in_month_range (year d) (month d)). lia.
Qed.

Lemma calendar_dates_valid db : calendar_dates db -> dates_valid db.
Proof. intros H m Hm. apply calendar_date_valid. apply H. exact Hm. Qed.

Lemma date_eq a b : year a = year b -> month a = month b -> day a = day b -> a = b.
Proof. destruct a, b. simpl. intros -> -> ->. reflexivity. Qed.

Lemma next_day_calendar d :
  calendar_date d -> (year (next_day d) <= 9999)%Z -> calendar_date (next_day d).
Proof.
  unfold calendar_date, next_day. intros (Hy & Hm & Hd).
  destruct (Z.ltb_spec (day d) (days_in_month (year d) (month d))); simpl.
  - lia.
  - destruct (Z.ltb_spec (month d) 12); simpl.
    + pose proof (days_in_month_range (year d) (month d + 1)). lia.
    + intros Hy'. change (days_in_month (year d + 1) 1) with 31%Z. lia.
Qed.

(** No date of the calendar lies between a date and the day after. *)
Lemma next_day_least a d :
  calendar_date a -> calendar_date d -> date_le a d ->
  d = a \/ date_le (next_day a) d.
Proof.
  unfold calendar_date, date_le, next_day. intros (Hya & Hma & Hda) (Hyd & Hmd & Hdd) Hle.
  destruct (Z.eq_dec (year a) (year d)) as [Ey|Ny];
    [destruct (Z.eq_dec (month a) (month d)) as [Em|Nm];
     [destruct (Z.eq_dec (day a) (day d)) as [Ed|Nd]|]|].
  - left. symmetry. apply date_eq; assumption.
  - right. rewrite <- Ey, <- Em in Hdd.
    destruct (Z.ltb_spec (day a) (days_in_month (year a) (month a))); simpl; lia.
  - right. destruct (Z.ltb_spec (day a) (days_in_month (year a) (month a))); simpl;
      [lia|].
    destruct (Z.ltb_spec (month a) 12); simpl; lia.
  - right. destruct (Z.ltb_spec (day a) (days_in_month (year a) (month a))); simpl;
      [lia|].
    destruct (Z.ltb_spec (month a) 12); simpl; lia.
Qed.

Lemma date_le_next_day a : date_le a (next_day a).
Proof.
  unfold date_le, next_day.
  destruct (Z.ltb_spec (day a) (days_in_month (year a) (month a))); simpl; [lia|].
  destruct (Z.ltb_spec (month a) 12); simpl; lia.
Qed.

Lemma iter_next_day_year n a : (year a <= year (Nat.iter n next_day a))%Z.
Proof.
  induction n as [|n IH]; simpl; [lia|].
  pose proof (date_le_next_day (Nat.iter n next_day a)) as H.
  unfold date_le in H. lia.
Qed.

(** The calendar dates from a date to [n] days later are that date moved
    on by 0 to [n] days. *)
Lemma dates_between n : forall a d,
  calendar_date a -> calendar_date d ->
  date_le a d -> date_le d (Nat.iter n next_day a) ->
  exists k, k <= n /\ d = Nat.iter k next_day a.
Proof.
  induction n as [|n IH]; intros a d Ha Hd Hle Hge.
  - exists 0. split; [lia|]. simpl in *. apply date_le_antisym; assumption.
  - destruct (next_day_least a d Ha Hd Hle) as [->|Hnext]; [exists 0; split; [lia|reflexivity]|].
    assert (Hy : (year (next_day a) <= 9999)%Z).
    { unfold date_le in Hnext. unfold calendar_date in Hd. lia. }
    rewrite Nat.iter_succ_r in Hge.
    destruct (IH (next_day a) d (next_day_calendar a Ha Hy) Hd Hnext Hge)
      as (k & Hk & ->).
    exists (S k). split; [lia|]. rewrite Nat.iter_succ_r. reflexivity.
Qed.

Lemma get_meals_by_date_range_in_range db u s e days day :
  dates_valid db ->
  get_meals_by_date_range db u s e = Some days -> In day days ->
  exists m,
    In m (Store.meals db) /\ in_range u s e m /\
    DayData.date day = date_str (MealRow.log_date m).
Proof.
  intros Hvalid. unfold get_meals_by_date_range.
  set (results := sql_select_meals_range db u s e).
  match goal with
  | |- context [group_row ?nm] => generalize nm
  end.
  intros nutrients_map.
  destruct (group_rows_keys nutrients_map results [] eq_refl)
    as (day_map & Hloop & Hkeyed & Hkeys).
  rewrite Hloop. simpl.
  destruct (summarise_days_dates (dict_values day_map)) as (days' & Hdays & Hdates).
  rewrite Hdays. intros [= <-] Hday.
  assert (Hrows : forall d, In d (map RangeRow.meal_date results) -> date_valid d).
  { intros d Hd. apply sql_select_meals_range_dates in Hd.
    destruct Hd as (m & Hm & _ & <-). apply Hvalid. exact Hm. }
  destruct (add_keys_sorted (map RangeRow.meal_date results) [])
    as (dates & Hfold & Hsorted & Hin).
  { intros x []. }
  { exact Hrows. }
  { constructor. }
  { apply sql_select_meals_range_sorted. }
  { intros a b []. }
  rewrite map_map in Hfold. simpl in Hkeys, Hfold. rewrite Hfold in Hkeys.
  apply (in_map DayData.date) in Hday.
  rewrite Hdates in Hday. unfold keyed in Hkeyed. rewrite Hkeyed, Hkeys in Hday.
  apply in_map_iff in Hday. destruct Hday as (d & Hd & Hdin).
  apply Hin in Hdin. destruct Hdin as [[]|Hdin].
  apply sql_select_meals_range_dates in Hdin.
  destruct Hdin as (m & Hm & Hr & <-). exists m. auto.
Qed.

Lemma all_from_spec f n : forall z k,
  all_from f n z = true -> (z <= k < z + Z.of_nat n)%Z -> f k = true.
Proof.
  induction n as [|n IH]; intros z k; cbn [all_from]; [lia|].
  rewrite andb_true_iff. intros [Hz Hrest] Hk.
  destruct (Z.eq_dec k z) as [->|Hne]; [exact Hz|].
  apply (IH (z + 1)%Z); [exact Hrest|lia].
Qed.

Lemma decimal_pad4 y : (1000 <= y <= 9999)%Z -> decimal y = pad4 y.
Proof.
  intros Hy. apply String.eqb_eq.
  apply (all_from_spec (fun k => String.eqb (decimal k) (pad4 k))
           (Z.to_nat 9000) 1000); [vm_compute; reflexivity|lia].
Qed.

Lemma decimal_short y : (1 <= y < 1000)%Z -> String.length (decimal y) <= 3.
Proof.
  intros Hy. apply Nat.leb_le.
  apply (all_from_spec (fun k => String.length (decimal k) <=? 3)
           (Z.to_nat 999) 1); [vm_compute; reflexivity|lia].
Qed.

Lemma length_append a b :
  String.length (String.append a b) = String.length a + String.length b.
Proof.
  induction a as [|c a IH]; [reflexivity|].
  rewrite append_String. cbn [String.length]. rewrite IH. reflexivity.
Qed.

(** From year 1000 on [strftime] prints the ISO form; below, a shorter
    string. *)
Lemma strftime_iso d : (1000 <= year d <= 9999)%Z -> strftime d = date_str d.
Proof. intros Hy. unfold strftime, date_str. rewrite decimal_pad4 by exact Hy. reflexivity. Qed.

Lemma strftime_short d :
  (1 <= year d < 1000)%Z ->
  String.length (strftime d) < String.length (date_str d).
Proof.
  intros Hy. pose proof (decimal_short (year d) Hy) as Hlen.
  unfold strftime, date_str. rewrite !length_append.
  unfold pad4, pad2. cbn [String.length]. lia.
Qed.

(** The steps of [get_week_meals] once [strptime] has read the start
    date. *)
Lemma get_week_meals_steps strptime to_date db user_id start_date start :
  strptime start_date = Some start ->
  get_week_meals strptime to_date db user_id start_date
  = if (year (Nat.iter 6 next_day start) <=? 9999)%Z
    then match to_date start_date with
         | Some range_start =>
             match to_date (strftime (Nat.iter 6 next_day start)) with
             | Some range_end =>
                 get_meals_by_date_range db user_id range_start range_end
             | None => None
             end
         | None => None
         end
    else None.
Proof.
  intros Hparse. unfold get_week_meals, add_days. rewrite Hparse.
  cbn [mbind option_bind].
  destruct (year (Nat.iter 6 next_day start) <=? 9999)%Z; [|reflexivity].
  cbn [mbind option_bind].
  destruct (to_date start_date); [|reflexivity].
  cbn [mbind option_bind].
  destruct (to_date (strftime (Nat.iter 6 next_day start))); reflexivity.
Qed.

(** X19. The week view.  Let the stored dates and the start date exist in
    the calendar, and let the store read the start string as the date
    that [strptime] reads from it.  When the sixth day after the start is
    in the years 1000 to 9999, and the store reads its ISO string as that
    date, the call returns; every returned record is dated 0 to 6 days
    after the start date, the records are in strictly ascending date
    order, and there are at most seven of them.  When the sixth day is
    past year 9999 the call raises.  When it is before year 1000, the end
    date is sent with a year of fewer than four digits, not in the ISO
    form, and the range ends at whatever date the store reads from that
    string. *)
Theorem get_week_meals_week (strptime to_date : string -> option date)
  (db : Store.t) (user_id start_date : string) (start : date) :
  calendar_dates db -> calendar_date start ->
  strptime start_date = Some start ->
  to_date start_date = Some start ->
  let last := Nat.iter 6 next_day start in
  ((1000 <= year last <= 9999)%Z ->
   to_date (date_str last) = Some last ->
   exists days,
     get_week_meals strptime to_date db user_id start_date = Some days /\
     (forall day, In day days ->
        exists k, k <= 6 /\
                  DayData.date day = date_str (Nat.iter k next_day start)) /\
     StronglySorted (fun a b => String.ltb a b = true) (map DayData.date days) /\
     length days <= 7) /\
  ((9999 < year last)%Z ->
   get_week_meals strptime to_date db user_id start_date = None) /\
  ((year last < 1000)%Z ->
   String.length (strftime last) < String.length (date_str last) /\
   strftime last <> date_str last /\
   get_week_meals strptime to_date db user_id start_date
   = match to_date (strftime last) with
     | Some range_end => get_meals_by_date_range db user_id start range_end
     | None => None
     end).
Proof.
  intros Hcal Hstart Hparse Hread. cbv zeta.
  rewrite (get_week_meals_steps strptime to_date db user_id start_date start Hparse).
  rewrite Hread.
  pose proof (iter_next_day_year 6 start) as Hyear.
  assert (Hy1 : (1 <= year start)%Z) by (unfold calendar_date in Hstart; lia).
  split; [|split].
  - intros Hy Hlast.
    rewrite (proj2 (Z.leb_le _ _) (proj2 Hy)).
    rewrite (strftime_iso _ Hy), Hlast.
    destruct (get_meals_by_date_range_returns db user_id start
                (Nat.iter 6 next_day start)) as (days & Hrun).
    exists days. split; [exact Hrun|].
    pose proof (calendar_dates_valid db Hcal) as Hvalid.
    assert (Hdays : forall day, In day days ->
              exists k, k <= 6 /\
                        DayData.date day = date_str (Nat.iter k next_day start)).
    { intros day Hday.
      destruct (get_meals_by_date_range_in_range _ _ _ _ _ _ Hvalid Hrun Hday)
        as (m & Hm & (_ & Hs & He) & Hd).
      destruct (dates_between 6 start (MealRow.log_date m) Hstart (Hcal m Hm) Hs He)
        as (k & Hk & Heq).
      exists k. split; [exact Hk|]. rewrite Hd, Heq. reflexivity. }
    destruct (get_meals_by_date_range_dates _ _ _ _ _ Hvalid Hrun)
      as (dates & Hdd & Hsorted & Hv).
    split; [exact Hdays|]. split.
    + rewrite Hdd. clear Hdd Hdays.
      induction Hsorted as [|d dates' Hs IH Hd]; simpl; constructor.
      * apply IH. intros x Hx. apply Hv. right. exact Hx.
      * apply List.Forall_forall. intros x Hx. apply in_map_iff in Hx.
        destruct Hx as (d' & <- & Hd'). rewrite List.Forall_forall in Hd.
        apply date_str_lt; [apply Hv; left; reflexivity|apply Hv; right; exact Hd'|].
        apply Hd. exact Hd'.
    + rewrite <- (length_map DayData.date).
      change 7 with (length (map (fun k => date_str (Nat.iter k next_day start))
                               (seq 0 7))).
      apply NoDup_incl_length.
      * rewrite Hdd. apply NoDup_map_date_str; [exact Hv|].
        apply StronglySorted_lt_NoDup. exact Hsorted.
      * intros x Hx. apply in_map_iff in Hx. destruct Hx as (day & <- & Hday).
        destruct (Hdays day Hday) as (k & Hk & ->).
        apply in_map_iff. exists k. split; [reflexivity|]. apply in_seq. lia.
  - intros Hover.
    rewrite (proj2 (Z.leb_gt _ _) Hover). reflexivity.
  - intros Hlow.
    assert (Hshort : String.length (strftime (Nat.iter 6 next_day start))
                     < String.length (date_str (Nat.iter 6 next_day start)))
      by (apply strftime_short; lia).
    split; [exact Hshort|]. split; [intros Heq; rewrite Heq in Hshort; lia|].
    assert (Hle : (year (Nat.iter 6 next_day start) <= 9999)%Z) by lia.
    rewrite (proj2 (Z.leb_le _ _) Hle). reflexivity.
Qed.

Lemma example_day_calendar_dates : calendar_dates example_day.
Proof.
  intros m Hm. vm_compute in Hm. unfold calendar_date.
  decompose [or] Hm; try contradiction; subst; vm_compute; intuition discriminate.
Qed.

Lemma get_week_meals_week_witness :
  let read s :=
    if String.eqb s "2023-12-30" then Some (mkDate 2023 12 30)
    else if String.eqb s "2024-01-05" then Some (mkDate 2024 1 5)
    else None in
  exists days,
    get_week_meals read read example_day "U" "2023-12-30" = Some days /\
    length days <= 7.
Proof.
  cbv zeta.
  assert (Hstart : calendar_date (mkDate 2023 12 30))
    by (vm_compute; intuition discriminate).
  destruct (get_week_meals_week
              (fun s => if String.eqb s "2023-12-30" then Some (mkDate 2023 12 30)
                        else if String.eqb s "2024-01-05" then Some (mkDate 2024 1 5)
                        else None)
              (fun s => if String.eqb s "2023-12-30" then Some (mkDate 2023 12 30)
                        else if String.eqb s "2024-01-05" then Some (mkDate 2024 1 5)
                        else None)
              example_day "U" "2023-12-30" (mkDate 2023 12 30)
              example_day_calendar_dates Hstart eq_refl eq_refl) as (Hreturns & _).
  destruct (Hreturns ltac:(vm_compute; split; discriminate) eq_refl)
    as (days & Hrun & _ & _ & Hlen).
  exists days. split; [exact Hrun|exact Hlen].
Defined.

(** ** Searching the catalogue *)

Lemma In_firstn {A} n (l : list A) x : In x (firstn n l) -> In x l.
Proof.
  revert l. induction n as [|n IH]; intros [|y l]; simpl; try tauto.
  intros [->|H]; [left; reflexivity|right; apply IH; exact H].
Qed.

(** X20. Food search returns at most 20 items; every item is a stored
    food whose name matches the pattern made of the query between two
    [%]; when no more than 20 foods match, every matching food is
    returned; and (food ids being unique) each item is the one that
    get-food-by-id finds. *)
Theorem search_foods_spec (ilike : string -> string -> bool) (db : Store.t)
  (query : string) :
  let pattern := String.append "%" (String.append query "%") in
  let matches row := ilike (FoodRow.name row) pattern in
  length (search_foods ilike db query) <= 20 /\
  (forall item, In item (search_foods ilike db query) ->
     exists row,
       In row (Store.foods db) /\ matches row = true /\
       FoodItem.id item = FoodRow.id row /\ FoodItem.name item = FoodRow.name row) /\
  (length (List.filter matches (Store.foods db)) <= 20 ->
   forall row, In row (Store.foods db) -> matches row = true ->
     exists item, In item (search_foods ilike db query) /\
                  FoodItem.id item = FoodRow.id row) /\
  (List.NoDup (map FoodRow.id (Store.foods db)) ->
   forall item, In item (search_foods ilike db query) ->
                get_food_by_id db (FoodItem.id item) = Some item).
Proof.
  cbv zeta. unfold search_foods, sql_search_foods.
  set (pattern := String.append "%" (String.append query "%")).
  set (matches := fun f => ilike (FoodRow.name f) pattern).
  set (by_name := fun a b => String.leb (FoodRow.name a) (FoodRow.name b)).
  set (results := firstn 20 (order_by by_name (List.filter matches (Store.foods db)))).
  assert (Hres : forall row, In row results ->
                             In row (Store.foods db) /\ matches row = true).
  { intros row Hrow. unfold results in Hrow. apply In_firstn in Hrow.
    apply In_order_by in Hrow. apply filter_In in Hrow. exact Hrow. }
  split; [|split; [|split]].
  - rewrite length_map. apply firstn_le_length.
  - intros item Hitem. apply in_map_iff in Hitem. destruct Hitem as (row & <- & Hrow).
    destruct (Hres row Hrow) as [Hin Hm]. exists row. auto.
  - intros Hfew row Hrow Hm.
    eexists. split; [apply in_map_iff; exists row; split; [reflexivity|]|reflexivity].
    unfold results. rewrite firstn_all2.
    + apply In_order_by. apply filter_In. auto.
    + rewrite (Permutation_length (order_by_perm by_name _)). exact Hfew.
  - intros Hnd item Hitem. apply in_map_iff in Hitem.
    destruct Hitem as (row & <- & Hrow). destruct (Hres row Hrow) as [Hin _].
    cbn [FoodItem.id _map_food_item].
    unfold get_food_by_id, sql_select_food_by_id.
    destruct (find _ (Store.foods db)) as [row'|] eqn:E.
    + destruct (find_some _ _ E) as [Hin' Hid]. apply Nat.eqb_eq in Hid.
      assert (row' = row) by (apply (NoDup_map_inj FoodRow.id _ _ _ Hnd); assumption).
      subst row'. cbv zeta.
      rewrite (nutrients_map_batch db (map FoodRow.id results)); [reflexivity|].
      apply in_map. exact Hrow.
    + pose proof (find_none _ _ E row Hin) as Hf. simpl in Hf.
      rewrite Nat.eqb_refl in Hf. discriminate.
Qed.

Lemma search_foods_spec_witness :
  List.NoDup (map FoodRow.id (Store.foods example_foods)) /\
  forall item,
    In item (search_foods (fun name _ => String.prefix "Oat" name) example_foods "oat") ->
    get_food_by_id example_foods (FoodItem.id item) = Some item.
Proof.
  assert (Hnd : List.NoDup (map FoodRow.id (Store.foods example_foods))).
  { simpl. repeat (constructor; [simpl; lia|]). constructor. }
  split; [exact Hnd|].
  destruct (search_foods_spec (fun name _ => String.prefix "Oat" name) example_foods "oat")
    as (_ & _ & _ & Hsame).
  exact (Hsame Hnd).
Defined.
